(** * apko: pkg/build/oci/oci.go

    A shallow embedding of the image assembler and publisher of apko
    (package [oci]) and the properties of its specification.

    The Go code is written against go-containerregistry, cosign, shlex and
    retry-go.  Values of those libraries are records here, their pure
    functions whose results the code only passes on (hashing, reference
    parsing, tokenizing) are fields of the class [Collab], and everything
    the outside world decides (iteration order of Go maps, outcome of a
    write to the daemon or to a registry, the process environment) is a
    field of the record [Oracle].  The mutable part of the world that the
    code can observe or change is the record [State]: the Go maps shared
    with the caller, the files on disk and the trace of effects. *)

From Stdlib Require Import ZArith String Ascii.
From stdpp Require Import base option list strings gmap sorting.

Local Open Scope Z_scope.
Local Open Scope stdpp_scope.

(** ** Strings as Go has them: byte sequences ordered lexicographically *)

Module GoString.

(** [a < b] and [a <= b] on Go strings compare byte by byte. *)
Definition le (a b : string) : Prop := String.leb a b = true.
Definition lt (a b : string) : Prop := String.ltb a b = true.

#[global] Instance le_dec a b : Decision (le a b).
Proof. unfold le. apply _. Defined.

#[global] Instance lt_dec a b : Decision (lt a b).
Proof. unfold lt. apply _. Defined.

(** strings.Cut(s, sep): the text before and after the first [sep]. *)
Definition Cut (s sep : string) : string * string * bool :=
  match String.index 0 sep s with
  | Some i =>
      (String.substring 0 i s,
       String.substring (i + String.length sep)
         (String.length s - (i + String.length sep)) s,
       true)
  | None => (s, "", false)
  end.

(** strings.Replace(s, old, new, -1) for a one-byte [old]. *)
Fixpoint ReplaceByte (s : string) (old : ascii) (new : string) : string :=
  match s with
  | EmptyString => EmptyString
  | String c s' =>
      if Ascii.eqb c old then new +:+ ReplaceByte s' old new
      else String c (ReplaceByte s' old new)
  end.

End GoString.

(** ** Errors and results *)

(** A Go [error]: one made by a collaborator, one made here with
    [errors.New] or [fmt.Errorf], or one wrapped with the verb [%w].
    [Panic] stands for a run-time panic (a failed type assertion, a nil
    dereference): it is not an error value, and nothing here recovers
    from one. *)
Inductive error : Type :=
  | ExternalError (msg : string)
  | NewError (msg : string)
  | WrapError (prefix : string) (cause : error)
  | Panic (msg : string).

Inductive result (A : Type) : Type :=
  | Ok (a : A)
  | Err (e : error).
Arguments Ok {A} a.
Arguments Err {A} e.

Definition is_Ok {A} (r : result A) : Prop := ∃ a, r = Ok a.
Definition is_Err {A} (r : result A) : Prop := ∃ e, r = Err e.

#[global] Instance error_eq_dec : EqDecision error.
Proof. solve_decision. Defined.

#[global] Instance result_eq_dec `{EqDecision A} : EqDecision (result A).
Proof. solve_decision. Defined.

Definition wrap {A} (prefix : string) (r : result A) : result A :=
  match r with
  | Ok a => Ok a
  | Err e => Err (WrapError prefix e)
  end.

(** ** Values of the registry-client libraries *)

(** ggcrtypes.MediaType is a string type. *)
Abbreviation MediaType := string (only parsing).

Module ggcrtypes.
Definition OCILayer : MediaType := "application/vnd.oci.image.layer.v1.tar+gzip".
Definition DockerLayer : MediaType := "application/vnd.docker.image.rootfs.diff.tar.gzip".
Definition OCIManifestSchema1 : MediaType := "application/vnd.oci.image.manifest.v1+json".
Definition OCIConfigJSON : MediaType := "application/vnd.oci.image.config.v1+json".
Definition DockerManifestSchema2 : MediaType := "application/vnd.docker.distribution.manifest.v2+json".
Definition DockerConfigFile : MediaType := "application/vnd.docker.container.image.v1+json".
Definition OCIImageIndex : MediaType := "application/vnd.oci.image.index.v1+json".
Definition DockerManifestList : MediaType := "application/vnd.docker.distribution.manifest.list.v2+json".
End ggcrtypes.

Module ctypes.
Definition SPDXJSONMediaType : MediaType := "spdx+json".
Definition CycloneDXJSONMediaType : MediaType := "application/vnd.cyclonedx+json".
End ctypes.

(** time.Time, as seconds since the Unix epoch. *)
Abbreviation Time := Z (only parsing).
Definition zeroTime : Time := -62135596800.

(** v1.Hash *)
Record Hash := { Algorithm : string; Hex : string }.
Definition Hash_String (h : Hash) : string := Algorithm h +:+ ":" +:+ Hex h.

(** v1.Platform, the fields this package reads. *)
Record Platform := {
  plat_Architecture : string;
  plat_OS : string;
  plat_Variant : string
}.

(** A layer opened from a file: the bytes of the file and the media type
    it was tagged with. *)
Record Layer := { layer_bytes : string; layer_mediaType : MediaType }.

(** v1.History *)
Record History := {
  hist_Author : string;
  hist_Created : Time;
  hist_CreatedBy : string;
  hist_Comment : string
}.

(** v1.Config, the fields this package sets. A nil slice or map is the
    empty one. *)
Record Config := {
  cfg_Labels : gmap string string;
  cfg_Entrypoint : list string;
  cfg_Cmd : list string;
  cfg_WorkingDir : string;
  cfg_Env : list string;
  cfg_User : string
}.

(** v1.ConfigFile *)
Record ConfigFile := {
  cf_Architecture : string;
  cf_Author : string;
  cf_Created : Time;
  cf_History : list History;
  cf_OS : string;
  cf_RootFS_Type : string;
  cf_RootFS_DiffIDs : list Hash;
  cf_Config : Config;
  cf_Variant : string
}.

(** v1.Image: what its manifest and its config blob are made of. *)
Record v1Image := {
  img_mediaType : MediaType;
  img_configMediaType : MediaType;
  img_layers : list Layer;
  img_annotations : gmap string string;
  img_configFile : ConfigFile
}.

(** oci.File: a payload with the media type of its single layer. *)
Record File := { file_payload : string; file_layerMediaType : MediaType }.

(** oci.SignedImage: an image and the files attached to it by name. The
    attachments are kept beside the image, not in its manifest. *)
Record SignedImage := {
  si_image : v1Image;
  si_attachments : gmap string File
}.

(** v1.Descriptor *)
Record Descriptor := {
  desc_MediaType : MediaType;
  desc_Digest : Hash;
  desc_Size : Z;
  desc_Platform : option Platform
}.

(** ocimutate.IndexAddendum *)
Record IndexAddendum := { Add : SignedImage; Descriptor_ : Descriptor }.

(** oci.SignedImageIndex *)
Record SignedImageIndex := {
  idx_mediaType : MediaType;
  idx_adds : list IndexAddendum;
  idx_attachments : gmap string File
}.

(** oci.SignedEntity is an interface: a signed image, a signed index, or a
    value of any other dynamic type (nil included). *)
Inductive SignedEntity : Type :=
  | SEImage (i : SignedImage)
  | SEIndex (ii : SignedImageIndex)
  | SEOther.

(** Package name: repositories, tags, digests and references. *)
Record Repository := { Registry : string; RepositoryStr : string }.
Record Tag := { tag_Repository : Repository; TagStr : string }.
Record Digest := { dg_Repository : Repository; DigestStr : string }.
Inductive Reference : Type :=
  | RefTag (t : Tag)
  | RefDigest (d : Digest).

Module name.
Definition Repository_Name (r : Repository) : string :=
  Registry r +:+ "/" +:+ RepositoryStr r.
Definition Tag_Name (t : Tag) : string :=
  Repository_Name (tag_Repository t) +:+ ":" +:+ TagStr t.
Definition Digest_Name (d : Digest) : string :=
  Repository_Name (dg_Repository d) +:+ "@" +:+ DigestStr d.
Definition Reference_Name (r : Reference) : string :=
  match r with RefTag t => Tag_Name t | RefDigest d => Digest_Name d end.
(** ref.Context() *)
Definition Context (r : Reference) : Repository :=
  match r with RefTag t => tag_Repository t | RefDigest d => dg_Repository d end.
(** repo.Digest(identifier) *)
Definition Repository_Digest (r : Repository) (identifier : string) : Digest :=
  {| dg_Repository := r; DigestStr := identifier |}.
(** name.Digest{} and name.Repository{} *)
Definition zeroRepository : Repository := {| Registry := ""; RepositoryStr := "" |}.
Definition zeroDigest : Digest := {| dg_Repository := zeroRepository; DigestStr := "" |}.
End name.

#[global] Instance Hash_eq_dec : EqDecision Hash.
Proof. solve_decision. Defined.
#[global] Instance Platform_eq_dec : EqDecision Platform.
Proof. solve_decision. Defined.
#[global] Instance Repository_eq_dec : EqDecision Repository.
Proof. solve_decision. Defined.
#[global] Instance Tag_eq_dec : EqDecision Tag.
Proof. solve_decision. Defined.
#[global] Instance Digest_eq_dec : EqDecision Digest.
Proof. solve_decision. Defined.
#[global] Instance Reference_eq_dec : EqDecision Reference.
Proof. solve_decision. Defined.

(** ** Types of chainguard.dev/apko/pkg/build/types *)

(** Modelled from the spec: the declaration of types.Architecture is not
    among the sources. The spec gives it as a value type with no identity
    beyond its string form, so it is a wrapper of that string and
    [String] reads it. Its two tables, the OCI platform and the
    APK-style name, are taken as fields of [Collab]. *)
Record Architecture := { arch_s : string }.

Definition Architecture_String (a : Architecture) : string := arch_s a.

#[global] Instance Architecture_eq_dec : EqDecision Architecture.
Proof. solve_decision. Defined.
#[global] Instance Architecture_countable : Countable Architecture.
Proof. by apply (inj_countable' arch_s Build_Architecture); intros []. Defined.

(** A Go map shared between caller and callee is a cell of the heap. *)
Abbreviation loc := positive (only parsing).

(** types.ImageConfiguration, the fields this package reads. The struct is
    passed by value; [Annotations] and [Environment] are Go maps, that is
    references ([None] is the nil map) to cells that the caller keeps.
    Both have the type map[string]string, and the two fields may name the
    same cell. A map that exists is a cell of the heap: the properties
    that compare a map before and after a call ask for its cell. *)
Record ImageConfiguration := {
  Annotations : option loc;
  VCSUrl : string;
  Entrypoint_ShellFragment : string;
  Entrypoint_Command : string;
  Cmd : string;
  WorkDir : string;
  Environment : option loc;
  Accounts_RunAs : string
}.

(** ** Collaborators, the outside world and the state *)

(** The functions of the libraries (and of package types) that this
    package calls and whose results it passes on. They are functions of
    their arguments alone. *)
Class Collab := {
  (** shlex.Split *)
  shlex_Split : string → result (list string);
  (** layer.Digest(), layer.DiffID() *)
  layer_Digest : Layer → result Hash;
  layer_DiffID : Layer → result Hash;
  (** image.Digest() and image.Size(): hash and length of the manifest *)
  image_Digest : v1Image → result Hash;
  image_Size : v1Image → result Z;
  (** index.Digest(): hash of the index manifest *)
  index_Digest : MediaType → list Descriptor → result Hash;
  (** name.ParseReference, name.NewTag, name.NewDigest *)
  name_ParseReference : string → result Reference;
  name_NewTag : string → result Tag;
  name_NewDigest : string → result Digest;
  (** ociremote.SBOMTag(digest, opts), under an optional override of the
      target repository *)
  ociremote_SBOMTag : Digest → option Repository → result Tag;
  (** static.NewFile(payload, static.WithLayerMediaType(mt)) *)
  static_NewFile : string → MediaType → result File;
  (** filepath.Join(dir, file) *)
  filepath_Join : string → string → string;
  (** arch.ToAPK(), arch.ToOCIPlatform() *)
  ToAPK : Architecture → string;
  ToOCIPlatform : Architecture → Platform
}.

Inductive Level := DebugLevel | InfoLevel | WarnLevel | ErrorLevel.

(** What the package does to the world, in the order it does it. A write
    is recorded with its outcome. *)
Inductive Event : Type :=
  | EvLog (lvl : Level) (msg : string)
  | EvDaemonWrite (t : Tag) (image : SignedImage) (err : option error)
  | EvDaemonTag (src dst : Tag) (err : option error)
  | EvRemoteWrite (ref : Reference) (image : SignedImage) (err : option error)
  | EvRemoteWriteFile (ref : Tag) (f : File) (err : option error)
  | EvRemoteWriteIndex (ref : Reference) (index : SignedImageIndex) (err : option error).

(** What the outside world decides. The order in which [range] visits a
    Go map is not specified; the outcome of a write may depend on
    everything that happened before it. *)
Record Oracle := {
  rangeEnvironment : gmap string string → list (string * string);
  rangeImgs : gmap Architecture SignedImage → list Architecture;
  daemon_Write : list Event → Tag → SignedImage → string * option error;
  daemon_Tag : list Event → Tag → Tag → option error;
  remote_Write : list Event → Reference → SignedImage → option error;
  remote_WriteFile : list Event → Tag → File → option error;
  remote_WriteIndex : list Event → Reference → SignedImageIndex → option error;
  (** os.Getenv *)
  Getenv : string → string;
  (** ociremote.GetEnvTargetRepository() *)
  GetEnvTargetRepository : result Repository
}.

(** [range] visits every entry of the map once. *)
Definition range_ok (o : Oracle) : Prop :=
  (∀ m, rangeEnvironment o m ≡ₚ map_to_list m) ∧
  (∀ m, rangeImgs o m ≡ₚ (map_to_list m).*1).

Record State := {
  heap : gmap loc (gmap string string);
  files : gmap string string;
  trace : list Event
}.

Definition set_heap (h : gmap loc (gmap string string)) (s : State) : State :=
  {| heap := h; files := files s; trace := trace s |}.
Definition emit (e : Event) (s : State) : State :=
  {| heap := heap s; files := files s; trace := trace s ++ [e] |}.

(** ** A state and error monad *)

Definition M (A : Type) : Type := State → result A * State.

Definition ret {A} (a : A) : M A := λ s, (Ok a, s).
Definition fail {A} (e : error) : M A := λ s, (Err e, s).
Definition bind {A B} (m : M A) (k : A → M B) : M B :=
  λ s, match m s with
       | (Ok a, s') => k a s'
       | (Err e, s') => (Err e, s')
       end.
Definition liftR {A} (r : result A) : M A := λ s, (r, s).
Definition modify (f : State → State) : M unit := λ s, (Ok tt, f s).

#[global] Instance M_ret : MRet M := @ret.
#[global] Instance M_bind : MBind M := λ A B k m, bind m k.

(** logrus: Printf logs at the info level. *)
Definition log (lvl : Level) (msg : string) : M unit := modify (emit (EvLog lvl msg)).

(** The contents of a Go map; a nil map reads as the empty one. *)
Definition map_contents (s : State) (l : loc) : gmap string string :=
  default ∅ (heap s !! l).
(** make(map[string]string) or a map literal: a new cell. *)
Definition new_map (m : gmap string string) : M loc :=
  λ s, let l := fresh (dom (heap s)) in (Ok l, set_heap (<[l := m]> (heap s)) s).
(** m[k] = v *)
Definition map_store (l : loc) (k v : string) : M unit :=
  modify (λ s, set_heap (<[l := <[k := v]> (map_contents s l)]> (heap s)) s).
(** reading all of m *)
Definition map_load (l : loc) : M (gmap string string) :=
  λ s, (Ok (map_contents s l), s).

(** os.ReadFile *)
Definition os_ReadFile (path : string) : M string :=
  λ s, match files s !! path with
       | Some b => (Ok b, s)
       | None => (Err (ExternalError ("open " +:+ path +:+ ": no such file or directory")), s)
       end.

Definition wrapM {A} (prefix : string) (m : M A) : M A :=
  λ s, let '(r, s') := m s in (wrap prefix r, s').

(** retry.Do(f) with the default options: up to ten attempts, the call
    ends at the first that succeeds. *)
Fixpoint retry_attempts (n : nat) (f : M unit) (last : error) : M unit :=
  match n with
  | O => fail (WrapError "All attempts fail" last)
  | S n' => λ s, match f s with
                 | (Ok _, s') => (Ok tt, s')
                 | (Err e, s') => retry_attempts n' f e s'
                 end
  end.
Definition retry_Do (f : M unit) : M unit := retry_attempts 10 f (NewError "").

Definition escape_newlines (s : string) : string :=
  GoString.ReplaceByte s (Ascii.ascii_of_nat 10) "\n".

(** sort.Strings: the slice in increasing order. *)
Definition sort_Strings (l : list string) : list string := merge_sort GoString.le l.

(** sort.Slice(archs, func(i, j) { archs[i].String() < archs[j].String() }) *)
Definition arch_le (a b : Architecture) : Prop :=
  GoString.le (Architecture_String a) (Architecture_String b).
#[global] Instance arch_le_dec a b : Decision (arch_le a b).
Proof. unfold arch_le. apply _. Defined.
Definition sort_archs (l : list Architecture) : list Architecture := merge_sort arch_le l.

(** ** The image values of go-containerregistry and cosign *)

Module empty.
Definition Config_ : Config :=
  {| cfg_Labels := ∅; cfg_Entrypoint := []; cfg_Cmd := []; cfg_WorkingDir := "";
     cfg_Env := []; cfg_User := "" |}.
Definition ConfigFile_ : ConfigFile :=
  {| cf_Architecture := ""; cf_Author := ""; cf_Created := zeroTime; cf_History := [];
     cf_OS := ""; cf_RootFS_Type := "layers"; cf_RootFS_DiffIDs := [];
     cf_Config := Config_; cf_Variant := "" |}.
(** empty.Image *)
Definition Image : v1Image :=
  {| img_mediaType := ggcrtypes.DockerManifestSchema2;
     img_configMediaType := ggcrtypes.DockerConfigFile;
     img_layers := []; img_annotations := ∅; img_configFile := ConfigFile_ |}.
(** empty.Index *)
Definition Index : SignedImageIndex :=
  {| idx_mediaType := ggcrtypes.OCIImageIndex; idx_adds := []; idx_attachments := ∅ |}.
End empty.

(** mutate.Addendum *)
Record Addendum := { add_Layer : Layer; add_History : History }.

Module mutate.
Definition MediaType_ (img : v1Image) (mt : MediaType) : v1Image :=
  {| img_mediaType := mt; img_configMediaType := img_configMediaType img;
     img_layers := img_layers img; img_annotations := img_annotations img;
     img_configFile := img_configFile img |}.
Definition ConfigMediaType (img : v1Image) (mt : MediaType) : v1Image :=
  {| img_mediaType := img_mediaType img; img_configMediaType := mt;
     img_layers := img_layers img; img_annotations := img_annotations img;
     img_configFile := img_configFile img |}.
(** mutate.Annotations: the given annotations are laid over those of the
    base. The map is read when the manifest is first computed, which
    the caller below does right after the call. *)
Definition Annotations_ (img : v1Image) (anns : gmap string string) : v1Image :=
  {| img_mediaType := img_mediaType img; img_configMediaType := img_configMediaType img;
     img_layers := img_layers img; img_annotations := anns ∪ img_annotations img;
     img_configFile := img_configFile img |}.
(** mutate.ConfigFile *)
Definition ConfigFile__ (img : v1Image) (cfg : ConfigFile) : result v1Image :=
  Ok {| img_mediaType := img_mediaType img; img_configMediaType := img_configMediaType img;
        img_layers := img_layers img; img_annotations := img_annotations img;
        img_configFile := cfg |}.
Definition IndexMediaType (idx : SignedImageIndex) (mt : MediaType) : SignedImageIndex :=
  {| idx_mediaType := mt; idx_adds := idx_adds idx; idx_attachments := idx_attachments idx |}.

Section with_collab.
Context `{L : Collab}.
Definition append1 (img : v1Image) (a : Addendum) : result v1Image :=
  match layer_DiffID (add_Layer a) with
  | Err e => Err e
  | Ok diffid =>
      let cf := img_configFile img in
      Ok {| img_mediaType := img_mediaType img;
            img_configMediaType := img_configMediaType img;
            img_layers := img_layers img ++ [add_Layer a];
            img_annotations := img_annotations img;
            img_configFile :=
              {| cf_Architecture := cf_Architecture cf; cf_Author := cf_Author cf;
                 cf_Created := cf_Created cf;
                 cf_History := cf_History cf ++ [add_History a];
                 cf_OS := cf_OS cf; cf_RootFS_Type := cf_RootFS_Type cf;
                 cf_RootFS_DiffIDs := cf_RootFS_DiffIDs cf ++ [diffid];
                 cf_Config := cf_Config cf; cf_Variant := cf_Variant cf |} |}
  end.
(** mutate.Append: each addendum adds its layer, the diff id of the
    layer and its history entry. *)
Fixpoint Append (base : v1Image) (adds : list Addendum) : result v1Image :=
  match adds with
  | [] => Ok base
  | a :: adds' =>
      match append1 base a with
      | Err e => Err e
      | Ok img => Append img adds'
      end
  end.
End with_collab.
End mutate.

(** signed.Image, signed.ImageIndex: no attachment yet. *)
Module signed.
Definition Image (i : v1Image) : SignedImage := {| si_image := i; si_attachments := ∅ |}.
Definition ImageIndex (ii : SignedImageIndex) : SignedImageIndex := ii.
End signed.

Module ocimutate.
(** The result carries the one attachment it was given. *)
Definition AttachFileToImage (i : SignedImage) (name : string) (f : File) : result SignedImage :=
  Ok {| si_image := si_image i; si_attachments := {[ name := f ]} |}.
Definition AttachFileToImageIndex (ii : SignedImageIndex) (name : string) (f : File)
  : result SignedImageIndex :=
  Ok {| idx_mediaType := idx_mediaType ii; idx_adds := idx_adds ii;
        idx_attachments := {[ name := f ]} |}.
Definition AppendManifests (base : SignedImageIndex) (a : IndexAddendum) : SignedImageIndex :=
  {| idx_mediaType := idx_mediaType base; idx_adds := idx_adds base ++ [a];
     idx_attachments := idx_attachments base |}.
End ocimutate.

(** idx.IndexManifest().Manifests *)
Definition Manifests (ii : SignedImageIndex) : list Descriptor :=
  Descriptor_ <$> idx_adds ii.

(** ** Package oci *)

Module oci.
Section oci.
Context `{L : Collab}.

Definition LocalDomain : string := "apko.local".
Definition LocalRepo : string := "cache".

Definition humanReadableImageType (mediaType : MediaType) : string :=
  if decide (mediaType = ggcrtypes.DockerLayer) then "Docker"
  else if decide (mediaType = ggcrtypes.OCILayer) then "OCI"
  else "unknown".

(** v1tar.LayerFromFile(path, v1tar.WithMediaType(mediaType)) *)
Definition v1tar_LayerFromFile (path : string) (mediaType : MediaType) : M Layer :=
  b ← os_ReadFile path;
  mret {| layer_bytes := b; layer_mediaType := mediaType |}.

(** v1Image.ConfigFile() *)
Definition v1Image_ConfigFile (img : v1Image) : result ConfigFile := Ok (img_configFile img).

(** The methods of oci.SignedImage that the index assembler calls. *)
Definition SignedImage_MediaType (i : SignedImage) : result MediaType :=
  Ok (img_mediaType (si_image i)).
Definition SignedImage_Digest (i : SignedImage) : result Hash := image_Digest (si_image i).
Definition SignedImage_Size (i : SignedImage) : result Z := image_Size (si_image i).
Definition SignedImageIndex_Digest (ii : SignedImageIndex) : result Hash :=
  index_Digest (idx_mediaType ii) (Manifests ii).

(** se.(interface{ Digest() (v1.Hash, error) }).Digest() *)
Definition SignedEntity_Digest (se : SignedEntity) : result Hash :=
  match se with
  | SEImage i => SignedImage_Digest i
  | SEIndex ii => SignedImageIndex_Digest ii
  | SEOther => Err (Panic "interface conversion")
  end.

(** se.Attachment(name) *)
Definition SignedEntity_Attachment (se : SignedEntity) (name : string) : result File :=
  let missing := Err (ExternalError ("attachment " +:+ name +:+ " not found")) in
  match se with
  | SEImage i => from_option Ok missing (si_attachments i !! name)
  | SEIndex ii => from_option Ok missing (idx_attachments ii !! name)
  | SEOther => missing
  end.

Definition attachSBOM (si : SignedEntity) (sbomPath : string) (sbomFormats : list string)
    (arch : Architecture) : M SignedEntity :=
  match sbomFormats with
  | [] =>
      log DebugLevel "Not building sboms, no formats requested";;
      mret si
  | format0 :: _ =>
      let archName := if decide (ToAPK arch = "") then "index" else ToAPK arch in
      '(mt, path) ←
        (if decide (format0 = "spdx") then
           mret (ctypes.SPDXJSONMediaType,
                 filepath_Join sbomPath ("sbom-" +:+ archName +:+ ".spdx.json"))
         else if decide (format0 = "cyclonedx") then
           mret (ctypes.CycloneDXJSONMediaType,
                 filepath_Join sbomPath ("sbom-" +:+ archName +:+ ".cdx"))
         else if decide (format0 = "idb") then
           mret ("application/vnd.apko.installed-db",
                 filepath_Join sbomPath ("sbom-" +:+ archName +:+ ".idb"))
         else fail (NewError ("unsupported SBOM format: " +:+ format0)));
      (if decide (1 < length sbomFormats)%nat then
         log WarnLevel
           ("multiple SBOM formats requested, uploading SBOM with media type: " +:+ mt)
       else mret tt);;
      sbom ← wrapM "reading sbom" (os_ReadFile path);
      f ← liftR (static_NewFile sbom mt);
      match si with
      | SEImage i =>
          i' ← liftR (wrap "attaching file to image" (ocimutate.AttachFileToImage i "sbom" f));
          mret (SEImage i')
      | SEIndex ii =>
          ii' ← liftR (wrap "attaching file to image"
                         (ocimutate.AttachFileToImageIndex ii "sbom" f));
          mret (SEIndex ii')
      | SEOther => fail (NewError "unable to cast signed signedentity as image or index")
      end
  end.

(** Lines 134 to 185 assign the fields of the copied config file one by
    one; here the values are computed in the same order and the record
    is built once. The environment map is read where line 167 measures
    it and line 170 ranges over it, after lines 120 and 121 stored the
    annotations. *)
Definition buildImageFromLayerWithMediaType (o : Oracle) (mediaType : MediaType)
    (layerTarGZ : string) (ic : ImageConfiguration) (created : Time) (arch : Architecture)
    (sbomPath : string) (sbomFormats : list string) : M SignedImage :=
  let imageType := humanReadableImageType mediaType in
  log InfoLevel ("building " +:+ imageType +:+ " image from layer '" +:+ layerTarGZ +:+ "'");;
  v1Layer ← wrapM ("failed to create " +:+ imageType +:+ " layer from tar.gz")
              (v1tar_LayerFromFile layerTarGZ mediaType);
  digest ← liftR (wrap "could not calculate layer digest" (layer_Digest v1Layer));
  diffid ← liftR (wrap "could not calculate layer diff id" (layer_DiffID v1Layer));
  log InfoLevel (imageType +:+ " layer digest: " +:+ Hash_String digest);;
  log InfoLevel (imageType +:+ " layer diffID: " +:+ Hash_String diffid);;
  let adds :=
    [ {| add_Layer := v1Layer;
         add_History := {| hist_Author := "apko";
                           hist_Comment := "This is an apko single-layer image";
                           hist_CreatedBy := "apko";
                           hist_Created := created |} |} ] in
  let emptyImage :=
    if decide (mediaType = ggcrtypes.OCILayer) then
      mutate.ConfigMediaType
        (mutate.MediaType_ empty.Image ggcrtypes.OCIManifestSchema1) ggcrtypes.OCIConfigJSON
    else empty.Image in
  v1Image ← liftR (wrap ("unable to append " +:+ imageType +:+ " layer to empty image")
                     (mutate.Append emptyImage adds));
  annotations ← match Annotations ic with
                | Some l => mret l
                | None => new_map ∅
                end;
  (if decide (VCSUrl ic ≠ "") then
     match GoString.Cut (VCSUrl ic) "@" with
     | (url, hash, true) =>
         map_store annotations "org.opencontainers.image.source" url;;
         map_store annotations "org.opencontainers.image.revision" hash
     | _ => mret tt
     end
   else mret tt);;
  anns ← map_load annotations;
  let v1Image :=
    if decide (mediaType ≠ ggcrtypes.DockerLayer ∧ anns ≠ ∅) then
      mutate.Annotations_ v1Image anns
    else v1Image in
  cfg ← liftR (wrap ("unable to get " +:+ imageType +:+ " config file")
                 (v1Image_ConfigFile v1Image));
  let platform := ToOCIPlatform arch in
  entrypoint ←
    (if decide (Entrypoint_ShellFragment ic ≠ "") then
       mret ["/bin/sh"; "-c"; Entrypoint_ShellFragment ic]
     else if decide (Entrypoint_Command ic ≠ "") then
       liftR (wrap "unable to parse entrypoint command" (shlex_Split (Entrypoint_Command ic)))
     else mret (cfg_Entrypoint (cf_Config cfg)));
  cmd ←
    (if decide (Cmd ic ≠ "") then
       liftR (wrap "unable to parse cmd" (shlex_Split (Cmd ic)))
     else mret (cfg_Cmd (cf_Config cfg)));
  let workingDir :=
    if decide (WorkDir ic ≠ "") then WorkDir ic else cfg_WorkingDir (cf_Config cfg) in
  environment ← match Environment ic with
                | Some l => map_load l
                | None => mret ∅
                end;
  let env :=
    if decide (environment ≠ ∅) then
      sort_Strings ((λ kv, kv.1 +:+ "=" +:+ kv.2) <$> rangeEnvironment o environment)
    else
      [ "PATH=/usr/local/sbin:/usr/local/bin:/usr/sbin:/usr/bin:/sbin:/bin";
        "SSL_CERT_FILE=/etc/ssl/certs/ca-certificates.crt" ] in
  let user :=
    if decide (Accounts_RunAs ic ≠ "") then Accounts_RunAs ic else cfg_User (cf_Config cfg) in
  let cfg :=
    {| cf_Author := "github.com/chainguard-dev/apko";
       cf_Architecture := plat_Architecture platform;
       cf_Variant := plat_Variant platform;
       cf_Created := created;
       cf_OS := "linux";
       cf_History := cf_History cfg;
       cf_RootFS_Type := cf_RootFS_Type cfg;
       cf_RootFS_DiffIDs := cf_RootFS_DiffIDs cfg;
       cf_Config := {| cfg_Labels := ∅;
                       cfg_Entrypoint := entrypoint;
                       cfg_Cmd := cmd;
                       cfg_WorkingDir := workingDir;
                       cfg_Env := env;
                       cfg_User := user |} |} in
  v1Image ← liftR (wrap ("unable to update " +:+ imageType +:+ " config file")
                     (mutate.ConfigFile__ v1Image cfg));
  let si := signed.Image v1Image in
  ent ← wrapM "attaching SBOM to image" (attachSBOM (SEImage si) sbomPath sbomFormats arch);
  match ent with
  | SEImage i => mret i
  | _ => fail (Panic "interface conversion")
  end.

(** The calls that reach the daemon or a registry: the oracle decides
    the outcome from what happened so far, and the call is recorded. *)
Definition daemon_Write_call (o : Oracle) (t : Tag) (image : SignedImage)
  : M (string * option error) :=
  λ s, let '(resp, err) := daemon_Write o (trace s) t image in
       (Ok (resp, err), emit (EvDaemonWrite t image err) s).
Definition of_err (err : option error) : result unit :=
  match err with Some e => Err e | None => Ok tt end.
Definition daemon_Tag_call (o : Oracle) (src dst : Tag) : M unit :=
  λ s, let err := daemon_Tag o (trace s) src dst in
       (of_err err, emit (EvDaemonTag src dst err) s).
Definition remote_Write_call (o : Oracle) (ref : Reference) (image : SignedImage) : M unit :=
  λ s, let err := remote_Write o (trace s) ref image in
       (of_err err, emit (EvRemoteWrite ref image err) s).
Definition remote_WriteFile_call (o : Oracle) (ref : Tag) (f : File) : M unit :=
  λ s, let err := remote_WriteFile o (trace s) ref f in
       (of_err err, emit (EvRemoteWriteFile ref f err) s).
Definition remote_WriteIndex_call (o : Oracle) (ref : Reference) (index : SignedImageIndex)
  : M unit :=
  λ s, let err := remote_WriteIndex o (trace s) ref index in
       (of_err err, emit (EvRemoteWriteIndex ref index err) s).

Definition writePeripherals (o : Oracle) (tag : Reference) : SignedEntity → M unit :=
  match GetEnvTargetRepository o with
  | Err err => λ _, fail err
  | Ok targetRepoOverride =>
      let ociOpts :=
        if decide (targetRepoOverride ≠ name.zeroRepository)
        then Some targetRepoOverride else None in
      λ se,
        h ← liftR (SignedEntity_Digest se);
        let digest := name.Repository_Digest (name.Context tag) (Hash_String h) in
        ref ← liftR (ociremote_SBOMTag digest ociOpts);
        match SignedEntity_Attachment se "sbom" with
        | Err _ => mret tt
        | Ok f =>
            wrapM "writing sbom" (retry_Do (remote_WriteFile_call o ref f));;
            log InfoLevel ("Published SBOM " +:+ name.Tag_Name ref)
        end
  end.

Definition localTagOf (hex : string) : string :=
  LocalDomain +:+ "/" +:+ LocalRepo +:+ ":" +:+ hex.

Definition publishTagFromImage (o : Oracle) (image : SignedImage) (imageRef : string)
    (hash : Hash) (local : bool) : M Digest :=
  imgRef ← liftR (wrap "unable to parse reference" (name_ParseReference imageRef));
  if local then
    let localTag := localTagOf (Hex hash) in
    daemonWriteTag ← liftR (name_NewTag localTag);
    log InfoLevel ("saving OCI image locally: " +:+ name.Tag_Name daemonWriteTag);;
    '(resp, err) ← daemon_Write_call o daemonWriteTag image;
    match err with
    | Some e =>
        log ErrorLevel ("docker daemon error: " +:+ escape_newlines resp);;
        fail (WrapError "failed to save OCI image locally" e)
    | None =>
        log DebugLevel ("docker daemon response: " +:+ escape_newlines resp);;
        mret (name.Repository_Digest (name.Context imgRef) (Hash_String hash))
    end
  else
    writePeripherals o imgRef (SEImage image);;
    wrapM "failed to publish" (retry_Do (remote_Write_call o imgRef image));;
    mret (name.Repository_Digest (name.Context imgRef) (Hash_String hash)).

(** for _, tag := range tags { digest, err = publish(tag); if err != nil
    { return } }: the digest of the tag handled last survives. *)
Fixpoint forTags (what : string) (publish : string → M Digest) (tags : list string)
    (digest : Digest) : M Digest :=
  match tags with
  | [] => mret digest
  | tag :: tags' =>
      log InfoLevel ("publishing " +:+ what +:+ " tag " +:+ tag);;
      digest' ← publish tag;
      forTags what publish tags' digest'
  end.

Definition publishImageFromLayerWithMediaType (o : Oracle) (mediaType : MediaType)
    (layerTarGZ : string) (ic : ImageConfiguration) (created : Time) (arch : Architecture)
    (sbomPath : string) (sbomFormats : list string) (local : bool) (tags : list string)
  : M (Digest * SignedImage) :=
  v1Image ← buildImageFromLayerWithMediaType o mediaType layerTarGZ ic created arch
              sbomPath sbomFormats;
  h ← liftR (wrap "failed to compute digest" (SignedImage_Digest v1Image));
  digest ← forTags "image" (λ tag, publishTagFromImage o v1Image tag h local)
             tags name.zeroDigest;
  mret (digest, v1Image).

Definition PublishImageFromLayer (o : Oracle) (layerTarGZ : string)
    (ic : ImageConfiguration) (created : Time) (arch : Architecture)
    (sbomPath : string) (sbomFormats : list string) (local : bool) (tags : list string)
  : M (Digest * SignedImage) :=
  publishImageFromLayerWithMediaType o ggcrtypes.OCILayer layerTarGZ ic created arch
    sbomPath sbomFormats local tags.

Definition PublishDockerImageFromLayer (o : Oracle) (layerTarGZ : string)
    (ic : ImageConfiguration) (created : Time) (arch : Architecture)
    (sbomPath : string) (sbomFormats : list string) (local : bool) (tags : list string)
  : M (Digest * SignedImage) :=
  publishImageFromLayerWithMediaType o ggcrtypes.DockerLayer layerTarGZ ic created arch
    sbomPath sbomFormats local tags.

(** What a Go caller receives from a function that returns
    [(name.Digest, X, error)]: every error return of this package is
    [name.Digest{}, nil, err]. *)
Definition returned {X} (r : result (Digest * X)) : Digest * option X * option error :=
  match r with
  | Ok (d, x) => (d, Some x, None)
  | Err e => (name.zeroDigest, None, Some e)
  end.

(** index.SignedImage(h): the first member whose digest is [h]. *)
Fixpoint find_SignedImage (adds : list IndexAddendum) (h : Hash) : result SignedImage :=
  match adds with
  | [] => Err (ExternalError "manifest not found in index")
  | a :: adds' =>
      match SignedImage_Digest (Add a) with
      | Err e => Err e
      | Ok d => if decide (d = h) then Ok (Add a) else find_SignedImage adds' h
      end
  end.

(** walk.SignedEntity(ctx, index, fn): [fn] on the index, then on every
    member in the order of the manifest list. A member is always an
    image here, so an entry typed as an index is not found. *)
Fixpoint walk_members (ii : SignedImageIndex) (descs : list Descriptor)
    (fn : SignedEntity → M unit) : M unit :=
  match descs with
  | [] => mret tt
  | desc :: descs' =>
      (if decide (desc_MediaType desc = ggcrtypes.OCIImageIndex
                  ∨ desc_MediaType desc = ggcrtypes.DockerManifestList) then
         fail (ExternalError "manifest not found in index")
       else if decide (desc_MediaType desc = ggcrtypes.OCIManifestSchema1
                       ∨ desc_MediaType desc = ggcrtypes.DockerManifestSchema2) then
         si ← liftR (find_SignedImage (idx_adds ii) (desc_Digest desc));
         fn (SEImage si)
       else mret tt);;
      walk_members ii descs' fn
  end.
Definition walk_SignedEntity (index : SignedImageIndex) (fn : SignedEntity → M unit) : M unit :=
  fn (SEIndex index);;
  walk_members index (Manifests index) fn.

Definition publishTagFromIndex (o : Oracle) (index : SignedImageIndex) (imageRef : string)
    (hash : Hash) : M Digest :=
  ref ← liftR (wrap "unable to parse reference" (name_ParseReference imageRef));
  let wp := writePeripherals o ref in
  walk_SignedEntity index wp;;
  wrapM "failed to publish" (retry_Do (remote_WriteIndex_call o ref index));;
  mret (name.Repository_Digest (name.Context ref) (Hash_String hash)).

(** Lines 404 to 430: one manifest entry per architecture, in the order
    of [archs]. *)
Fixpoint appendArchs (imgs : gmap Architecture SignedImage) (archs : list Architecture)
    (idx : SignedImageIndex) : result SignedImageIndex :=
  match archs with
  | [] => Ok idx
  | arch :: archs' =>
      match imgs !! arch with
      | None => Err (Panic "nil pointer dereference")
      | Some img =>
          match wrap "failed to get mediatype" (SignedImage_MediaType img) with
          | Err e => Err e
          | Ok mt =>
          match wrap "failed to compute digest" (SignedImage_Digest img) with
          | Err e => Err e
          | Ok h =>
          match wrap "failed to compute size" (SignedImage_Size img) with
          | Err e => Err e
          | Ok size =>
              appendArchs imgs archs'
                (ocimutate.AppendManifests idx
                   {| Add := img;
                      Descriptor_ := {| desc_MediaType := mt;
                                        desc_Digest := h;
                                        desc_Size := size;
                                        desc_Platform := Some (ToOCIPlatform arch) |} |})
          end end end
      end
  end.

(** Lines 396 to 430: the index, before anything is published. *)
Definition assembleIndex (o : Oracle) (mediaType : MediaType)
    (imgs : gmap Architecture SignedImage) : result SignedImageIndex :=
  let idx := signed.ImageIndex (mutate.IndexMediaType empty.Index mediaType) in
  let archs := rangeImgs o imgs in
  let archs := sort_archs archs in
  appendArchs imgs archs idx.

(** Lines 468 to 477: the local image is given every requested name. *)
Fixpoint tagLocally (o : Oracle) (localSrcTag : Tag) (tags : list string) : M unit :=
  match tags with
  | [] => mret tt
  | tag :: tags' =>
      localDstTag ← liftR (name_NewTag tag);
      log InfoLevel ("tagging local image " +:+ name.Tag_Name localSrcTag +:+ " as "
                       +:+ name.Tag_Name localDstTag);;
      daemon_Tag_call o localSrcTag localDstTag;;
      tagLocally o localSrcTag tags'
  end.

(** Lines 451 to 483: the first manifest of the native platform is
    promoted; [None] when the loop ends without one. *)
Fixpoint promoteNative (o : Oracle) (manifests : list Descriptor) (goos goarch : string)
    (tags : list string) : M (option Digest) :=
  match manifests with
  | [] => mret None
  | manifest :: manifests' =>
      match desc_Platform manifest with
      | None => promoteNative o manifests' goos goarch tags
      | Some platform =>
          if decide (plat_OS platform ≠ goos) then
            promoteNative o manifests' goos goarch tags
          else if decide (plat_Architecture platform ≠ goarch) then
            promoteNative o manifests' goos goarch tags
          else
            let localSrcTagStr := localTagOf (Hex (desc_Digest manifest)) in
            log InfoLevel ("using native single-arch image for local tags: "
                             +:+ localSrcTagStr +:+ " (" +:+ goos +:+ "/" +:+ goarch +:+ ")");;
            localSrcTag ← liftR (name_NewTag localSrcTagStr);
            tagLocally o localSrcTag tags;;
            digest ← liftR (name_NewDigest (name.Tag_Name localSrcTag +:+ "@"
                                              +:+ Hash_String (desc_Digest manifest)));
            mret (Some digest)
      end
  end.

Definition publishIndexWithMediaType (o : Oracle) (mediaType : MediaType)
    (_ : ImageConfiguration) (imgs : gmap Architecture SignedImage) (local : bool)
    (tags : list string) : M (Digest * SignedImageIndex) :=
  idx ← liftR (assembleIndex o mediaType imgs);
  promoted ←
    (if local then
       let goos := if decide (Getenv o "GOOS" = "") then "linux" else Getenv o "GOOS" in
       let goarch := if decide (Getenv o "GOARCH" = "") then "amd64" else Getenv o "GOARCH" in
       promoteNative o (Manifests idx) goos goarch tags
     else mret None);
  match promoted with
  | Some digest => mret (digest, idx)
  | None =>
      h ← liftR (SignedImageIndex_Digest idx);
      digest ← forTags "index" (λ tag, publishTagFromIndex o idx tag h) tags name.zeroDigest;
      mret (digest, idx)
  end.

Definition PublishIndex (o : Oracle) (ic : ImageConfiguration)
    (imgs : gmap Architecture SignedImage) (local : bool) (tags : list string)
  : M (Digest * SignedImageIndex) :=
  publishIndexWithMediaType o ggcrtypes.OCIImageIndex ic imgs local tags.

Definition PublishDockerIndex (o : Oracle) (ic : ImageConfiguration)
    (imgs : gmap Architecture SignedImage) (local : bool) (tags : list string)
  : M (Digest * SignedImageIndex) :=
  publishIndexWithMediaType o ggcrtypes.DockerManifestList ic imgs local tags.

(** Lines 218 to 228: the peripherals of [si] are written under every
    tag, in the order given, up to the first failure. *)
Fixpoint postAttachTags (o : Oracle) (si : SignedEntity) (tags : list string) : M unit :=
  match tags with
  | [] => mret tt
  | tag :: tags' =>
      ref ← liftR (wrap "parsing reference" (name_ParseReference tag));
      let wp := writePeripherals o ref in
      wp si;;
      postAttachTags o si tags'
  end.

Definition PostAttachSBOM (o : Oracle) (si : SignedEntity) (sbomPath : string)
    (sbomFormats : list string) (arch : Architecture) (tags : list string) : M SignedEntity :=
  si ← attachSBOM si sbomPath sbomFormats arch;
  postAttachTags o si tags;;
  mret si.

(** options.Options, the fields this package reads. *)
Record Options := {
  UseDockerMediaTypes : bool;
  SourceDateEpoch : Time;
  Arch : Architecture;
  SBOMPath : string;
  SBOMFormats : list string
}.

(** v1tar.WriteToFile(path, tag, image): the file is created, which may
    fail, and the tarball is written into it; [tarball] gives the bytes
    that reach the file and the error of the write, if any. *)
Definition v1tar_WriteToFile (create : string → option error)
    (tarball : Tag → SignedImage → string * option error)
    (path : string) (tag : Tag) (image : SignedImage) : M unit :=
  λ s, match create path with
       | Some e => (Err e, s)
       | None =>
           let '(bytes, err) := tarball tag image in
           (of_err err,
            {| heap := heap s; files := <[path := bytes]> (files s); trace := trace s |})
       end.

(** The check [v1Image == nil] at line 305 is on an interface value that
    line 199 has just made from a type assertion; an image is never nil
    here. *)
Definition buildImageTarballFromLayerWithMediaType (o : Oracle)
    (create : string → option error) (tarball : Tag → SignedImage → string * option error)
    (mediaType : MediaType) (imageRef : string) (layerTarGZ : string) (outputTarGZ : string)
    (ic : ImageConfiguration) (opts : Options) : M unit :=
  let imageType := humanReadableImageType mediaType in
  v1Image ← buildImageFromLayerWithMediaType o mediaType layerTarGZ ic (SourceDateEpoch opts)
              (Arch opts) (SBOMPath opts) (SBOMFormats opts);
  imgRefTag ← liftR (wrap "unable to validate image reference tag" (name_NewTag imageRef));
  wrapM ("unable to write " +:+ imageType +:+ " image to disk")
    (v1tar_WriteToFile create tarball outputTarGZ imgRefTag v1Image);;
  log InfoLevel ("output " +:+ imageType +:+ " image file to " +:+ outputTarGZ).

Definition BuildImageTarballFromLayer (o : Oracle)
    (create : string → option error) (tarball : Tag → SignedImage → string * option error)
    (imageRef : string) (layerTarGZ : string) (outputTarGZ : string)
    (ic : ImageConfiguration) (opts : Options) : M unit :=
  if UseDockerMediaTypes opts then
    buildImageTarballFromLayerWithMediaType o create tarball ggcrtypes.DockerLayer imageRef
      layerTarGZ outputTarGZ ic opts
  else
    buildImageTarballFromLayerWithMediaType o create tarball ggcrtypes.OCILayer imageRef
      layerTarGZ outputTarGZ ic opts.

End oci.
End oci.

(** ** A sample world

    Collaborators and an oracle on which the package can be run. The
    theorems below hold for every [Collab] and [Oracle]; these are the
    ones at which they are instantiated. *)

Module Sample.

(** A tokenizer in the manner of shlex: blanks separate words, single and
    double quotes group, a backslash escapes, [#] starts a comment; a
    quote left open or a backslash at the end is an error. *)
Inductive lexerState :=
  | startState | inWordState | escapingState | escapingQuotedState
  | quotingEscapingState | quotingState | commentState.

Definition isSpace (c : ascii) : bool :=
  (Ascii.eqb c " " || Ascii.eqb c (Ascii.ascii_of_nat 9)
   || Ascii.eqb c (Ascii.ascii_of_nat 13) || Ascii.eqb c (Ascii.ascii_of_nat 10))%bool.

(** The double quote. *)
Definition dquote : ascii := Ascii.ascii_of_nat 34.

Definition snoc (value : string) (c : ascii) : string := value +:+ String c "".

Fixpoint scan (state : lexerState) (value : string) (words : list string) (input : string)
  : result (list string) :=
  match input with
  | EmptyString =>
      match state with
      | startState | commentState => Ok words
      | inWordState => Ok (words ++ [value])
      | escapingState | escapingQuotedState =>
          Err (ExternalError "EOF found after escape character")
      | quotingEscapingState | quotingState =>
          Err (ExternalError "EOF found when expecting closing quote")
      end
  | String c rest =>
      match state with
      | startState =>
          if isSpace c then scan startState "" words rest
          else if Ascii.eqb c dquote then scan quotingEscapingState "" words rest
          else if Ascii.eqb c "'" then scan quotingState "" words rest
          else if Ascii.eqb c "\" then scan escapingState "" words rest
          else if Ascii.eqb c "#" then scan commentState "" words rest
          else scan inWordState (String c "") words rest
      | inWordState =>
          if isSpace c then scan startState "" (words ++ [value]) rest
          else if Ascii.eqb c dquote then scan quotingEscapingState value words rest
          else if Ascii.eqb c "'" then scan quotingState value words rest
          else if Ascii.eqb c "\" then scan escapingState value words rest
          else scan inWordState (snoc value c) words rest
      | escapingState => scan inWordState (snoc value c) words rest
      | escapingQuotedState => scan quotingEscapingState (snoc value c) words rest
      | quotingEscapingState =>
          if Ascii.eqb c dquote then scan inWordState value words rest
          else if Ascii.eqb c "\" then scan escapingQuotedState value words rest
          else scan quotingEscapingState (snoc value c) words rest
      | quotingState =>
          if Ascii.eqb c "'" then scan inWordState value words rest
          else scan quotingState (snoc value c) words rest
      | commentState =>
          if Ascii.eqb c (Ascii.ascii_of_nat 10) then scan startState "" words rest
          else scan commentState value words rest
      end
  end.

Definition Split (s : string) : result (list string) := scan startState "" [] s.

(** A stand-in for SHA-256: the text itself under the name of the
    algorithm. It is one-to-one, which is all that is asked of a digest
    here. *)
Definition digestOf (text : string) : Hash := {| Algorithm := "sha256"; Hex := text |}.

Definition join (sep : string) (l : list string) : string := String.concat sep l.

(** The text from which the stand-in digest of an image is taken. *)
Definition manifestText (img : v1Image) : string :=
  let cfg := cf_Config (img_configFile img) in
  join "|" [ img_mediaType img; img_configMediaType img;
             join "," (layer_bytes <$> img_layers img);
             join "," ((λ kv, kv.1 +:+ "=" +:+ kv.2) <$> map_to_list (img_annotations img));
             cf_Architecture (img_configFile img);
             join "," (cfg_Entrypoint cfg); join "," (cfg_Cmd cfg); join "," (cfg_Env cfg);
             cfg_WorkingDir cfg; cfg_User cfg ].

Definition indexText (mt : MediaType) (descs : list Descriptor) : string :=
  join "|" (mt :: ((λ d, Hex (desc_Digest d)) <$> descs)).

(** References of the shape registry/repository:tag and
    registry/repository@digest. *)
Definition parseRepository (s : string) : result Repository :=
  match GoString.Cut s "/" with
  | (registry, repo, true) =>
      if decide (registry = "" ∨ repo = "") then
        Err (ExternalError ("could not parse reference: " +:+ s))
      else Ok {| Registry := registry; RepositoryStr := repo |}
  | _ => Err (ExternalError ("could not parse reference: " +:+ s))
  end.

Definition NewTag (s : string) : result Tag :=
  match GoString.Cut s ":" with
  | (r, t, true) =>
      match parseRepository r with
      | Ok repo => Ok {| tag_Repository := repo; TagStr := t |}
      | Err e => Err e
      end
  | (r, _, false) =>
      match parseRepository r with
      | Ok repo => Ok {| tag_Repository := repo; TagStr := "latest" |}
      | Err e => Err e
      end
  end.

Definition NewDigest (s : string) : result Digest :=
  match GoString.Cut s "@" with
  | (r, d, true) =>
      match parseRepository r with
      | Ok repo => Ok {| dg_Repository := repo; DigestStr := d |}
      | Err e => Err e
      end
  | _ => Err (ExternalError ("could not parse reference: " +:+ s))
  end.

Definition ParseReference (s : string) : result Reference :=
  match GoString.Cut s "@" with
  | (_, _, true) => match NewDigest s with Ok d => Ok (RefDigest d) | Err e => Err e end
  | _ => match NewTag s with Ok t => Ok (RefTag t) | Err e => Err e end
  end.

Definition SBOMTag (d : Digest) (override : option Repository) : result Tag :=
  Ok {| tag_Repository := default (dg_Repository d) override;
        TagStr := GoString.ReplaceByte (DigestStr d) ":" "-" +:+ ".sbom" |}.

Definition Join (dir file : string) : string :=
  if decide (dir = "") then file else dir +:+ "/" +:+ file.

Definition toAPK (a : Architecture) : string :=
  if decide (arch_s a = "amd64") then "x86_64"
  else if decide (arch_s a = "arm64") then "aarch64"
  else arch_s a.

Definition toOCIPlatform (a : Architecture) : Platform :=
  {| plat_Architecture := arch_s a; plat_OS := "linux"; plat_Variant := "" |}.

Definition collab : Collab :=
  {| shlex_Split := Split;
     layer_Digest := λ l, Ok (digestOf (layer_bytes l));
     layer_DiffID := λ l, Ok (digestOf ("tar:" +:+ layer_bytes l));
     image_Digest := λ img, Ok (digestOf (manifestText img));
     image_Size := λ img, Ok (Z.of_nat (String.length (manifestText img)));
     index_Digest := λ mt descs, Ok (digestOf (indexText mt descs));
     name_ParseReference := ParseReference;
     name_NewTag := NewTag;
     name_NewDigest := NewDigest;
     ociremote_SBOMTag := SBOMTag;
     static_NewFile := λ payload mt, Ok {| file_payload := payload; file_layerMediaType := mt |};
     filepath_Join := Join;
     ToAPK := toAPK;
     ToOCIPlatform := toOCIPlatform |}.

(** An outside world in which maps are visited in the order of
    [map_to_list], the daemon accepts everything, and every write to the
    registry [down] is refused. *)
Definition refused (down : string) (r : Repository) : option error :=
  if decide (Registry r = down) then Some (ExternalError "connection refused") else None.

Definition oracle (down : string) : Oracle :=
  {| rangeEnvironment := map_to_list;
     rangeImgs := λ m, (map_to_list m).*1;
     daemon_Write := λ _ _ _, ("Loaded image", None);
     daemon_Tag := λ _ _ _, None;
     remote_Write := λ _ ref _, refused down (name.Context ref);
     remote_WriteFile := λ _ ref _, refused down (tag_Repository ref);
     remote_WriteIndex := λ _ ref _, refused down (name.Context ref);
     Getenv := λ _, "";
     GetEnvTargetRepository := Ok name.zeroRepository |}.

(** The same world, in which maps are visited in the reverse order. *)
Definition oracle_rev (down : string) : Oracle :=
  {| rangeEnvironment := λ m, reverse (map_to_list m);
     rangeImgs := λ m, reverse ((map_to_list m).*1);
     daemon_Write := daemon_Write (oracle down);
     daemon_Tag := daemon_Tag (oracle down);
     remote_Write := remote_Write (oracle down);
     remote_WriteFile := remote_WriteFile (oracle down);
     remote_WriteIndex := remote_WriteIndex (oracle down);
     Getenv := Getenv (oracle down);
     GetEnvTargetRepository := GetEnvTargetRepository (oracle down) |}.

(** A disk with one layer and its SPDX document, a heap with an
    annotation map and an environment map, and nothing done yet. *)
Definition state : State :=
  {| heap := {[ 1%positive := {[ "org.opencontainers.image.vendor" := "example" ]};
                2%positive := {[ "B" := "2"; "A" := "1" ]} ]};
     files := {[ "layer.tar.gz" := "LAYER"; "sboms/sbom-x86_64.spdx.json" := "SPDX" ]};
     trace := [] |}.

Definition amd64 : Architecture := {| arch_s := "amd64" |}.
Definition arm64 : Architecture := {| arch_s := "arm64" |}.

Definition ic : ImageConfiguration :=
  {| Annotations := Some 1%positive;
     VCSUrl := "https://github.com/chainguard-dev/apko@0123abc";
     Entrypoint_ShellFragment := "";
     Entrypoint_Command := "/usr/bin/app --serve";
     Cmd := "--port '80 80'";
     WorkDir := "/srv";
     Environment := Some 2%positive;
     Accounts_RunAs := "65532" |}.

(** A configuration with both a shell fragment and a command string, the
    latter with a quote left open: the fragment is used and the command
    string is never split. *)
Definition ic_fragment : ImageConfiguration :=
  {| Annotations := None; VCSUrl := "";
     Entrypoint_ShellFragment := "exec /usr/bin/app";
     Entrypoint_Command := "/usr/bin/app 'serve";
     Cmd := ""; WorkDir := ""; Environment := None; Accounts_RunAs := "" |}.

(** A command string with a quote left open. *)
Definition ic_open_quote : ImageConfiguration :=
  {| Annotations := None; VCSUrl := "";
     Entrypoint_ShellFragment := ""; Entrypoint_Command := "";
     Cmd := "echo 'unterminated"; WorkDir := ""; Environment := None; Accounts_RunAs := "" |}.

(** Two members, entered under arm64 and under amd64. *)
Definition imgs : gmap Architecture SignedImage :=
  {[ arm64 := signed.Image (mutate.MediaType_ empty.Image ggcrtypes.OCIManifestSchema1);
     amd64 := signed.Image empty.Image ]}.

End Sample.

(** ** Notions in which the properties are stated *)

Section derived.
Context `{L : Collab}.

(** The formats that line 249 knows, each with its media type and the
    extension of its file. *)
Definition sbom_select (format : string) : option (MediaType * string) :=
  if decide (format = "spdx") then Some (ctypes.SPDXJSONMediaType, ".spdx.json")
  else if decide (format = "cyclonedx") then Some (ctypes.CycloneDXJSONMediaType, ".cdx")
  else if decide (format = "idb") then Some ("application/vnd.apko.installed-db", ".idb")
  else None.

(** The three format names of the switch at line 249. *)
Definition supported (format : string) : Prop :=
  format = "spdx" ∨ format = "cyclonedx" ∨ format = "idb".

(** Lines 245 to 248: the APK name of the architecture, or "index". *)
Definition sbom_archName (arch : Architecture) : string :=
  if decide (ToAPK arch = "") then "index" else ToAPK arch.

(** The file that is read for a format: sbom-<arch>.<ext> under the
    SBOM directory. *)
Definition sbom_file (sbomPath : string) (arch : Architecture) (ext : string) : string :=
  filepath_Join sbomPath ("sbom-" +:+ sbom_archName arch +:+ ext).

(** Lines 276 to 288: the file is attached to an image or to an index;
    no other artifact can take it. *)
Definition attach (se : SignedEntity) (f : File) : result SignedEntity :=
  match se with
  | SEImage i => Ok (SEImage {| si_image := si_image i; si_attachments := {[ "sbom" := f ]} |})
  | SEIndex ii =>
      Ok (SEIndex {| idx_mediaType := idx_mediaType ii; idx_adds := idx_adds ii;
                     idx_attachments := {[ "sbom" := f ]} |})
  | SEOther => Err (NewError "unable to cast signed signedentity as image or index")
  end.

(** [se'] is [se] with the file [f] as its one attachment, named "sbom". *)
Definition file_of_attach (se : SignedEntity) (f : File) (se' : SignedEntity) : Prop :=
  match se, se' with
  | SEImage i, SEImage i' =>
      si_image i' = si_image i ∧ si_attachments i' = {[ "sbom" := f ]}
  | SEIndex ii, SEIndex ii' =>
      idx_mediaType ii' = idx_mediaType ii ∧ idx_adds ii' = idx_adds ii
      ∧ idx_attachments ii' = {[ "sbom" := f ]}
  | _, _ => False
  end.

(** Lines 262 to 265: the warning that is logged when more than one
    format was requested. *)
Definition warned (mt : MediaType) (rest : list string) (s : State) : State :=
  match rest with
  | [] => s
  | _ => emit (EvLog WarnLevel
                 ("multiple SBOM formats requested, uploading SBOM with media type: " +:+ mt)) s
  end.

(** Line 119: the VCS URL cut at its first "@", when there is one. *)
Definition vcs_cut (ic : ImageConfiguration) : option (string * string) :=
  if decide (VCSUrl ic ≠ "") then
    match GoString.Cut (VCSUrl ic) "@" with
    | (url, hash, true) => Some (url, hash)
    | _ => None
    end
  else None.

(** What lines 118 to 123 leave in a map that held [m]. *)
Definition vcs_annotations (ic : ImageConfiguration) (m : gmap string string)
  : gmap string string :=
  match vcs_cut ic with
  | Some (url, hash) =>
      <["org.opencontainers.image.revision" := hash]>
        (<["org.opencontainers.image.source" := url]> m)
  | None => m
  end.

(** The contents of the caller's annotation map. *)
Definition caller_annotations (ic : ImageConfiguration) (s : State) : gmap string string :=
  match Annotations ic with
  | Some l => map_contents s l
  | None => ∅
  end.

(** Lines 144 to 153: the entrypoint, or the error of its tokenizer. *)
Definition entrypoint_of (ic : ImageConfiguration) : result (list string) :=
  if decide (Entrypoint_ShellFragment ic ≠ "") then
    Ok ["/bin/sh"; "-c"; Entrypoint_ShellFragment ic]
  else if decide (Entrypoint_Command ic ≠ "") then
    wrap "unable to parse entrypoint command" (shlex_Split (Entrypoint_Command ic))
  else Ok [].

(** Lines 155 to 161: the command, or the error of its tokenizer. *)
Definition cmd_of (ic : ImageConfiguration) : result (list string) :=
  if decide (Cmd ic ≠ "") then wrap "unable to parse cmd" (shlex_Split (Cmd ic))
  else Ok [].

(** fmt.Sprintf("%s=%s", k, v) *)
Definition render (kv : string * string) : string := kv.1 +:+ "=" +:+ kv.2.

(** Lines 177 to 180: the environment of a configuration that has none. *)
Definition default_env : list string :=
  [ "PATH=/usr/local/sbin:/usr/local/bin:/usr/sbin:/usr/bin:/sbin:/bin";
    "SSL_CERT_FILE=/etc/ssl/certs/ca-certificates.crt" ].

(** The contents of the caller's environment map. *)
Definition caller_environment (ic : ImageConfiguration) (s : State) : gmap string string :=
  match Environment ic with
  | Some l => map_contents s l
  | None => ∅
  end.

(** Lines 167 to 181 on an environment map that holds [m], when [range]
    visits its entries in the order [kvs]. *)
Definition env_of (m : gmap string string) (kvs : list (string * string)) : list string :=
  if decide (m ≠ ∅) then sort_Strings (render <$> kvs)
  else default_env.

(** The image that the assembler builds from a layer, the annotations
    [anns], the tokenized entrypoint and command, and the environment. *)
Definition image_of (mediaType : MediaType) (layer : Layer) (diffid : Hash)
    (ic : ImageConfiguration) (created : Time) (arch : Architecture)
    (anns : gmap string string) (entrypoint cmd env : list string) : v1Image :=
  {| img_mediaType :=
       if decide (mediaType = ggcrtypes.OCILayer) then ggcrtypes.OCIManifestSchema1
       else ggcrtypes.DockerManifestSchema2;
     img_configMediaType :=
       if decide (mediaType = ggcrtypes.OCILayer) then ggcrtypes.OCIConfigJSON
       else ggcrtypes.DockerConfigFile;
     img_layers := [layer];
     img_annotations :=
       if decide (mediaType ≠ ggcrtypes.DockerLayer ∧ anns ≠ ∅) then anns else ∅;
     img_configFile :=
       {| cf_Architecture := plat_Architecture (ToOCIPlatform arch);
          cf_Author := "github.com/chainguard-dev/apko";
          cf_Created := created;
          cf_History := [ {| hist_Author := "apko"; hist_Created := created;
                             hist_CreatedBy := "apko";
                             hist_Comment := "This is an apko single-layer image" |} ];
          cf_OS := "linux";
          cf_RootFS_Type := "layers";
          cf_RootFS_DiffIDs := [diffid];
          cf_Config :=
            {| cfg_Labels := ∅;
               cfg_Entrypoint := entrypoint;
               cfg_Cmd := cmd;
               cfg_WorkingDir := WorkDir ic;
               cfg_Env := env;
               cfg_User := Accounts_RunAs ic |};
          cf_Variant := plat_Variant (ToOCIPlatform arch) |} |}.

(** The events of a local publish of [image] under the hash [h]: log
    lines, and writes of [image] to the daemon under the local tag that
    is made of the hex of [h]. *)
Definition local_event (h : Hash) (image : SignedImage) (e : Event) : Prop :=
  match e with
  | EvLog _ _ => True
  | EvDaemonWrite t i _ => name_NewTag (oci.localTagOf (Hex h)) = Ok t ∧ i = image
  | _ => False
  end.

(** [a] is the entry of the member that [imgs] holds for [arch]: it adds
    that image, and its descriptor carries the media type, the digest and
    the size of the image and the OCI platform of [arch]. *)
Definition member_entry (imgs : gmap Architecture SignedImage) (arch : Architecture)
    (a : IndexAddendum) : Prop :=
  ∃ img h size,
    imgs !! arch = Some img
    ∧ Add a = img
    ∧ oci.SignedImage_Digest img = Ok h
    ∧ oci.SignedImage_Size img = Ok size
    ∧ Descriptor_ a = {| desc_MediaType := img_mediaType (si_image img);
                         desc_Digest := h;
                         desc_Size := size;
                         desc_Platform := Some (ToOCIPlatform arch) |}.

(** [a.String() < b.String()] *)
Definition arch_lt (a b : Architecture) : Prop :=
  GoString.lt (Architecture_String a) (Architecture_String b).

End derived.

(** Every run of [m] only appends events, and each of them satisfies [P]. *)
Definition appends {A} (P : Event → Prop) (m : M A) : Prop :=
  ∀ s r s', m s = (r, s') → ∃ evs, trace s' = trace s ++ evs ∧ Forall P evs.

(** A line of the log, which changes nothing outside the process. *)
Definition is_log (e : Event) : Prop :=
  match e with EvLog _ _ => True | _ => False end.

(** The tags under which images were written to the daemon. *)
Definition daemon_tags (evs : list Event) : list Tag :=
  omap (λ e, match e with EvDaemonWrite t _ _ => Some t | _ => None end) evs.

(** The writes of images to the daemon, each with its tag, its image and
    its outcome. *)
Definition daemon_writes (evs : list Event) : list (Tag * SignedImage * option error) :=
  omap (λ e, match e with EvDaemonWrite t i err => Some (t, i, err) | _ => None end) evs.

(** Every tag of the list is published, one after the other, from the
    state [s] on; [d'] and [s'] are the digest and the state that the
    last of them leaves. *)
Inductive all_published (publish : string → M Digest)
  : list string → Digest → State → Digest → State → Prop :=
  | published_nil d s : all_published publish [] d s d s
  | published_cons tag tags d0 s0 d1 s1 d' s' :
      publish tag (emit (EvLog InfoLevel ("publishing image tag " +:+ tag)) s0) = (Ok d1, s1) →
      all_published publish tags d1 s1 d' s' →
      all_published publish (tag :: tags) d0 s0 d' s'.

(** Whether an event is a write of an image to the given registry,
    whatever its outcome. *)
Definition writes_to (registry : string) (e : Event) : bool :=
  match e with
  | EvRemoteWrite ref _ _ => String.eqb (Registry (name.Context ref)) registry
  | _ => false
  end.

(** ** Notions for the further properties *)

(** The messages with which the assembler wraps the error of a step. *)
Definition assembler_steps (mediaType : MediaType) : list string :=
  let imageType := oci.humanReadableImageType mediaType in
  [ "failed to create " +:+ imageType +:+ " layer from tar.gz";
    "could not calculate layer digest";
    "could not calculate layer diff id";
    "unable to append " +:+ imageType +:+ " layer to empty image";
    "unable to get " +:+ imageType +:+ " config file";
    "unable to parse entrypoint command";
    "unable to parse cmd";
    "unable to update " +:+ imageType +:+ " config file";
    "attaching SBOM to image" ].

(** A call that asks the world for an outcome and records it. *)
Definition recorded (out : list Event → option error) (ev : option error → Event) : M unit :=
  λ s, (oci.of_err (out (trace s)), emit (ev (out (trace s))) s).

(** The record of failed attempts, one per error. *)
Definition attempts (ev : option error → Event) (errs : list error) : list Event :=
  (λ e, ev (Some e)) <$> errs.

(** The record of a retried call: failed attempts, closed by the one
    that succeeded when [ok] holds. *)
Definition retried (ev : option error → Event) (ok : bool) (evs : list Event) : Prop :=
  ∃ errs, evs = attempts ev errs ++ (if ok then [ev None] else []).

(** What writing peripherals records: log lines and writes of files. *)
Definition peripheral_event (e : Event) : Prop :=
  match e with
  | EvLog _ _ | EvRemoteWriteFile _ _ _ => True
  | _ => False
  end.

(** The references and images of the image writes that succeeded. *)
Definition successful_writes (evs : list Event) : list (Reference * SignedImage) :=
  omap (λ e, match e with EvRemoteWrite ref i None => Some (ref, i) | _ => None end) evs.

(** The newline byte. *)
Definition newline : ascii := Ascii.ascii_of_nat 10.

(** Whether a byte occurs in a string. *)
Fixpoint occurs (c : ascii) (s : string) : bool :=
  match s with
  | EmptyString => false
  | String c' s' => (Ascii.eqb c' c || occurs c s')%bool
  end.

(** The references and files of the writes of SBOM files that succeeded. *)
Definition successful_file_writes (evs : list Event) : list (Tag * File) :=
  omap (λ e, match e with EvRemoteWriteFile ref f None => Some (ref, f) | _ => None end) evs.

(** Every run of [m] leaves the Go maps and the files as they were. *)
Definition keeps {A} (m : M A) : Prop :=
  ∀ s r s', m s = (r, s') → heap s' = heap s ∧ files s' = files s.

(** What publishing an index to registries records: log lines, writes
    of SBOM files, and writes of that index. *)
Definition index_event (index : SignedImageIndex) (e : Event) : Prop :=
  match e with
  | EvLog _ _ | EvRemoteWriteFile _ _ _ => True
  | EvRemoteWriteIndex _ i _ => i = index
  | _ => False
  end.

(** The references and indexes of the index writes that succeeded. *)
Definition successful_index_writes (evs : list Event) : list (Reference * SignedImageIndex) :=
  omap (λ e, match e with EvRemoteWriteIndex ref i None => Some (ref, i) | _ => None end) evs.

(** What giving names to a local image records: log lines, and requests
    to the daemon to tag the image [src]. *)
Definition retag_event (src : Tag) (e : Event) : Prop :=
  match e with
  | EvLog _ _ => True
  | EvDaemonTag src' _ _ => src' = src
  | _ => False
  end.

(** The source and the new name of the tag requests that succeeded. *)
Definition retags (evs : list Event) : list (Tag * Tag) :=
  omap (λ e, match e with EvDaemonTag src dst None => Some (src, dst) | _ => None end) evs.

(** Lines 444 to 450: the native platform, linux/amd64 unless the
    environment says otherwise. *)
Definition goos_of (o : Oracle) : string :=
  if decide (Getenv o "GOOS" = "") then "linux" else Getenv o "GOOS".
Definition goarch_of (o : Oracle) : string :=
  if decide (Getenv o "GOARCH" = "") then "amd64" else Getenv o "GOARCH".

(** Lines 452 to 460: a manifest of the native platform. *)
Definition is_native (goos goarch : string) (m : Descriptor) : bool :=
  match desc_Platform m with
  | Some p => bool_decide (plat_OS p = goos ∧ plat_Architecture p = goarch)
  | None => false
  end.

Section further_notions.
Context `{L : Collab}.

(** Where the SBOM file [w.2] of [se] was written under the tag [tag]:
    at the SBOM tag [w.1] of the digest of [se] in the repository of the
    tag, unless the environment names another repository. *)
Definition sbom_written (o : Oracle) (se : SignedEntity) (tag : string) (w : Tag * File)
  : Prop :=
  ∃ ref repo h,
    name_ParseReference tag = Ok ref
    ∧ GetEnvTargetRepository o = Ok repo
    ∧ oci.SignedEntity_Digest se = Ok h
    ∧ ociremote_SBOMTag (name.Repository_Digest (name.Context ref) (Hash_String h))
        (if decide (repo ≠ name.zeroRepository) then Some repo else None) = Ok w.1
    ∧ oci.SignedEntity_Attachment se "sbom" = Ok w.2.

End further_notions.


(** The sample world with a daemon that cannot be reached and says so
    on two lines. *)
Definition daemon_down : Oracle :=
  {| rangeEnvironment := rangeEnvironment (Sample.oracle "");
     rangeImgs := rangeImgs (Sample.oracle "");
     daemon_Write := λ _ _ _,
       ("Cannot connect to the Docker daemon" +:+ String newline "Is the daemon running?",
        Some (ExternalError "connection refused"));
     daemon_Tag := daemon_Tag (Sample.oracle "");
     remote_Write := remote_Write (Sample.oracle "");
     remote_WriteFile := remote_WriteFile (Sample.oracle "");
     remote_WriteIndex := remote_WriteIndex (Sample.oracle "");
     Getenv := Getenv (Sample.oracle "");
     GetEnvTargetRepository := GetEnvTargetRepository (Sample.oracle "") |}.


(** * Properties *)

(** ** The order of Go strings and the sort of a permuted slice *)

Section string_order.

Lemma ascii_compare_refl c : Ascii.compare c c = Eq.
Proof. unfold Ascii.compare. apply N.compare_refl. Qed.

Lemma string_compare_refl a : String.compare a a = Eq.
Proof. induction a as [|c a IH]; simpl; [done|]. by rewrite ascii_compare_refl. Qed.

Lemma string_le_cons c1 c2 a b :
  GoString.le (String c1 a) (String c2 b) ↔
  (N_of_ascii c1 < N_of_ascii c2)%N ∨ (c1 = c2 ∧ GoString.le a b).
Proof.
  unfold GoString.le, String.leb. simpl. unfold Ascii.compare.
  destruct (N.compare_spec (N_of_ascii c1) (N_of_ascii c2)) as [Heq|Hlt|Hgt].
  - assert (c1 = c2) as ->.
    { rewrite <- (ascii_N_embedding c1), <- (ascii_N_embedding c2). by rewrite Heq. }
    split; [by right|]. intros [?|[_ ?]]; [lia|done].
  - split; [by left|done].
  - split; [done|]. intros [?|[-> _]]; lia.
Qed.

#[global] Instance string_le_refl : Reflexive GoString.le.
Proof. intros a. unfold GoString.le, String.leb. by rewrite string_compare_refl. Qed.

#[global] Instance string_le_trans : Transitive GoString.le.
Proof.
  intros a. induction a as [|c1 a IH]; intros [|c2 b] [|c3 c] Hab Hbc; try done.
  apply string_le_cons in Hab, Hbc. apply string_le_cons.
  destruct Hab as [?|[-> ?]], Hbc as [?|[-> ?]]; [left; lia|by left|by left|].
  right. split; [done|]. by eapply IH.
Qed.

#[global] Instance string_le_total : Total GoString.le.
Proof. intros a b. apply String.leb_total. Qed.

#[global] Instance string_le_antisym : AntiSymm (=) GoString.le.
Proof. intros a b. apply String.leb_antisym. Qed.

(** [a < b] is [a <= b] with [a] and [b] different. *)
Lemma string_lt_le a b : GoString.lt a b ↔ GoString.le a b ∧ a ≠ b.
Proof.
  unfold GoString.lt, GoString.le, String.ltb, String.leb.
  destruct (String.compare a b) eqn:Hc.
  - apply String.compare_eq_iff in Hc. split; [done|]. by intros [_ ?].
  - split; [|done]. intros _. split; [done|]. intros ->.
    by rewrite string_compare_refl in Hc.
  - split; [done|]. by intros [? _].
Qed.

#[global] Instance arch_le_trans : Transitive arch_le.
Proof. intros a b c. unfold arch_le. apply string_le_trans. Qed.
#[global] Instance arch_le_total : Total arch_le.
Proof. intros a b. unfold arch_le. apply string_le_total. Qed.
#[global] Instance arch_le_antisym : AntiSymm (=) arch_le.
Proof.
  intros [a] [b] H1 H2. unfold arch_le in *. simpl in *. f_equal.
  by apply string_le_antisym.
Qed.

(** However the slice was filled, sorting puts it in the one order. *)
Lemma sort_Strings_perm l1 l2 : l1 ≡ₚ l2 → sort_Strings l1 = sort_Strings l2.
Proof.
  intros Hp. unfold sort_Strings.
  apply (Sorted_unique GoString.le); try apply Sorted_merge_sort; try apply _.
  by rewrite !merge_sort_Permutation.
Qed.

Lemma sort_archs_perm l1 l2 : l1 ≡ₚ l2 → sort_archs l1 = sort_archs l2.
Proof.
  intros Hp. unfold sort_archs.
  apply (Sorted_unique arch_le); try apply Sorted_merge_sort; try apply _.
  by rewrite !merge_sort_Permutation.
Qed.

End string_order.

(** ** Running the monad *)

Section monad_facts.
Context {A B : Type}.

Lemma bind_Ok (m : M A) (k : A → M B) s b s' :
  (m ≫= k) s = (Ok b, s') ↔ ∃ a s1, m s = (Ok a, s1) ∧ k a s1 = (Ok b, s').
Proof.
  unfold mbind, M_bind, bind. split.
  - destruct (m s) as [[a|e] s1] eqn:Hm; [|done]. intros Hk. by exists a, s1.
  - intros (a & s1 & -> & Hk). done.
Qed.

Lemma bind_Err (m : M A) (k : A → M B) s e s' :
  (m ≫= k) s = (Err e, s') ↔
  m s = (Err e, s') ∨ ∃ a s1, m s = (Ok a, s1) ∧ k a s1 = (Err e, s').
Proof.
  unfold mbind, M_bind, bind. split.
  - destruct (m s) as [[a|e1] s1] eqn:Hm.
    + intros Hk. right. by exists a, s1.
    + intros [= -> ->]. by left.
  - intros [->|(a & s1 & -> & Hk)]; done.
Qed.

Lemma bind_run_Ok (m : M A) (k : A → M B) s a s1 :
  m s = (Ok a, s1) → (m ≫= k) s = k a s1.
Proof. unfold mbind, M_bind, bind. by intros ->. Qed.

Lemma bind_run_Err (m : M A) (k : A → M B) s e s1 :
  m s = (Err e, s1) → (m ≫= k) s = (Err e, s1).
Proof. unfold mbind, M_bind, bind. by intros ->. Qed.

Lemma wrapM_Ok p (m : M A) s a s' : wrapM p m s = (Ok a, s') ↔ m s = (Ok a, s').
Proof.
  unfold wrapM. destruct (m s) as [[a1|e] s1]; simpl; split; intros [=]; by subst.
Qed.

Lemma wrap_Ok p (r : result A) a : wrap p r = Ok a ↔ r = Ok a.
Proof. destruct r; simpl; split; intros [=]; by subst. Qed.

Lemma liftR_run (r : result A) s r' s' : liftR r s = (r', s') ↔ r' = r ∧ s' = s.
Proof. unfold liftR. split; [intros [=]|intros [-> ->]]; done. Qed.

Lemma mret_run (a : A) s r s' : mret (M := M) a s = (r, s') ↔ r = Ok a ∧ s' = s.
Proof. unfold mret, M_ret, ret. split; [intros [=]|intros [-> ->]]; done. Qed.

Lemma fail_run e s (r : result A) s' : fail e s = (r, s') ↔ r = Err e ∧ s' = s.
Proof. unfold fail. split; [intros [=]|intros [-> ->]]; done. Qed.

End monad_facts.

Lemma log_run lvl msg s r s' :
  log lvl msg s = (r, s') ↔ r = Ok tt ∧ s' = emit (EvLog lvl msg) s.
Proof. unfold log, modify. split; [intros [=]|intros [-> ->]]; done. Qed.

(** Inverting a run that ended well, one statement at a time. *)
Ltac run_inv H :=
  lazymatch type of H with
  | (_ ≫= _) _ = (Ok _, _) =>
      let a := fresh "a" in let s1 := fresh "s" in
      let H1 := fresh "Hrun" in let H2 := fresh "Hrun" in
      apply bind_Ok in H as (a & s1 & H1 & H2); cbv beta zeta in H2;
      run_inv H1; run_inv H2
  | wrapM _ _ _ = (Ok _, _) => apply wrapM_Ok in H; run_inv H
  | liftR _ _ = (_, _) =>
      let H1 := fresh "Heq" in
      apply liftR_run in H as [H1 ->]; symmetry in H1; try apply wrap_Ok in H1
  | log _ _ _ = (_, _) => apply log_run in H as [[=] ->]
  | mret _ _ = (_, _) => apply mret_run in H as [[=] ->]
  | fail _ _ = (Ok _, _) => by apply fail_run in H as [[=] _]
  | _ => idtac
  end.

(** ** The SBOM attacher, case by case *)

Section attachSBOM_facts.
Context `{L : Collab}.

Lemma supported_select format : supported format ↔ is_Some (sbom_select format).
Proof.
  unfold supported, sbom_select. split.
  - intros [-> | [-> | ->]]; repeat case_decide; try done; by eexists.
  - intros Hs. repeat case_decide; auto. by destruct Hs as [? [=]].
Qed.

Lemma attachSBOM_nil se sbomPath arch s :
  oci.attachSBOM se sbomPath [] arch s
  = (Ok se, emit (EvLog DebugLevel "Not building sboms, no formats requested") s).
Proof. reflexivity. Qed.

Lemma attachSBOM_cons se sbomPath format0 rest arch s :
  oci.attachSBOM se sbomPath (format0 :: rest) arch s =
  match sbom_select format0 with
  | None => (Err (NewError ("unsupported SBOM format: " +:+ format0)), s)
  | Some (mt, ext) =>
      let s1 := warned mt rest s in
      match os_ReadFile (sbom_file sbomPath arch ext) s1 with
      | (Err e, _) => (Err (WrapError "reading sbom" e), s1)
      | (Ok b, _) =>
          match static_NewFile b mt with
          | Err e => (Err e, s1)
          | Ok f => (attach se f, s1)
          end
      end
  end.
Proof.
  unfold oci.attachSBOM, sbom_select, sbom_file, sbom_archName.
  unfold mbind, M_bind, bind, mret, M_ret, ret, fail, wrapM, liftR, log, modify, os_ReadFile.
  destruct rest as [|format1 rest]; repeat case_decide;
    try reflexivity; try (exfalso; simpl in *; lia); simpl;
    match goal with |- context [files s !! ?p] => destruct (files s !! p) end;
    simpl; try reflexivity;
    match goal with |- context [static_NewFile ?b ?m] => destruct (static_NewFile b m) end;
    simpl; try reflexivity; destruct se; reflexivity.
Qed.

(** The attacher changes neither a Go map nor a file. *)
Lemma attachSBOM_frame se sbomPath fmts arch s r s' :
  oci.attachSBOM se sbomPath fmts arch s = (r, s') →
  heap s' = heap s ∧ files s' = files s.
Proof.
  destruct fmts as [|format0 rest].
  - rewrite attachSBOM_nil. by intros [= _ <-].
  - rewrite attachSBOM_cons. destruct (sbom_select format0) as [[mt ext]|].
    + cbv zeta. assert (heap (warned mt rest s) = heap s ∧ files (warned mt rest s) = files s)
        as Hw by (by destruct rest).
      destruct (os_ReadFile _ _) as [[b|e] ?]; [destruct (static_NewFile b mt)|];
        by intros [= _ <-].
    + by intros [= _ <-].
Qed.

(** Attached to an image, the result is that image with one attachment. *)
Lemma attachSBOM_image i sbomPath fmts arch s ent s' :
  oci.attachSBOM (SEImage i) sbomPath fmts arch s = (Ok ent, s') →
  ∃ i', ent = SEImage i' ∧ si_image i' = si_image i.
Proof.
  destruct fmts as [|format0 rest].
  - rewrite attachSBOM_nil. intros [= <- _]. by exists i.
  - rewrite attachSBOM_cons. destruct (sbom_select format0) as [[mt ext]|]; [|done].
    cbv zeta. destruct (os_ReadFile _ _) as [[b|e] ?]; [|done].
    destruct (static_NewFile b mt); [|done]. simpl. intros [= <- _]. by eexists.
Qed.

End attachSBOM_facts.

(** ** The assembler, when it returns an image *)

Section build_facts.
Context `{L : Collab}.

Lemma map_contents_store s l k v :
  map_contents (set_heap (<[l := <[k := v]> (map_contents s l)]> (heap s)) s) l
  = <[k := v]> (map_contents s l).
Proof. unfold map_contents at 1. simpl. by rewrite lookup_insert_eq. Qed.

(** Lines 114 to 123, run from [s]: the map that [annotations] names
    holds [vcs_annotations], and it is the caller's map unless that was nil. *)
Lemma annotate_run ic s l s1 u s2 :
  match Annotations ic with Some l => mret l | None => new_map ∅ end s = (Ok l, s1) →
  (if decide (VCSUrl ic ≠ "") then
     match GoString.Cut (VCSUrl ic) "@" with
     | (url, hash, true) =>
         map_store l "org.opencontainers.image.source" url;;
         map_store l "org.opencontainers.image.revision" hash
     | _ => mret tt
     end
   else mret tt) s1 = (Ok u, s2) →
  map_contents s2 l = vcs_annotations ic (caller_annotations ic s)
  ∧ files s2 = files s ∧ trace s2 = trace s
  ∧ (∀ l', l' ≠ l → heap s2 !! l' = heap s !! l')
  ∧ (Annotations ic = Some l ∨ (Annotations ic = None ∧ heap s !! l = None)).
Proof.
  intros Hl Hst.
  assert (map_contents s1 l = caller_annotations ic s ∧ files s1 = files s
          ∧ trace s1 = trace s ∧ (∀ l', l' ≠ l → heap s1 !! l' = heap s !! l')
          ∧ (Annotations ic = Some l ∨ (Annotations ic = None ∧ heap s !! l = None)))
    as (Hc & Hf & Ht & Hh & Ho).
  { unfold caller_annotations. destruct (Annotations ic) as [l0|].
    - apply mret_run in Hl as [[= ->] ->]. repeat split; auto.
    - unfold new_map in Hl. injection Hl as <- <-. simpl.
      unfold map_contents. simpl. rewrite lookup_insert_eq. simpl.
      repeat split; [|right; split; [done|]].
      + intros l' Hne. by rewrite lookup_insert_ne.
      + apply not_elem_of_dom, is_fresh. }
  unfold vcs_annotations, vcs_cut. rewrite <- Hc, <- Hf, <- Ht.
  destruct (decide (VCSUrl ic ≠ "")) as [Hv|Hv].
  - destruct (GoString.Cut (VCSUrl ic) "@") as [[url hash] [|]].
    + unfold map_store, modify, mbind, M_bind, bind in Hst. injection Hst as _ <-.
      simpl. rewrite map_contents_store.
      unfold map_contents at 1. simpl. rewrite lookup_insert_eq. simpl.
      repeat split; [|done].
      intros l' Hne. rewrite !lookup_insert_ne by done. by apply Hh.
    + apply mret_run in Hst as [_ ->]. repeat split; auto.
  - apply mret_run in Hst as [_ ->]. repeat split; auto.
Qed.

Lemma Append_one base layer history diffid :
  layer_DiffID layer = Ok diffid →
  mutate.Append base [ {| add_Layer := layer; add_History := history |} ]
  = Ok {| img_mediaType := img_mediaType base;
          img_configMediaType := img_configMediaType base;
          img_layers := img_layers base ++ [layer];
          img_annotations := img_annotations base;
          img_configFile :=
            let cf := img_configFile base in
            {| cf_Architecture := cf_Architecture cf; cf_Author := cf_Author cf;
               cf_Created := cf_Created cf;
               cf_History := cf_History cf ++ [history];
               cf_OS := cf_OS cf; cf_RootFS_Type := cf_RootFS_Type cf;
               cf_RootFS_DiffIDs := cf_RootFS_DiffIDs cf ++ [diffid];
               cf_Config := cf_Config cf; cf_Variant := cf_Variant cf |} |}.
Proof. intros Hd. simpl. unfold mutate.append1. simpl. by rewrite Hd. Qed.

Lemma LayerFromFile_run path mediaType s r s' :
  oci.v1tar_LayerFromFile path mediaType s = (r, s') →
  s' = s ∧
  r = match files s !! path with
      | Some b => Ok {| layer_bytes := b; layer_mediaType := mediaType |}
      | None => Err (ExternalError ("open " +:+ path +:+ ": no such file or directory"))
      end.
Proof.
  unfold oci.v1tar_LayerFromFile, os_ReadFile, mbind, M_bind, bind, mret, M_ret, ret.
  destruct (files s !! path); by intros [= <- <-].
Qed.

Lemma entrypoint_run ic (dflt : list string) s r s' :
  (if decide (Entrypoint_ShellFragment ic ≠ "") then
     mret ["/bin/sh"; "-c"; Entrypoint_ShellFragment ic]
   else if decide (Entrypoint_Command ic ≠ "") then
     liftR (wrap "unable to parse entrypoint command" (shlex_Split (Entrypoint_Command ic)))
   else mret dflt) s = (r, s') →
  dflt = [] → r = entrypoint_of ic ∧ s' = s.
Proof.
  unfold entrypoint_of. intros H ->. repeat case_decide.
  - by apply mret_run in H.
  - by apply liftR_run in H.
  - by apply mret_run in H.
Qed.

Lemma cmd_run ic (dflt : list string) s r s' :
  (if decide (Cmd ic ≠ "") then liftR (wrap "unable to parse cmd" (shlex_Split (Cmd ic)))
   else mret dflt) s = (r, s') →
  dflt = [] → r = cmd_of ic ∧ s' = s.
Proof.
  unfold cmd_of. intros H ->. case_decide.
  - by apply liftR_run in H.
  - by apply mret_run in H.
Qed.

Lemma environment_run ic s r s' :
  (match Environment ic with
   | Some l => map_load l
   | None => mret ∅
   end) s = (r, s') →
  r = Ok (caller_environment ic s) ∧ s' = s.
Proof.
  unfold caller_environment. destruct (Environment ic) as [l|].
  - by intros [= <- <-].
  - by intros [-> ->]%mret_run.
Qed.

Lemma environment_succeeds ic s :
  (match Environment ic with
   | Some l => map_load l
   | None => mret ∅
   end) s = (Ok (caller_environment ic s), s).
Proof. unfold caller_environment. by destruct (Environment ic). Qed.

Lemma env_of_perm m kvs kvs' : kvs ≡ₚ kvs' → env_of m kvs = env_of m kvs'.
Proof.
  intros Hp. unfold env_of. case_decide; [|done].
  apply sort_Strings_perm. by apply fmap_Permutation.
Qed.

Lemma or_empty (x : string) : (if decide (x ≠ "") then x else "") = x.
Proof. case_decide as Hx; [done|]. by rewrite Hx. Qed.

Lemma build_Ok o mediaType layerTarGZ ic created arch sbomPath sbomFormats s si s' :
  oci.buildImageFromLayerWithMediaType o mediaType layerTarGZ ic created arch
    sbomPath sbomFormats s = (Ok si, s') →
  ∃ b digest diffid entrypoint cmd,
    let layer := {| layer_bytes := b; layer_mediaType := mediaType |} in
    files s !! layerTarGZ = Some b
    ∧ layer_Digest layer = Ok digest
    ∧ layer_DiffID layer = Ok diffid
    ∧ entrypoint_of ic = Ok entrypoint
    ∧ cmd_of ic = Ok cmd
    ∧ si_image si = image_of mediaType layer diffid ic created arch
                      (vcs_annotations ic (caller_annotations ic s)) entrypoint cmd
                      (env_of (caller_environment ic s')
                         (rangeEnvironment o (caller_environment ic s')))
    ∧ files s' = files s
    ∧ (∀ l, Annotations ic = Some l →
            map_contents s' l = vcs_annotations ic (map_contents s l))
    ∧ (∀ l, Annotations ic ≠ Some l → is_Some (heap s !! l) → heap s' !! l = heap s !! l)
    ∧ (∃ i0 s0, files s0 = files s
                ∧ is_Ok (oci.attachSBOM (SEImage i0) sbomPath sbomFormats arch s0).1).
Proof.
  intros H. unfold oci.buildImageFromLayerWithMediaType in H. cbv zeta in H.
  run_inv H.
  apply LayerFromFile_run in Hrun as [-> Hlayer]. cbn [files emit] in Hlayer.
  destruct (files s !! layerTarGZ) as [b|] eqn:Hb; [|done]. simpl in Hlayer.
  injection Hlayer as ->.
  rewrite (Append_one _ _ _ _ Heq0) in Heq1. injection Heq1 as <-.
  destruct (annotate_run _ _ _ _ _ _ Hrun0 Hrun2) as (Hc & Hf & Ht & Hh & Ho).
  unfold map_load in Hrun1. injection Hrun1 as <- <-. rewrite Hc in *.
  unfold oci.v1Image_ConfigFile in Heq2. injection Heq2 as <-.
  apply entrypoint_run in Hrun3 as [Hep ->];
    [|by repeat match goal with |- context [decide ?P] => destruct (decide P) end].
  apply cmd_run in Hrun5 as [Hcmd ->];
    [|by repeat match goal with |- context [decide ?P] => destruct (decide P) end].
  apply environment_run in Hrun4 as [[= ->] ->].
  unfold mutate.ConfigFile__ in Heq3. injection Heq3 as <-.
  pose proof Hrun6 as Hatt.
  destruct (attachSBOM_image _ _ _ _ _ _ _ Hrun6) as (i' & -> & Himg).
  apply attachSBOM_frame in Hrun6 as [Hhp Hfl].
  lazymatch goal with
  | H : _ _ = (Ok si, s') |- _ => cbv beta iota in H; apply mret_run in H as [[= ->] ->]
  end.
  assert (∀ st, heap st = heap s2 → caller_environment ic st = caller_environment ic s2)
    as Henv.
  { intros st Hst. unfold caller_environment, map_contents. by rewrite Hst. }
  exists b, a1, a2, a10, a11. cbv zeta.
  split_and!; try done.
  - rewrite Himg, (Henv _ Hhp). cbn [si_image signed.Image]. unfold image_of, env_of, render.
    destruct (decide (mediaType = ggcrtypes.OCILayer)) as [Hmt|Hmt];
      destruct (decide (_ ∧ _)) as [Han|Han]; cbn;
      rewrite ?(right_id_L ∅ (∪)), !or_empty;
      repeat match goal with |- context [decide ?P] => destruct (decide P) end;
      try reflexivity; try done.
  - by rewrite Hfl, Hf.
  - intros l Hl. destruct Ho as [Ho|[Ho _]]; rewrite Hl in Ho; [|done].
    injection Ho as ->. unfold map_contents at 1. rewrite Hhp.
    fold (map_contents s2 a6). rewrite Hc. unfold caller_annotations. by rewrite Hl.
  - intros l Hl Hsome. rewrite Hhp. apply Hh. intros ->.
    destruct Ho as [Ho|[_ Ho]]; [done|].
    cbn [heap emit] in Ho. rewrite Ho in Hsome. by destruct Hsome.
  - eexists _, _. split; [exact Hf|]. rewrite Hatt. by eexists.
Qed.

Lemma is_Ok_bind {A B} (m : M A) (k : A → M B) s a s1 :
  m s = (Ok a, s1) → is_Ok (k a s1).1 → is_Ok ((m ≫= k) s).1.
Proof. intros Hm Hk. by rewrite (bind_run_Ok _ _ _ _ _ Hm). Qed.

(** Whether the attacher succeeds on an image depends on the files only. *)
Lemma attachSBOM_image_again i i0 sbomPath sbomFormats arch s s0 :
  files s0 = files s →
  is_Ok (oci.attachSBOM (SEImage i) sbomPath sbomFormats arch s).1 →
  is_Ok (oci.attachSBOM (SEImage i0) sbomPath sbomFormats arch s0).1.
Proof.
  intros Hfiles. destruct sbomFormats as [|format0 rest].
  - rewrite !attachSBOM_nil. intros _. by eexists.
  - rewrite !attachSBOM_cons. destruct (sbom_select format0) as [[mt ext]|]; [|done].
    cbv zeta. unfold os_ReadFile.
    assert (files (warned mt rest s0) = files (warned mt rest s)) as ->
      by (by destruct rest).
    destruct (files (warned mt rest s) !! _); [|done].
    destruct (static_NewFile _ mt); [|done]. intros _. by eexists.
Qed.

Lemma entrypoint_succeeds ic (dflt : list string) s entrypoint :
  entrypoint_of ic = Ok entrypoint → dflt = [] →
  (if decide (Entrypoint_ShellFragment ic ≠ "") then
     mret ["/bin/sh"; "-c"; Entrypoint_ShellFragment ic]
   else if decide (Entrypoint_Command ic ≠ "") then
     liftR (wrap "unable to parse entrypoint command" (shlex_Split (Entrypoint_Command ic)))
   else mret dflt) s = (Ok entrypoint, s).
Proof.
  intros Hep Hd.
  lazymatch goal with |- ?m s = _ => destruct (m s) as [r s1] eqn:Hrun end.
  apply entrypoint_run in Hrun as [-> ->]; [|done]. by rewrite Hep.
Qed.

Lemma cmd_succeeds ic (dflt : list string) s cmd :
  cmd_of ic = Ok cmd → dflt = [] →
  (if decide (Cmd ic ≠ "") then liftR (wrap "unable to parse cmd" (shlex_Split (Cmd ic)))
   else mret dflt) s = (Ok cmd, s).
Proof.
  intros Hcmd Hd.
  lazymatch goal with |- ?m s = _ => destruct (m s) as [r s1] eqn:Hrun end.
  apply cmd_run in Hrun as [-> ->]; [|done]. by rewrite Hcmd.
Qed.

(** Lines 114 to 123 never fail, and touch no file. *)
Lemma annotate_succeeds ic s :
  ∃ l s1 s2,
    match Annotations ic with Some l => mret l | None => new_map ∅ end s = (Ok l, s1)
    ∧ (if decide (VCSUrl ic ≠ "") then
         match GoString.Cut (VCSUrl ic) "@" with
         | (url, hash, true) =>
             map_store l "org.opencontainers.image.source" url;;
             map_store l "org.opencontainers.image.revision" hash
         | _ => mret tt
         end
       else mret tt) s1 = (Ok tt, s2)
    ∧ files s2 = files s.
Proof.
  destruct (Annotations ic) as [l|];
    (destruct (decide (VCSUrl ic ≠ "")) as [Hv|Hv];
     [destruct (GoString.Cut (VCSUrl ic) "@") as [[url hash] [|]]|]);
    eexists _, _, _; (split_and!; reflexivity).
Qed.

(** The assembler returns an image as soon as the layer can be read and
    hashed, the entrypoint and the command can be split, and the SBOM
    can be attached. *)
Lemma build_succeeds o mediaType layerTarGZ ic created arch sbomPath sbomFormats s
    b digest diffid entrypoint cmd i0 s0 :
  let layer := {| layer_bytes := b; layer_mediaType := mediaType |} in
  files s !! layerTarGZ = Some b →
  layer_Digest layer = Ok digest →
  layer_DiffID layer = Ok diffid →
  entrypoint_of ic = Ok entrypoint →
  cmd_of ic = Ok cmd →
  files s0 = files s →
  is_Ok (oci.attachSBOM (SEImage i0) sbomPath sbomFormats arch s0).1 →
  is_Ok (oci.buildImageFromLayerWithMediaType o mediaType layerTarGZ ic created arch
           sbomPath sbomFormats s).1.
Proof.
  intros layer Hb Hdg Hdf Hep Hcmd Hfiles Hatt.
  unfold oci.buildImageFromLayerWithMediaType. cbv zeta.
  eapply is_Ok_bind; [reflexivity|]. cbv beta.
  eapply is_Ok_bind.
  { apply wrapM_Ok. unfold oci.v1tar_LayerFromFile, os_ReadFile, mbind, M_bind, bind.
    cbn [files emit]. rewrite Hb. reflexivity. }
  cbv beta. fold layer.
  eapply is_Ok_bind; [by rewrite Hdg|]. cbv beta.
  eapply is_Ok_bind; [by rewrite Hdf|]. cbv beta.
  eapply is_Ok_bind; [reflexivity|]. cbv beta.
  eapply is_Ok_bind; [reflexivity|]. cbv beta.
  eapply is_Ok_bind; [by rewrite (Append_one _ _ _ _ Hdf)|]. cbv beta.
  destruct (annotate_succeeds ic
              (emit (EvLog InfoLevel (oci.humanReadableImageType mediaType +:+
                                        " layer diffID: " +:+ Hash_String diffid))
                 (emit (EvLog InfoLevel (oci.humanReadableImageType mediaType +:+
                                           " layer digest: " +:+ Hash_String digest))
                    (emit (EvLog InfoLevel ("building " +:+
                             oci.humanReadableImageType mediaType +:+
                             " image from layer '" +:+ layerTarGZ +:+ "'")) s))))
    as (l & s1 & s2 & Hl & Hst & Hfs).
  eapply is_Ok_bind; [exact Hl|]. cbv beta.
  eapply is_Ok_bind; [exact Hst|]. cbv beta.
  eapply is_Ok_bind; [reflexivity|]. cbv beta.
  eapply is_Ok_bind; [reflexivity|]. cbv beta.
  eapply is_Ok_bind.
  { apply (entrypoint_succeeds ic _ _ _ Hep).
    by repeat match goal with |- context [decide ?P] => destruct (decide P) end. }
  cbv beta.
  eapply is_Ok_bind.
  { apply (cmd_succeeds ic _ _ _ Hcmd).
    by repeat match goal with |- context [decide ?P] => destruct (decide P) end. }
  cbv beta.
  eapply is_Ok_bind; [apply environment_succeeds|]. cbv beta.
  eapply is_Ok_bind; [reflexivity|]. cbv beta.
  lazymatch goal with
  | |- context [oci.attachSBOM (SEImage ?i)] =>
      pose proof (attachSBOM_image_again i0 i sbomPath sbomFormats arch s0 s2
                    ltac:(by rewrite Hfs, Hfiles) Hatt) as Hatt2;
      destruct (oci.attachSBOM (SEImage i) sbomPath sbomFormats arch s2)
        as [[ent|e] s3] eqn:Hrun; [|by destruct Hatt2]
  end.
  destruct (attachSBOM_image _ _ _ _ _ _ _ Hrun) as (i' & -> & _).
  eapply is_Ok_bind; [apply wrapM_Ok; exact Hrun|]. by eexists.
Qed.


End build_facts.

(** ** The assembled image *)

Section assembler_properties.
Context `{L : Collab}.


(** C5. A shell fragment, when set, makes the entrypoint
    ["/bin/sh", "-c", fragment], whether or not a command string is set;
    otherwise a command string, when set, makes it the words into which
    the string is split; otherwise the entrypoint stays empty. *)
Theorem entrypoint_precedence o mediaType layerTarGZ ic created arch sbomPath sbomFormats
    s si s' :
  oci.buildImageFromLayerWithMediaType o mediaType layerTarGZ ic created arch
    sbomPath sbomFormats s = (Ok si, s') →
  let entrypoint := cfg_Entrypoint (cf_Config (img_configFile (si_image si))) in
  (Entrypoint_ShellFragment ic ≠ "" →
     entrypoint = ["/bin/sh"; "-c"; Entrypoint_ShellFragment ic])
  ∧ (Entrypoint_ShellFragment ic = "" → Entrypoint_Command ic ≠ "" →
     shlex_Split (Entrypoint_Command ic) = Ok entrypoint)
  ∧ (Entrypoint_ShellFragment ic = "" → Entrypoint_Command ic = "" → entrypoint = []).
Proof.
  intros Hbuild.
  apply build_Ok in Hbuild as (b & digest & diffid & ep & cmd & _ & _ & _ & Hep & _ & Himg & _).
  rewrite Himg. cbn. unfold entrypoint_of in Hep. split_and!.
  - intros Hf. rewrite decide_True in Hep by done. by injection Hep.
  - intros Hf Hc. rewrite decide_False, decide_True in Hep by (done || by intros ?).
    by apply wrap_Ok in Hep.
  - intros Hf Hc. rewrite !decide_False in Hep by (by intros ?). by injection Hep.
Qed.

(** C1. Two calls of the assembler on the same layer bytes, image
    configuration, creation time, architecture, media type, SBOM
    directory and format list return images with the same digest. The
    two calls may visit the environment map in different orders and find
    different SBOM files, and the second may run on the annotation map
    and on the environment map as the caller had them or as the first
    call left them, whether or not the two are one map. When the files
    are the same in both calls, the second returns an image as the first
    did. *)
Theorem assembly_deterministic o1 o2 mediaType layerTarGZ ic created arch sbomPath sbomFormats
    s1 s2 i1 s1' :
  range_ok o1 → range_ok o2 →
  files s1 !! layerTarGZ = files s2 !! layerTarGZ →
  (∀ l, Annotations ic = Some l →
        map_contents s2 l = map_contents s1 l ∨ map_contents s2 l = map_contents s1' l) →
  (∀ l, Environment ic = Some l →
        is_Some (heap s1 !! l) ∧ is_Some (heap s2 !! l)
        ∧ (map_contents s2 l = map_contents s1 l ∨ map_contents s2 l = map_contents s1' l)) →
  oci.buildImageFromLayerWithMediaType o1 mediaType layerTarGZ ic created arch
    sbomPath sbomFormats s1 = (Ok i1, s1') →
  (∀ i2 s2',
     oci.buildImageFromLayerWithMediaType o2 mediaType layerTarGZ ic created arch
       sbomPath sbomFormats s2 = (Ok i2, s2') →
     oci.SignedImage_Digest i1 = oci.SignedImage_Digest i2 ∧ si_image i1 = si_image i2)
  ∧ (files s2 = files s1 →
     ∃ i2 s2',
       oci.buildImageFromLayerWithMediaType o2 mediaType layerTarGZ ic created arch
         sbomPath sbomFormats s2 = (Ok i2, s2')).
Proof.
  intros [Hr1 _] [Hr2 _] Hfiles Hanns Henvs Hb1.
  apply build_Ok in Hb1 as (b1 & dg1 & df1 & ep1 & cmd1 & Hf1 & Hdg1 & Hd1 & Hep1 & Hc1 & Hi1
                            & _ & Hm1 & Hh1 & (i0 & s0 & Hfs0 & Hatt)).
  cbv zeta in *. split.
  - intros i2 s2' Hb2.
    apply build_Ok in Hb2 as (b2 & dg2 & df2 & ep2 & cmd2 & Hf2 & _ & Hd2 & Hep2 & Hc2 & Hi2
                              & _ & Hm2 & Hh2 & _).
    cbv zeta in *.
    assert (b2 = b1) as -> by congruence.
    assert (df2 = df1) as -> by congruence.
    assert (ep2 = ep1) as -> by congruence.
    assert (cmd2 = cmd1) as -> by congruence.
    assert (vcs_annotations ic (caller_annotations ic s2)
            = vcs_annotations ic (caller_annotations ic s1)) as Hsame.
    { unfold caller_annotations. destruct (Annotations ic) as [l|] eqn:Hl; [|done].
      destruct (Hanns l eq_refl) as [->| ->]; [done|].
      rewrite (Hm1 l eq_refl). unfold vcs_annotations.
      destruct (vcs_cut ic) as [[url hash]|]; [|done].
      apply map_eq. intros k. rewrite !lookup_insert. by repeat case_decide. }
    assert (caller_environment ic s2' = caller_environment ic s1') as Henv.
    { unfold caller_environment. destruct (Environment ic) as [l|] eqn:Hl; [|done].
      destruct (Henvs l eq_refl) as (Hsome1 & Hsome2 & Hcontents).
      destruct (decide (Annotations ic = Some l)) as [Ha|Ha].
      - rewrite (Hm1 l Ha), (Hm2 l Ha). unfold caller_annotations in Hsame.
        by rewrite Ha in Hsame.
      - assert (map_contents s1' l = map_contents s1 l) as H1
          by (unfold map_contents; by rewrite Hh1).
        assert (map_contents s2' l = map_contents s2 l) as H2
          by (unfold map_contents; by rewrite Hh2).
        rewrite H1, H2. destruct Hcontents as [->| ->]; [done|]. by rewrite H1. }
    assert (si_image i1 = si_image i2) as Himg.
    { rewrite Hi1, Hi2, Hsame, Henv. f_equal. apply env_of_perm. by rewrite Hr1, Hr2. }
    split; [|done]. unfold oci.SignedImage_Digest. by rewrite Himg.
  - intros Hall.
    destruct (build_succeeds o2 mediaType layerTarGZ ic created arch sbomPath sbomFormats s2
                b1 dg1 df1 ep1 cmd1 i0 s0) as [i2 Hi2]; try done.
    + by rewrite <- Hfiles.
    + by rewrite Hfs0, Hall.
    + destruct (oci.buildImageFromLayerWithMediaType o2 _ _ _ _ _ _ _ s2) as [r s2'].
      simpl in Hi2. subst r. by exists i2, s2'.
Qed.

(** What the assembler leaves in the annotation map of the caller: the
    source and the revision of a VCS URL that has an "@". *)
Lemma build_writes_annotations o mediaType layerTarGZ ic created arch sbomPath sbomFormats
    s si s' l url hash :
  oci.buildImageFromLayerWithMediaType o mediaType layerTarGZ ic created arch
    sbomPath sbomFormats s = (Ok si, s') →
  Annotations ic = Some l →
  VCSUrl ic ≠ "" →
  GoString.Cut (VCSUrl ic) "@" = (url, hash, true) →
  map_contents s' l
  = <["org.opencontainers.image.revision" := hash]>
      (<["org.opencontainers.image.source" := url]> (map_contents s l)).
Proof.
  intros Hbuild Hl Hv Hcut.
  apply build_Ok in Hbuild as (_ & _ & _ & _ & _ & _ & _ & _ & _ & _ & _ & _ & Hm & _).
  rewrite (Hm l Hl). unfold vcs_annotations, vcs_cut.
  by rewrite decide_True, Hcut by done.
Qed.

(** Everything else that the caller owns is left as it was: the other
    maps, and the files. *)
Lemma build_frame o mediaType layerTarGZ ic created arch sbomPath sbomFormats s si s' :
  oci.buildImageFromLayerWithMediaType o mediaType layerTarGZ ic created arch
    sbomPath sbomFormats s = (Ok si, s') →
  files s' = files s
  ∧ (∀ l, Annotations ic ≠ Some l → is_Some (heap s !! l) → heap s' !! l = heap s !! l)
  ∧ (vcs_cut ic = None → ∀ l, is_Some (heap s !! l) → map_contents s' l = map_contents s l).
Proof.
  intros Hbuild.
  apply build_Ok in Hbuild as (_ & _ & _ & _ & _ & _ & _ & _ & _ & _ & _ & Hf & Hm & Hh & _).
  split_and!; [done..|].
  intros Hcut l Hsome. destruct (decide (Annotations ic = Some l)) as [Hl|Hl].
  - rewrite (Hm l Hl). unfold vcs_annotations. by rewrite Hcut.
  - unfold map_contents. by rewrite Hh.
Qed.

End assembler_properties.

(** The sample worlds visit every entry of a map once. *)
Lemma sample_range_ok down : range_ok (Sample.oracle down).
Proof. by split. Qed.

Lemma sample_rev_range_ok down : range_ok (Sample.oracle_rev down).
Proof. split; intros m; simpl; apply reverse_Permutation. Qed.



Lemma entrypoint_precedence_witness :
  ∃ si s',
    oci.buildImageFromLayerWithMediaType (L := Sample.collab) (Sample.oracle "")
      ggcrtypes.DockerLayer "layer.tar.gz" Sample.ic_fragment 0 Sample.arm64 "sboms" [] Sample.state
    = (Ok si, s')
    ∧ cfg_Entrypoint (cf_Config (img_configFile (si_image si)))
      = ["/bin/sh"; "-c"; "exec /usr/bin/app"]
    ∧ is_Err (shlex_Split (Collab := Sample.collab) (Entrypoint_Command Sample.ic_fragment)).
Proof.
  destruct (oci.buildImageFromLayerWithMediaType (L := Sample.collab) (Sample.oracle "")
              ggcrtypes.DockerLayer "layer.tar.gz" Sample.ic_fragment 0 Sample.arm64 "sboms" []
              Sample.state) as [[si|e] s'] eqn:Hrun; [|by vm_compute in Hrun].
  exists si, s'. split; [done|].
  destruct (entrypoint_precedence _ _ _ _ _ _ _ _ _ _ _ Hrun) as [Hfragment _].
  split; [by apply Hfragment|]. by eexists.
Defined.

Lemma assembly_deterministic_witness :
  ∃ i1 s1' i2 s2',
    oci.buildImageFromLayerWithMediaType (L := Sample.collab) (Sample.oracle "")
      ggcrtypes.OCILayer "layer.tar.gz" Sample.ic 0 Sample.amd64 "sboms" ["spdx"] Sample.state
    = (Ok i1, s1')
    ∧ oci.buildImageFromLayerWithMediaType (L := Sample.collab) (Sample.oracle_rev "")
        ggcrtypes.OCILayer "layer.tar.gz" Sample.ic 0 Sample.amd64 "sboms" ["spdx"] s1'
      = (Ok i2, s2')
    ∧ oci.SignedImage_Digest (L := Sample.collab) i1
      = oci.SignedImage_Digest (L := Sample.collab) i2.
Proof.
  destruct (oci.buildImageFromLayerWithMediaType (L := Sample.collab) (Sample.oracle "")
              ggcrtypes.OCILayer "layer.tar.gz" Sample.ic 0 Sample.amd64 "sboms" ["spdx"]
              Sample.state) as [[i1|e1] s1'] eqn:Hrun1; [|by vm_compute in Hrun1].
  assert (files Sample.state !! "layer.tar.gz" = files s1' !! "layer.tar.gz") as Hfiles
    by (by rewrite (proj1 (build_frame _ _ _ _ _ _ _ _ _ _ _ Hrun1))).
  destruct (oci.buildImageFromLayerWithMediaType (L := Sample.collab) (Sample.oracle_rev "")
              ggcrtypes.OCILayer "layer.tar.gz" Sample.ic 0 Sample.amd64 "sboms" ["spdx"]
              s1') as [[i2|e2] s2'] eqn:Hrun2.
  - exists i1, s1', i2, s2'. split_and!; [done..|].
    assert (∀ l, Environment Sample.ic = Some l →
              is_Some (heap Sample.state !! l) ∧ is_Some (heap s1' !! l)
              ∧ (map_contents s1' l = map_contents Sample.state l
                 ∨ map_contents s1' l = map_contents s1' l)) as Henvs.
    { intros l [= <-].
      assert (is_Some (heap Sample.state !! 2%positive)) as Hcell.
      { unfold Sample.state. cbn [heap].
        rewrite lookup_insert_ne, lookup_singleton_eq by done. by eexists. }
      destruct (build_frame _ _ _ _ _ _ _ _ _ _ _ Hrun1) as (_ & Hh & _).
      split_and!; [done| |by right].
      by rewrite (Hh 2%positive ltac:(discriminate) Hcell). }
    apply (proj1 (assembly_deterministic _ _ _ _ _ _ _ _ _ _ _ _ _
                    (sample_range_ok "") (sample_rev_range_ok "") Hfiles
                    (λ l _, or_intror eq_refl) Henvs Hrun1) _ _ Hrun2).
  - exfalso. vm_compute in Hrun1. injection Hrun1 as <- <-. by vm_compute in Hrun2.
Defined.

(** C3 does not hold of the code. At a configuration whose annotation
    map holds one entry and whose VCS URL is url@revision, the assembler
    returns an image and the map of the caller holds three entries
    afterwards: lines 120 and 121 store through the reference that line
    114 copied. *)
Theorem caller_annotations_mutated :
  let run :=
    oci.buildImageFromLayerWithMediaType (L := Sample.collab) (Sample.oracle "")
      ggcrtypes.OCILayer "layer.tar.gz" Sample.ic 0 Sample.amd64 "sboms" [] Sample.state in
  is_Ok run.1
  ∧ Annotations Sample.ic = Some 1%positive
  ∧ map_contents Sample.state 1%positive = {[ "org.opencontainers.image.vendor" := "example" ]}
  ∧ map_contents run.2 1%positive
    = {[ "org.opencontainers.image.revision" := "0123abc";
         "org.opencontainers.image.source" := "https://github.com/chainguard-dev/apko";
         "org.opencontainers.image.vendor" := "example" ]}
  ∧ map_contents run.2 1%positive ≠ map_contents Sample.state 1%positive.
Proof.
  cbv zeta.
  destruct (oci.buildImageFromLayerWithMediaType (L := Sample.collab) (Sample.oracle "")
              ggcrtypes.OCILayer "layer.tar.gz" Sample.ic 0 Sample.amd64 "sboms" []
              Sample.state) as [[si|e] s'] eqn:Hrun; [|by vm_compute in Hrun].
  assert (map_contents Sample.state 1%positive
          = {[ "org.opencontainers.image.vendor" := "example" ]}) as Hbefore.
  { unfold map_contents, Sample.state. cbn [heap]. by rewrite lookup_insert_eq. }
  assert (GoString.Cut (VCSUrl Sample.ic) "@"
          = ("https://github.com/chainguard-dev/apko", "0123abc", true)) as Hcut
    by (vm_compute; reflexivity).
  pose proof (build_writes_annotations _ _ _ _ _ _ _ _ _ _ _ _ _ _ Hrun eq_refl
                ltac:(discriminate) Hcut) as Hafter.
  rewrite Hbefore in Hafter. cbn [fst snd].
  split_and!; [by eexists|done|done|done|].
  rewrite Hafter, Hbefore. intros Heq.
  apply (f_equal (λ m : gmap string string, m !! "org.opencontainers.image.source")) in Heq.
  rewrite lookup_insert_ne, lookup_insert_eq, lookup_singleton_ne in Heq by discriminate.
  discriminate.
Qed.

(** ** The SBOM attacher *)

Section sbom_properties.
Context `{L : Collab}.

(** C7, as amended. With no format requested the attacher returns the
    artifact as it is, with no error. With a non-empty list only the
    first format counts: the attacher fails exactly when that format is
    not one of spdx, cyclonedx and idb, or the file derived from it
    cannot be read, or the file cannot be wrapped, or the artifact is
    neither a signed image nor a signed index; when it succeeds the
    result is the artifact with the one file of the first format
    attached under "sbom", and a warning is logged when more formats
    were requested. *)
Theorem sbom_attachment_policy se sbomPath sbomFormats arch s :
  let '(r, s') := oci.attachSBOM se sbomPath sbomFormats arch s in
  match sbomFormats with
  | [] =>
      r = Ok se ∧ s' = emit (EvLog DebugLevel "Not building sboms, no formats requested") s
  | format0 :: rest =>
      (is_Err r ↔
         ¬ supported format0
         ∨ ∃ mt ext, sbom_select format0 = Some (mt, ext)
             ∧ (files s !! sbom_file sbomPath arch ext = None
                ∨ (∃ b, files s !! sbom_file sbomPath arch ext = Some b
                        ∧ is_Err (static_NewFile b mt))
                ∨ se = SEOther))
      ∧ (∀ se', r = Ok se' →
           ∃ mt ext b f, sbom_select format0 = Some (mt, ext)
             ∧ files s !! sbom_file sbomPath arch ext = Some b
             ∧ static_NewFile b mt = Ok f
             ∧ file_of_attach se f se')
      ∧ (∀ mt ext, sbom_select format0 = Some (mt, ext) → s' = warned mt rest s)
      ∧ (¬ supported format0 → s' = s)
  end.
Proof.
  destruct sbomFormats as [|format0 rest].
  { by rewrite attachSBOM_nil. }
  rewrite attachSBOM_cons.
  destruct (sbom_select format0) as [[mt ext]|] eqn:Hsel.
  - assert (supported format0) as Hsup by (apply supported_select; by rewrite Hsel).
    cbv zeta. unfold os_ReadFile.
    assert (files (warned mt rest s) = files s) as -> by (by destruct rest).
    destruct (files s !! sbom_file sbomPath arch ext) as [b|] eqn:Hfile.
    + destruct (static_NewFile b mt) as [f|e] eqn:Hnew.
      * split_and!.
        -- split.
           ++ intros [e He]. right. exists mt, ext. split; [done|]. right; right.
              by destruct se.
           ++ intros [Hn|(mt' & ext' & Hsel' & Hcause)]; [done|].
              injection Hsel' as <- <-.
              destruct Hcause as [Hnone|[(b' & Hb' & [e He])| ->]]; [congruence| |by eexists].
              rewrite Hfile in Hb'. injection Hb' as <-. congruence.
        -- intros se' Hse'. exists mt, ext, b, f. split_and!; try done.
           destruct se; simpl in Hse'; [| |done]; by injection Hse' as <-.
        -- by intros ?? [= <- <-].
        -- done.
      * split_and!.
        -- split; [|by eexists]. intros _. right. exists mt, ext. split; [done|].
           right; left. exists b. split; [done|]. by eexists.
        -- done.
        -- by intros ?? [= <- <-].
        -- done.
    + split_and!.
      * split; [|by eexists]. intros _. right. exists mt, ext. split; [done|]. by left.
      * done.
      * by intros ?? [= <- <-].
      * done.
  - assert (¬ supported format0) as Hsup.
    { intros Hs. apply supported_select in Hs. rewrite Hsel in Hs. by destruct Hs. }
    split_and!; try done. split; [by left|by eexists].
Qed.

End sbom_properties.

(** C7 as first stated fails here: an artifact that is neither a signed
    image nor a signed index, a supported format and a file that is
    there, and the attacher returns the error of line 282 all the same. *)
Lemma sbom_error_not_only_format_or_file :
  let r := (oci.attachSBOM (L := Sample.collab) SEOther "sboms" ["spdx"] Sample.amd64
              Sample.state).1 in
  let path := sbom_file (L := Sample.collab) "sboms" Sample.amd64 ".spdx.json" in
  r = Err (NewError "unable to cast signed signedentity as image or index")
  ∧ supported "spdx"
  ∧ path = "sboms/sbom-x86_64.spdx.json"
  ∧ files Sample.state !! path = Some "SPDX"
  ∧ ¬ (is_Err r ↔ ¬ supported "spdx" ∨ files Sample.state !! path = None).
Proof.
  cbv zeta.
  assert (files Sample.state !! "sboms/sbom-x86_64.spdx.json" = Some "SPDX") as Hfile
    by (vm_compute; reflexivity).
  assert (sbom_file (L := Sample.collab) "sboms" Sample.amd64 ".spdx.json"
          = "sboms/sbom-x86_64.spdx.json") as -> by (vm_compute; reflexivity).
  assert ((oci.attachSBOM (L := Sample.collab) SEOther "sboms" ["spdx"] Sample.amd64
             Sample.state).1
          = Err (NewError "unable to cast signed signedentity as image or index")) as ->
    by (vm_compute; reflexivity).
  split_and!; [done|by left|done|done|].
  intros [Hcause _]. destruct Hcause as [Hn|Hn]; [by eexists|by apply Hn; left|].
  by rewrite Hfile in Hn.
Qed.

(** ** What a run adds to the trace *)

Section appends_facts.
Context {A B : Type} (P : Event → Prop).

Lemma appends_silent (m : M A) :
  (∀ s r s', m s = (r, s') → trace s' = trace s) → appends P m.
Proof. intros H s r s' Hm. exists []. rewrite (H _ _ _ Hm). by rewrite app_nil_r. Qed.

Lemma appends_mret (a : A) : appends P (mret a).
Proof. apply appends_silent. by intros s r s' [_ ->]%mret_run. Qed.

Lemma appends_fail e : appends P (fail (A := A) e).
Proof. apply appends_silent. by intros s r s' [_ ->]%fail_run. Qed.

Lemma appends_liftR (r : result A) : appends P (liftR r).
Proof. apply appends_silent. by intros s r' s' [_ ->]%liftR_run. Qed.

Lemma appends_bind (m : M A) (k : A → M B) :
  appends P m → (∀ a, appends P (k a)) → appends P (m ≫= k).
Proof.
  intros Hm Hk s r s' Hrun. unfold mbind, M_bind, bind in Hrun.
  destruct (m s) as [[a|e] s1] eqn:Hms.
  - destruct (Hm _ _ _ Hms) as (evs1 & Ht1 & HP1).
    destruct (Hk a _ _ _ Hrun) as (evs2 & Ht2 & HP2).
    exists (evs1 ++ evs2). rewrite Ht2, Ht1, app_assoc. split; [done|].
    by apply Forall_app.
  - injection Hrun as <- <-. by eapply Hm.
Qed.

Lemma appends_wrapM p (m : M A) : appends P m → appends P (wrapM p m).
Proof.
  intros Hm s r s' Hrun. unfold wrapM in Hrun.
  destruct (m s) as [r1 s1] eqn:Hms. injection Hrun as _ <-. by eapply Hm.
Qed.

Lemma appends_emit (e : Event) (r : State → result A) :
  P e → appends P (λ s, (r s, emit e s)).
Proof. intros He s r' s' [= _ <-]. exists [e]. split; [done|]. by constructor. Qed.

End appends_facts.

Lemma appends_log P lvl msg : P (EvLog lvl msg) → appends P (log lvl msg).
Proof. intros HP. unfold log, modify. by apply (appends_emit P _ (λ _, Ok tt)). Qed.

Lemma appends_retry P (f : M unit) n last :
  appends P f → appends P (retry_attempts n f last).
Proof.
  intros Hf. revert last. induction n as [|n IH]; intros last; simpl.
  - apply appends_fail.
  - intros s r s' Hrun. destruct (f s) as [[[]|e] s1] eqn:Hfs.
    + injection Hrun as <- <-. by eapply Hf.
    + destruct (Hf _ _ _ Hfs) as (evs1 & Ht1 & HP1).
      destruct (IH e _ _ _ Hrun) as (evs2 & Ht2 & HP2).
      exists (evs1 ++ evs2). rewrite Ht2, Ht1, app_assoc. split; [done|].
      by apply Forall_app.
Qed.

Lemma appends_os_ReadFile P path : appends P (os_ReadFile path).
Proof.
  apply appends_silent. intros s r s'. unfold os_ReadFile.
  by destruct (files s !! path); intros [= _ <-].
Qed.

Lemma appends_new_map P m : appends P (new_map m).
Proof. apply appends_silent. by intros s r s' [= _ <-]. Qed.

Lemma appends_map_store P l k v : appends P (map_store l k v).
Proof. apply appends_silent. by intros s r s' [= _ <-]. Qed.

Lemma appends_map_load P l : appends P (map_load l).
Proof. apply appends_silent. by intros s r s' [= _ <-]. Qed.

(** One statement of a run at a time. *)
Ltac appends_step :=
  first
    [ apply appends_bind; [|intros ?]
    | apply appends_log; done
    | apply appends_wrapM
    | apply appends_liftR
    | apply appends_mret
    | apply appends_fail
    | apply appends_os_ReadFile
    | apply appends_new_map
    | apply appends_map_store
    | apply appends_map_load
    | apply appends_retry
    | lazymatch goal with
      | |- appends _ (if ?b then _ else _) => destruct b
      | |- appends _ (match ?x with _ => _ end) => destruct x
      end ].

Section trace_of_package.
Context `{L : Collab}.

Lemma appends_attachSBOM P se sbomPath sbomFormats arch :
  (∀ lvl msg, P (EvLog lvl msg)) →
  appends P (oci.attachSBOM se sbomPath sbomFormats arch).
Proof.
  intros HP s r s' Hrun. destruct sbomFormats as [|format0 rest].
  - rewrite attachSBOM_nil in Hrun. injection Hrun as _ <-.
    eexists [_]. split; [done|]. by constructor.
  - rewrite attachSBOM_cons in Hrun.
    assert (∀ mt, ∃ evs, trace (warned mt rest s) = trace s ++ evs ∧ Forall P evs) as Hw.
    { intros mt. destruct rest; simpl.
      - exists []. by rewrite app_nil_r.
      - eexists [_]. split; [done|]. by constructor. }
    destruct (sbom_select format0) as [[mt ext]|].
    + cbv zeta in Hrun. destruct (os_ReadFile _ _) as [[b|e] ?];
        [destruct (static_NewFile b mt)|]; injection Hrun as _ <-; apply Hw.
    + injection Hrun as _ <-. exists []. by rewrite app_nil_r.
Qed.

(** The assembler writes nothing but log lines. *)
Lemma appends_build o mediaType layerTarGZ ic created arch sbomPath sbomFormats :
  appends is_log
    (oci.buildImageFromLayerWithMediaType o mediaType layerTarGZ ic created arch
       sbomPath sbomFormats).
Proof.
  unfold oci.buildImageFromLayerWithMediaType. cbv zeta.
  unfold oci.v1tar_LayerFromFile.
  repeat first [ apply appends_attachSBOM; done | appends_step ].
Qed.

End trace_of_package.

(** ** The publisher *)

Section publisher_facts.
Context `{L : Collab}.

Lemma appends_bind_liftR {A B} P (r : result A) (k : A → M B) :
  (∀ a, r = Ok a → appends P (k a)) → appends P (liftR r ≫= k).
Proof.
  intros Hk s r' s' Hrun. unfold mbind, M_bind, bind, liftR in Hrun.
  destruct r as [a|e].
  - by eapply Hk.
  - injection Hrun as _ <-. exists []. by rewrite app_nil_r.
Qed.

Lemma appends_publishTag_local o image imageRef h :
  appends (local_event h image) (oci.publishTagFromImage o image imageRef h true).
Proof.
  unfold oci.publishTagFromImage. apply appends_bind; [apply appends_liftR|]. intros imgRef.
  cbv zeta. apply appends_bind_liftR. intros t Ht.
  apply appends_bind; [by apply appends_log|]. intros _.
  apply appends_bind.
  - unfold oci.daemon_Write_call. intros s r s' Hrun.
    destruct (daemon_Write o (trace s) t image) as [resp err]. injection Hrun as _ <-.
    eexists [_]. split; [done|]. by constructor.
  - intros [resp [e|]]; repeat appends_step.
Qed.

Lemma appends_forTags P what (publish : string → M Digest) tags digest :
  (∀ lvl msg, P (EvLog lvl msg)) →
  (∀ tag, appends P (publish tag)) →
  appends P (oci.forTags what publish tags digest).
Proof.
  intros Hlog Hp. revert digest. induction tags as [|tag tags IH]; intros digest; simpl.
  - apply appends_mret.
  - apply appends_bind; [by apply appends_log|]. intros _.
    apply appends_bind; [apply Hp|]. intros d. apply IH.
Qed.

Lemma forTags_app what (publish : string → M Digest) pre post digest s :
  oci.forTags what publish (pre ++ post) digest s
  = match oci.forTags what publish pre digest s with
    | (Ok d1, s1) => oci.forTags what publish post d1 s1
    | (Err e, s1) => (Err e, s1)
    end.
Proof.
  revert digest s. induction pre as [|tag pre IH]; intros digest s; simpl; [done|].
  unfold mbind, M_bind, bind, log, modify.
  destruct (publish tag _) as [[d|e] s1]; [apply IH|done].
Qed.

Lemma forTags_Ok_last what (publish : string → M Digest) tags digest s d s' :
  oci.forTags what publish tags digest s = (Ok d, s') →
  match last tags with
  | None => d = digest
  | Some tag => ∃ s1 s2, publish tag s1 = (Ok d, s2)
  end.
Proof.
  revert digest s. induction tags as [|tag tags IH]; intros digest s; simpl.
  - by intros [[= ->] _]%mret_run.
  - intros Hrun. apply bind_Ok in Hrun as (u & s1 & _ & Hrun).
    apply bind_Ok in Hrun as (d1 & s2 & Hpub & Hrest).
    apply IH in Hrest. rewrite last_cons. destruct (last tags); [done|]. subst. eauto.
Qed.

(** A tag that was published names the digest of the requested
    repository. *)
Lemma publishTag_Ok o image imageRef hash local s d s' :
  oci.publishTagFromImage o image imageRef hash local s = (Ok d, s') →
  ∃ ref, name_ParseReference imageRef = Ok ref
         ∧ d = name.Repository_Digest (name.Context ref) (Hash_String hash).
Proof.
  intros Hrun. unfold oci.publishTagFromImage in Hrun.
  apply bind_Ok in Hrun as (ref & s1 & Href & Hrun). run_inv Href.
  exists ref. split; [done|]. destruct local.
  - cbv zeta in Hrun. apply bind_Ok in Hrun as (t & s2 & _ & Hrun).
    apply bind_Ok in Hrun as (u & s3 & _ & Hrun).
    apply bind_Ok in Hrun as ([resp [e|]] & s4 & _ & Hrun);
      apply bind_Ok in Hrun as (u' & s5 & _ & Hrun).
    + by apply fail_run in Hrun as [[=] _].
    + by apply mret_run in Hrun as [[= ->] _].
  - apply bind_Ok in Hrun as (u & s2 & _ & Hrun).
    apply bind_Ok in Hrun as (u' & s3 & _ & Hrun).
    by apply mret_run in Hrun as [[= ->] _].
Qed.

(** When the command string cannot be split the assembler fails. *)
Lemma build_cmd_Err o mediaType layerTarGZ ic created arch sbomPath sbomFormats s e :
  Cmd ic ≠ "" → shlex_Split (Cmd ic) = Err e →
  is_Err (oci.buildImageFromLayerWithMediaType o mediaType layerTarGZ ic created arch
            sbomPath sbomFormats s).1.
Proof.
  intros Hne Hsplit.
  destruct (oci.buildImageFromLayerWithMediaType _ _ _ _ _ _ _ _ _) as [[si|e'] s'] eqn:Hrun;
    [|by eexists].
  apply build_Ok in Hrun as (_ & _ & _ & _ & cmd & _ & _ & _ & _ & Hcmd & _).
  unfold cmd_of in Hcmd. rewrite decide_True, Hsplit in Hcmd by done. done.
Qed.

Lemma daemon_writes_app evs1 evs2 :
  daemon_writes (evs1 ++ evs2) = daemon_writes evs1 ++ daemon_writes evs2.
Proof. apply omap_app. Qed.

Lemma daemon_writes_logs evs : Forall is_log evs → daemon_writes evs = [].
Proof.
  induction 1 as [|ev evs Hev _ IH]; [done|].
  change (daemon_writes (ev :: evs)) with (daemon_writes ([ev] ++ evs)).
  rewrite daemon_writes_app, IH. by destruct ev.
Qed.

(** A tag that was published locally: the daemon took the image, once,
    under the local tag. *)
Lemma publishTag_local_Ok o image imageRef h s d s' :
  oci.publishTagFromImage o image imageRef h true s = (Ok d, s') →
  ∃ t evs, name_NewTag (oci.localTagOf (Hex h)) = Ok t
           ∧ trace s' = trace s ++ evs
           ∧ daemon_writes evs = [(t, image, None)].
Proof.
  intros Hrun. unfold oci.publishTagFromImage in Hrun.
  apply bind_Ok in Hrun as (ref & s1 & Href & Hrun). apply liftR_run in Href as [_ ->].
  cbv zeta in Hrun. apply bind_Ok in Hrun as (t & s2 & Ht & Hrun).
  apply liftR_run in Ht as [Ht ->].
  apply bind_Ok in Hrun as (u & s3 & Hlog & Hrun). apply log_run in Hlog as [_ ->].
  apply bind_Ok in Hrun as ([resp err] & s4 & Hd & Hrun).
  unfold oci.daemon_Write_call in Hd.
  destruct (daemon_Write o _ t image) as [resp' err'] eqn:Hw. injection Hd as <- <- <-.
  destruct err' as [e|].
  - apply bind_Ok in Hrun as (u' & s5 & _ & Hrun). by apply fail_run in Hrun as [[=] _].
  - apply bind_Ok in Hrun as (u' & s5 & Hlog & Hrun). apply log_run in Hlog as [_ ->].
    apply mret_run in Hrun as [_ ->].
    exists t, [ EvLog InfoLevel ("saving OCI image locally: " +:+ name.Tag_Name t);
               EvDaemonWrite t image None;
               EvLog DebugLevel ("docker daemon response: " +:+ escape_newlines resp') ].
    split_and!; [done| |done]. cbn [trace emit]. by rewrite <- !app_assoc.
Qed.

Lemma forTags_local_writes o image h tags d0 s0 d s1 :
  oci.forTags "image" (λ tag, oci.publishTagFromImage o image tag h true) tags d0 s0
  = (Ok d, s1) →
  ∃ evs, trace s1 = trace s0 ++ evs
         ∧ Forall2 (λ _ w, name_NewTag (oci.localTagOf (Hex h)) = Ok w.1.1
                           ∧ w.1.2 = image ∧ w.2 = None)
             tags (daemon_writes evs).
Proof.
  revert d0 s0. induction tags as [|tag tags IH]; intros d0 s0; simpl.
  - intros [_ ->]%mret_run. exists []. rewrite app_nil_r. split; [done|]. constructor.
  - intros Hrun. apply bind_Ok in Hrun as (u & sa & Hlog & Hrun).
    apply log_run in Hlog as [_ ->].
    apply bind_Ok in Hrun as (d1 & sb & Hpub & Hrest).
    apply publishTag_local_Ok in Hpub as (t & evs1 & Ht & Htr1 & Hw1).
    apply IH in Hrest as (evs2 & Htr2 & Hall).
    exists ([EvLog InfoLevel ("publishing image tag " +:+ tag)] ++ evs1 ++ evs2). split.
    + rewrite Htr2, Htr1. cbn [trace emit]. by rewrite <- !app_assoc.
    + rewrite !daemon_writes_app, Hw1. simpl. by constructor.
Qed.

(** Tags that are published one after the other make the loop end well. *)
Lemma forTags_all_published (publish : string → M Digest) tags d0 s0 d s' :
  all_published publish tags d0 s0 d s' →
  oci.forTags "image" publish tags d0 s0 = (Ok d, s').
Proof.
  induction 1 as [|tag tags d0 s0 d1 s1 d s' Hpub _ IH]; simpl; [done|].
  unfold mbind, M_bind, bind, log, modify.
  change (emit (EvLog InfoLevel ("publishing " +:+ "image" +:+ " tag " +:+ tag)) s0)
    with (emit (EvLog InfoLevel ("publishing image tag " +:+ tag)) s0).
  by rewrite Hpub.
Qed.

End publisher_facts.

Section publisher_properties.
Context `{L : Collab}.

(** C8. When the command string of the configuration cannot be split,
    the assembler returns an error; publishing returns that same error
    with the zero digest and no image, and leaves the world as the
    failed assembly left it: log lines only, nothing written. *)
Theorem malformed_cmd_is_fatal o mediaType layerTarGZ ic created arch sbomPath sbomFormats
    local tags s e :
  Cmd ic ≠ "" →
  shlex_Split (Cmd ic) = Err e →
  ∃ e' s',
    oci.buildImageFromLayerWithMediaType o mediaType layerTarGZ ic created arch
      sbomPath sbomFormats s = (Err e', s')
    ∧ oci.publishImageFromLayerWithMediaType o mediaType layerTarGZ ic created arch
        sbomPath sbomFormats local tags s = (Err e', s')
    ∧ oci.returned (oci.publishImageFromLayerWithMediaType o mediaType layerTarGZ ic created
                      arch sbomPath sbomFormats local tags s).1
      = (name.zeroDigest, None, Some e')
    ∧ ∃ evs, trace s' = trace s ++ evs ∧ Forall is_log evs.
Proof.
  intros Hne Hsplit.
  destruct (build_cmd_Err o mediaType layerTarGZ ic created arch sbomPath sbomFormats s e
              Hne Hsplit) as [e' He'].
  destruct (oci.buildImageFromLayerWithMediaType o mediaType layerTarGZ ic created arch
              sbomPath sbomFormats s) as [r s'] eqn:Hbuild.
  simpl in He'. subst r. exists e', s'.
  assert (oci.publishImageFromLayerWithMediaType o mediaType layerTarGZ ic created arch
            sbomPath sbomFormats local tags s = (Err e', s')) as Hpub.
  { unfold oci.publishImageFromLayerWithMediaType. by apply bind_run_Err. }
  split_and!; [done|done|by rewrite Hpub|].
  by eapply appends_build.
Qed.

(** C9. Publishing an image locally writes it to the daemon only under
    the tag apko.local/cache:<hex>, where <hex> is the hex of the digest
    of the image that was assembled, and writes nothing to a registry;
    the digest reference that is returned is the one of the repository
    of the last requested tag with that same digest. When the call
    returns an image, the daemon has taken that image under that tag
    once for each requested tag, and nothing else was written to it. *)
Theorem local_publish_naming o mediaType layerTarGZ ic created arch sbomPath sbomFormats
    tags s :
  let '(r, s') :=
    oci.publishImageFromLayerWithMediaType o mediaType layerTarGZ ic created arch
      sbomPath sbomFormats true tags s in
  ∃ evs,
    trace s' = trace s ++ evs
    ∧ (∀ ev, ev ∈ evs → is_log ev ∨ ∃ t image err, ev = EvDaemonWrite t image err)
    ∧ (∀ t image err, EvDaemonWrite t image err ∈ evs →
         ∃ s0 h,
           oci.buildImageFromLayerWithMediaType o mediaType layerTarGZ ic created arch
             sbomPath sbomFormats s = (Ok image, s0)
           ∧ oci.SignedImage_Digest image = Ok h
           ∧ name_NewTag ("apko.local/cache:" +:+ Hex h) = Ok t)
    ∧ (∀ d image, r = Ok (d, image) →
         ∃ h,
           oci.SignedImage_Digest image = Ok h
           ∧ match last tags with
             | None => d = name.zeroDigest
             | Some tag =>
                 ∃ ref, name_ParseReference tag = Ok ref
                        ∧ d = name.Repository_Digest (name.Context ref) (Hash_String h)
             end)
    ∧ (∀ d image, r = Ok (d, image) →
         ∃ h,
           oci.SignedImage_Digest image = Ok h
           ∧ Forall2 (λ _ w, name_NewTag ("apko.local/cache:" +:+ Hex h) = Ok w.1.1
                             ∧ w.1.2 = image ∧ w.2 = None)
               tags (daemon_writes evs)).
Proof.
  destruct (oci.publishImageFromLayerWithMediaType _ _ _ _ _ _ _ _ _ _ _) as [r s'] eqn:Hpub.
  unfold oci.publishImageFromLayerWithMediaType in Hpub.
  destruct (oci.buildImageFromLayerWithMediaType o mediaType layerTarGZ ic created arch
              sbomPath sbomFormats s) as [[img|e] s0] eqn:Hbuild.
  2:{ rewrite (bind_run_Err _ _ _ _ _ Hbuild) in Hpub. injection Hpub as <- <-.
      destruct (appends_build _ _ _ _ _ _ _ _ _ _ _ Hbuild) as (evs & Ht & Hlogs).
      exists evs. rewrite Forall_forall in Hlogs. split_and!; [done| | |done|done].
      - intros ev Hev. left. by apply Hlogs.
      - intros t image err Hev. by apply Hlogs in Hev. }
  rewrite (bind_run_Ok _ _ _ _ _ Hbuild) in Hpub.
  destruct (appends_build _ _ _ _ _ _ _ _ _ _ _ Hbuild) as (evs0 & Ht0 & Hlogs).
  pose proof (daemon_writes_logs _ Hlogs) as Hquiet.
  rewrite Forall_forall in Hlogs.
  destruct (oci.SignedImage_Digest img) as [h|e] eqn:Hh.
  2:{ unfold mbind, M_bind, bind, liftR in Hpub. simpl in Hpub. injection Hpub as <- <-.
      exists evs0. split_and!; [done| | |done|done].
      - intros ev Hev. left. by apply Hlogs.
      - intros t image err Hev. by apply Hlogs in Hev. }
  unfold mbind, M_bind, bind, liftR in Hpub. simpl in Hpub.
  destruct (oci.forTags "image" (λ tag, oci.publishTagFromImage o img tag h true) tags
              name.zeroDigest s0) as [rd s1] eqn:Hloop.
  destruct (appends_forTags (local_event h img) _ _ _ _ ltac:(done)
              (λ tag, appends_publishTag_local o img tag h) _ _ _ Hloop)
    as (evs1 & Ht1 & Hlocal).
  rewrite Forall_forall in Hlocal.
  assert (s' = s1) as ->.
  { destruct rd; by injection Hpub as _ <-. }
  exists (evs0 ++ evs1). rewrite Ht1, Ht0, app_assoc. split_and!; [done| | | |].
  - intros ev [Hev|Hev]%elem_of_app; [left; by apply Hlogs|].
    apply Hlocal in Hev. destruct ev; try done; [by left|right; eauto].
  - intros t image err [Hev|Hev]%elem_of_app; [by apply Hlogs in Hev|].
    apply Hlocal in Hev as [Ht ->]. by exists s0, h.
  - intros d image Hr. destruct rd as [d1|e]; [|congruence].
    unfold mret, M_ret, ret in Hpub. injection Hpub as <-. injection Hr as <- <-.
    exists h. split; [done|]. apply forTags_Ok_last in Hloop.
    destruct (last tags) as [tag|]; [|done].
    destruct Hloop as (sa & sb & Hp). by apply publishTag_Ok in Hp.
  - intros d image Hr. destruct rd as [d1|e]; [|congruence].
    unfold mret, M_ret, ret in Hpub. injection Hpub as <-. injection Hr as <- <-.
    exists h. split; [done|].
    apply forTags_local_writes in Hloop as (evs1' & Ht1' & Hall).
    rewrite Ht1 in Ht1'. apply app_inv_head in Ht1'. subst evs1'.
    by rewrite daemon_writes_app, Hquiet.
Qed.

(** C2, as amended. Once the image is assembled, the tags are published
    in the order given and the first failure ends the call: its error is
    returned, and the world is left as it was at that failure, so the
    tags after it are not processed. When every tag is published, one
    after the other, the call returns the image that was assembled and
    the digest that the last tag gave, and leaves the world as the last
    tag left it; a call that returns has returned that image and the
    digest reference of the last tag. *)
Theorem publish_fails_fast o mediaType layerTarGZ ic created arch sbomPath sbomFormats local
    s img s0 h :
  oci.buildImageFromLayerWithMediaType o mediaType layerTarGZ ic created arch
    sbomPath sbomFormats s = (Ok img, s0) →
  oci.SignedImage_Digest img = Ok h →
  let publish := λ tag, oci.publishTagFromImage o img tag h local in
  (∀ pre tag post d1 s1 e s2,
     oci.forTags "image" publish pre name.zeroDigest s0 = (Ok d1, s1) →
     publish tag (emit (EvLog InfoLevel ("publishing image tag " +:+ tag)) s1) = (Err e, s2) →
     oci.publishImageFromLayerWithMediaType o mediaType layerTarGZ ic created arch
       sbomPath sbomFormats local (pre ++ tag :: post) s = (Err e, s2))
  ∧ (∀ tags d s',
       all_published publish tags name.zeroDigest s0 d s' →
       oci.publishImageFromLayerWithMediaType o mediaType layerTarGZ ic created arch
         sbomPath sbomFormats local tags s = (Ok (d, img), s'))
  ∧ (∀ tags d img' s',
       oci.publishImageFromLayerWithMediaType o mediaType layerTarGZ ic created arch
         sbomPath sbomFormats local tags s = (Ok (d, img'), s') →
       img' = img
       ∧ match last tags with
         | None => d = name.zeroDigest
         | Some tag =>
             ∃ ref, name_ParseReference tag = Ok ref
                    ∧ d = name.Repository_Digest (name.Context ref) (Hash_String h)
         end).
Proof.
  intros Hbuild Hh publish. split_and!.
  - intros pre tag post d1 s1 e s2 Hpre Hfail.
    unfold oci.publishImageFromLayerWithMediaType.
    rewrite (bind_run_Ok _ _ _ _ _ Hbuild), Hh.
    unfold mbind, M_bind, bind, liftR. simpl wrap. cbv beta iota. fold publish.
    rewrite forTags_app, Hpre. simpl.
    unfold mbind, M_bind, bind, log, modify. fold publish.
    lazymatch goal with
    | |- context [publish tag ?st] =>
        change st with (emit (EvLog InfoLevel ("publishing image tag " +:+ tag)) s1)
    end.
    by rewrite Hfail.
  - intros tags d s' Hall. apply forTags_all_published in Hall.
    unfold oci.publishImageFromLayerWithMediaType.
    rewrite (bind_run_Ok _ _ _ _ _ Hbuild), Hh.
    unfold mbind, M_bind, bind, liftR. simpl wrap. cbv beta iota. fold publish.
    by rewrite Hall.
  - intros tags d img' s' Hpub.
    unfold oci.publishImageFromLayerWithMediaType in Hpub.
    rewrite (bind_run_Ok _ _ _ _ _ Hbuild), Hh in Hpub.
    unfold mbind, M_bind, bind, liftR in Hpub. simpl wrap in Hpub. cbv beta iota in Hpub.
    fold publish in Hpub.
    destruct (oci.forTags "image" publish tags name.zeroDigest s0) as [[d1|e] s1] eqn:Hloop;
      [|done].
    unfold mret, M_ret, ret in Hpub. injection Hpub as <- <- <-. split; [done|].
    apply forTags_Ok_last in Hloop. destruct (last tags) as [tag|]; [|done].
    destruct Hloop as (sa & sb & Hp). by apply publishTag_Ok in Hp.
Qed.

End publisher_properties.

Lemma malformed_cmd_is_fatal_witness :
  ∃ e' s',
    oci.publishImageFromLayerWithMediaType (L := Sample.collab) (Sample.oracle "")
      ggcrtypes.OCILayer "layer.tar.gz" Sample.ic_open_quote 0 Sample.amd64 "sboms" [] true
      ["up.example.com/app:v1"] Sample.state = (Err e', s')
    ∧ oci.returned
        (oci.publishImageFromLayerWithMediaType (L := Sample.collab) (Sample.oracle "")
           ggcrtypes.OCILayer "layer.tar.gz" Sample.ic_open_quote 0 Sample.amd64 "sboms" [] true
           ["up.example.com/app:v1"] Sample.state).1
      = (name.zeroDigest, None, Some e').
Proof.
  destruct (malformed_cmd_is_fatal (L := Sample.collab) (Sample.oracle "")
              ggcrtypes.OCILayer "layer.tar.gz" Sample.ic_open_quote 0 Sample.amd64 "sboms" [] true
              ["up.example.com/app:v1"] Sample.state
              (ExternalError "EOF found when expecting closing quote")
              ltac:(discriminate) ltac:(vm_compute; reflexivity))
    as (e' & s' & _ & Hpub & Hret & _).
  by exists e', s'.
Defined.

(** C2 as first stated fails here. Two tags are requested; the registry
    of the first refuses every write, the registry of the second accepts
    them. Published alone the second tag succeeds; published after the
    first it is never written, and the call returns the error of the
    first with no digest. *)
Lemma failed_tag_aborts_the_rest :
  let publish tags :=
    oci.publishImageFromLayerWithMediaType (L := Sample.collab)
      (Sample.oracle "down.example.com") ggcrtypes.OCILayer "layer.tar.gz" Sample.ic 0
      Sample.amd64 "sboms" [] false tags Sample.state in
  let both := publish ["down.example.com/app:v1"; "up.example.com/app:v1"] in
  let alone := publish ["up.example.com/app:v1"] in
  (oci.returned alone.1).2 = None
  ∧ existsb (writes_to "up.example.com") (trace alone.2) = true
  ∧ oci.returned both.1
    = (name.zeroDigest, None,
       Some (WrapError "failed to publish"
               (WrapError "All attempts fail" (ExternalError "connection refused"))))
  ∧ existsb (writes_to "up.example.com") (trace both.2) = false.
Proof. cbv zeta. split_and!; vm_compute; reflexivity. Qed.

(** An image published locally under two names: both writes go to the
    one tag apko.local/cache:<hex>, and the reference returned is that of
    the requested repository with the digest sha256:<hex>. *)
Lemma local_publish_example :
  let run :=
    oci.publishImageFromLayerWithMediaType (L := Sample.collab) (Sample.oracle "")
      ggcrtypes.OCILayer "layer.tar.gz" Sample.ic_fragment 0 Sample.amd64 "sboms" [] true
      ["up.example.com/app:v1"; "up.example.com/app:latest"] Sample.state in
  ∃ hex,
    let cache := {| tag_Repository := {| Registry := "apko.local"; RepositoryStr := "cache" |};
                    TagStr := hex |} in
    daemon_tags (trace run.2) = [cache; cache]
    ∧ (oci.returned run.1).1.1
      = {| dg_Repository := {| Registry := "up.example.com"; RepositoryStr := "app" |};
           DigestStr := "sha256:" +:+ hex |}
    ∧ (oci.returned run.1).2 = None.
Proof. cbv zeta. eexists. split_and!; vm_compute; reflexivity. Qed.

Lemma local_publish_naming_witness :
  ∃ d image s' evs,
    oci.publishImageFromLayerWithMediaType (L := Sample.collab) (Sample.oracle "")
      ggcrtypes.OCILayer "layer.tar.gz" Sample.ic_fragment 0 Sample.amd64 "sboms" [] true
      ["up.example.com/app:v1"; "up.example.com/app:latest"] Sample.state
    = (Ok (d, image), s')
    ∧ trace s' = trace Sample.state ++ evs
    ∧ length (daemon_writes evs) = 2%nat.
Proof.
  pose proof (local_publish_naming (L := Sample.collab) (Sample.oracle "")
                ggcrtypes.OCILayer "layer.tar.gz" Sample.ic_fragment 0 Sample.amd64 "sboms" []
                ["up.example.com/app:v1"; "up.example.com/app:latest"] Sample.state) as Hlocal.
  destruct (oci.publishImageFromLayerWithMediaType (L := Sample.collab) (Sample.oracle "")
              ggcrtypes.OCILayer "layer.tar.gz" Sample.ic_fragment 0 Sample.amd64 "sboms" [] true
              ["up.example.com/app:v1"; "up.example.com/app:latest"] Sample.state)
    as [[[d image]|e] s'] eqn:Hrun.
  2:{ exfalso. clear Hlocal. vm_compute in Hrun. discriminate Hrun. }
  destruct Hlocal as (evs & Ht & _ & _ & _ & Hwrites).
  destruct (Hwrites d image eq_refl) as (h & _ & Hall).
  exists d, image, s', evs. split_and!; [reflexivity|exact Ht|].
  apply Forall2_length in Hall. by rewrite <- Hall.
Defined.

Lemma publish_fails_fast_witness :
  (∃ e s2,
     oci.publishImageFromLayerWithMediaType (L := Sample.collab)
       (Sample.oracle "down.example.com") ggcrtypes.OCILayer "layer.tar.gz" Sample.ic 0
       Sample.amd64 "sboms" [] false
       ([] ++ "down.example.com/app:v1" :: ["up.example.com/app:v1"]) Sample.state
     = (Err e, s2))
  ∧ (∃ d img s',
       oci.publishImageFromLayerWithMediaType (L := Sample.collab)
         (Sample.oracle "down.example.com") ggcrtypes.OCILayer "layer.tar.gz" Sample.ic 0
         Sample.amd64 "sboms" [] false
         ["up.example.com/app:v1"; "up.example.com/app:latest"] Sample.state
       = (Ok (d, img), s')).
Proof.
  destruct (oci.buildImageFromLayerWithMediaType (L := Sample.collab)
              (Sample.oracle "down.example.com") ggcrtypes.OCILayer "layer.tar.gz" Sample.ic 0
              Sample.amd64 "sboms" [] Sample.state) as [[img|e0] s0] eqn:Hbuild;
    [|by vm_compute in Hbuild].
  pose proof Hbuild as Hvalue. vm_compute in Hvalue. injection Hvalue as Himg Hs0.
  pose (h := Sample.digestOf (Sample.manifestText (si_image img))).
  destruct (publish_fails_fast (L := Sample.collab) _ _ _ _ _ _ _ _ false _ img s0 h
              Hbuild eq_refl) as (Hfirst & Hevery & _).
  split.
  - destruct (oci.publishTagFromImage (L := Sample.collab) (Sample.oracle "down.example.com")
                img "down.example.com/app:v1" h false
                (emit (EvLog InfoLevel ("publishing image tag " +:+ "down.example.com/app:v1"))
                   s0))
      as [[d|e] s2] eqn:Hfail.
    { exfalso. clear Hfirst Hevery Hbuild. subst h img s0. vm_compute in Hfail.
      discriminate Hfail. }
    exists e, s2. exact (Hfirst [] _ _ name.zeroDigest _ e s2 eq_refl Hfail).
  - destruct (oci.publishTagFromImage (L := Sample.collab) (Sample.oracle "down.example.com")
                img "up.example.com/app:v1" h false
                (emit (EvLog InfoLevel ("publishing image tag " +:+ "up.example.com/app:v1"))
                   s0))
      as [[d1|e] s1] eqn:Hone.
    2:{ exfalso. clear Hfirst Hevery Hbuild. subst h img s0. vm_compute in Hone.
        discriminate Hone. }
    destruct (oci.publishTagFromImage (L := Sample.collab) (Sample.oracle "down.example.com")
                img "up.example.com/app:latest" h false
                (emit (EvLog InfoLevel
                         ("publishing image tag " +:+ "up.example.com/app:latest")) s1))
      as [[d2|e] s2] eqn:Htwo.
    2:{ exfalso. clear Hfirst Hevery Hbuild. subst h img s0. vm_compute in Hone.
        injection Hone as <- <-. vm_compute in Htwo. discriminate Htwo. }
    exists d2, img, s2. apply Hevery.
    eapply published_cons; [exact Hone|]. eapply published_cons; [exact Htwo|]. constructor.
Defined.

(** ** The index *)

Section index_properties.
Context `{L : Collab}.

Lemma appendArchs_Ok imgs archs idx0 idx :
  oci.appendArchs imgs archs idx0 = Ok idx →
  idx_mediaType idx = idx_mediaType idx0
  ∧ ∃ adds, idx_adds idx = idx_adds idx0 ++ adds ∧ Forall2 (member_entry imgs) archs adds.
Proof.
  revert idx0. induction archs as [|arch archs IH]; intros idx0; simpl.
  - intros [= <-]. split; [done|]. exists []. by rewrite app_nil_r.
  - destruct (imgs !! arch) as [img|] eqn:Himg; [|done].
    destruct (oci.SignedImage_Digest img) as [h|?] eqn:Hh; [|done].
    destruct (oci.SignedImage_Size img) as [size|?] eqn:Hsize; [|done]. simpl.
    intros Hrest. apply IH in Hrest as (Hmt & adds & Hadds & Hall). simpl in *.
    split; [done|]. eexists (_ :: adds). rewrite Hadds, <- app_assoc. split; [done|].
    constructor; [|done]. by exists img, h, size.
Qed.

Lemma strictly_sorted (l : list Architecture) :
  StronglySorted arch_le l → NoDup l → StronglySorted arch_lt l.
Proof.
  induction 1 as [|a l Hl IH Ha]; intros Hnd; [constructor|].
  apply NoDup_cons in Hnd as [Hnotin Hnd]. constructor; [by apply IH|].
  rewrite Forall_forall in Ha |- *. intros b Hb. apply string_lt_le. split; [by apply Ha|].
  intros Heq. apply Hnotin. destruct a, b. simpl in Heq. by subst.
Qed.

Lemma assembleIndex_Ok o mediaType imgs idx :
  range_ok o →
  oci.assembleIndex o mediaType imgs = Ok idx →
  let archs := sort_archs (map_to_list imgs).*1 in
  archs ≡ₚ (map_to_list imgs).*1
  ∧ StronglySorted arch_lt archs
  ∧ Forall2 (member_entry imgs) archs (idx_adds idx)
  ∧ idx_mediaType idx = mediaType.
Proof.
  intros [_ Hrange] Hidx archs. unfold oci.assembleIndex in Hidx. cbv zeta in Hidx.
  rewrite (sort_archs_perm _ _ (Hrange imgs)) in Hidx. fold archs in Hidx.
  apply appendArchs_Ok in Hidx as (Hmt & adds & Hadds & Hall). simpl in Hadds, Hmt.
  rewrite Hadds. split_and!; [|apply strictly_sorted|done|done].
  - apply merge_sort_Permutation.
  - apply StronglySorted_merge_sort; apply _.
  - unfold archs, sort_archs. rewrite merge_sort_Permutation. apply NoDup_fst_map_to_list.
Qed.

(** C6. The index that is published lists one entry per architecture of
    the map, in strictly increasing order of the string forms of the
    architectures, whatever the order in which the map was visited; the
    descriptor of each entry carries the media type, the digest and the
    size of that member and the OCI platform of its architecture. *)
Theorem index_ordering o mediaType ic imgs local tags s d idx s' :
  range_ok o →
  oci.publishIndexWithMediaType o mediaType ic imgs local tags s = (Ok (d, idx), s') →
  let archs := sort_archs (map_to_list imgs).*1 in
  archs ≡ₚ (map_to_list imgs).*1
  ∧ StronglySorted arch_lt archs
  ∧ Forall2 (member_entry imgs) archs (idx_adds idx)
  ∧ Manifests idx = Descriptor_ <$> idx_adds idx
  ∧ idx_mediaType idx = mediaType.
Proof.
  intros Hrange Hpub archs.
  assert (oci.assembleIndex o mediaType imgs = Ok idx) as Hidx.
  { unfold oci.publishIndexWithMediaType in Hpub.
    apply bind_Ok in Hpub as (idx0 & s0 & Hidx0 & Hpub).
    apply liftR_run in Hidx0 as [Hidx0 ->].
    apply bind_Ok in Hpub as (promoted & s1 & _ & Hpub).
    destruct promoted as [digest|].
    - apply mret_run in Hpub as [[= _ ->] _]. done.
    - apply bind_Ok in Hpub as (h & s2 & _ & Hpub).
      apply bind_Ok in Hpub as (digest & s3 & _ & Hpub).
      apply mret_run in Hpub as [[= _ ->] _]. done. }
  destruct (assembleIndex_Ok o mediaType imgs idx Hrange Hidx) as (Hp & Hs & Hall & Hmt).
  by split_and!.
Qed.

(** C10. The image configuration that is passed to the index publishers
    has no part in what they do: with any two configurations they return
    the same digest, the same index or the same error, and leave the
    same world. *)
Theorem index_ignores_configuration o ic1 ic2 imgs local tags s :
  oci.PublishIndex o ic1 imgs local tags s = oci.PublishIndex o ic2 imgs local tags s
  ∧ oci.PublishDockerIndex o ic1 imgs local tags s
    = oci.PublishDockerIndex o ic2 imgs local tags s
  ∧ (∀ mediaType,
       oci.publishIndexWithMediaType o mediaType ic1 imgs local tags s
       = oci.publishIndexWithMediaType o mediaType ic2 imgs local tags s).
Proof. by split_and!. Qed.

End index_properties.

Lemma index_ordering_witness :
  ∃ d idx s',
    oci.publishIndexWithMediaType (L := Sample.collab) (Sample.oracle_rev "")
      ggcrtypes.OCIImageIndex Sample.ic Sample.imgs false ["up.example.com/app:v1"]
      Sample.state = (Ok (d, idx), s')
    ∧ Forall2 (member_entry (L := Sample.collab) Sample.imgs) [Sample.amd64; Sample.arm64]
        (idx_adds idx).
Proof.
  destruct (oci.publishIndexWithMediaType (L := Sample.collab) (Sample.oracle_rev "")
              ggcrtypes.OCIImageIndex Sample.ic Sample.imgs false ["up.example.com/app:v1"]
              Sample.state) as [[[d idx]|e] s'] eqn:Hpub; [|by vm_compute in Hpub].
  exists d, idx, s'. split; [done|].
  destruct (index_ordering _ _ _ _ _ _ _ _ _ _ (sample_rev_range_ok "") Hpub)
    as (_ & _ & Hall & _).
  assert (sort_archs (map_to_list Sample.imgs).*1 = [Sample.amd64; Sample.arm64]) as Harchs
    by (vm_compute; reflexivity).
  by rewrite Harchs in Hall.
Defined.

(** * Further properties of the package *)

(** ** More on the assembled image *)

Section assembler_more.
Context `{L : Collab}.

(** The assembler's image and the run of the attacher that made it. *)
Lemma build_Ok_attach o mediaType layerTarGZ ic created arch sbomPath sbomFormats s si s' :
  oci.buildImageFromLayerWithMediaType o mediaType layerTarGZ ic created arch
    sbomPath sbomFormats s = (Ok si, s') →
  ∃ i0 s0,
    files s0 = files s
    ∧ si_attachments i0 = ∅
    ∧ oci.attachSBOM (SEImage i0) sbomPath sbomFormats arch s0 = (Ok (SEImage si), s').
Proof.
  intros H. unfold oci.buildImageFromLayerWithMediaType in H. cbv zeta in H.
  run_inv H.
  apply LayerFromFile_run in Hrun as [-> Hlayer]. cbn [files emit] in Hlayer.
  destruct (files s !! layerTarGZ) as [b|] eqn:Hb; [|done]. simpl in Hlayer.
  injection Hlayer as ->.
  rewrite (Append_one _ _ _ _ Heq0) in Heq1. injection Heq1 as <-.
  destruct (annotate_run _ _ _ _ _ _ Hrun0 Hrun2) as (_ & Hf & _).
  unfold map_load in Hrun1. injection Hrun1 as <- <-.
  unfold oci.v1Image_ConfigFile in Heq2. injection Heq2 as <-.
  apply entrypoint_run in Hrun3 as [_ ->];
    [|by repeat match goal with |- context [decide ?P] => destruct (decide P) end].
  apply cmd_run in Hrun5 as [_ ->];
    [|by repeat match goal with |- context [decide ?P] => destruct (decide P) end].
  apply environment_run in Hrun4 as [[= ->] ->].
  destruct (attachSBOM_image _ _ _ _ _ _ _ Hrun6) as (i' & -> & _).
  lazymatch goal with
  | H : _ _ = (Ok si, s') |- _ => cbv beta iota in H; apply mret_run in H as [[= ->] ->]
  end.
  eexists _, _. split_and!; [exact Hf| |exact Hrun6]. done.
Qed.

(** X1. The image that the assembler returns has one layer, the bytes
    of the layer file under the requested media type. Its manifest and
    config are typed as OCI when the layer is an OCI layer, and as Docker
    otherwise. *)
Theorem built_media_types o mediaType layerTarGZ ic created arch sbomPath sbomFormats
    s si s' :
  oci.buildImageFromLayerWithMediaType o mediaType layerTarGZ ic created arch
    sbomPath sbomFormats s = (Ok si, s') →
  let img := si_image si in
  (∃ b, files s !! layerTarGZ = Some b
        ∧ img_layers img = [ {| layer_bytes := b; layer_mediaType := mediaType |} ])
  ∧ (mediaType = ggcrtypes.OCILayer →
     img_mediaType img = ggcrtypes.OCIManifestSchema1
     ∧ img_configMediaType img = ggcrtypes.OCIConfigJSON)
  ∧ (mediaType ≠ ggcrtypes.OCILayer →
     img_mediaType img = ggcrtypes.DockerManifestSchema2
     ∧ img_configMediaType img = ggcrtypes.DockerConfigFile).
Proof.
  intros Hbuild.
  apply build_Ok in Hbuild as (b & dg & df & ep & cmd & Hb & _ & _ & _ & _ & Himg & _).
  cbv zeta in *. rewrite Himg. cbn. split_and!.
  - by exists b.
  - intros Hmt. by rewrite !decide_True.
  - intros Hmt. by rewrite !decide_False.
Qed.

(** X2. An image of the Docker layer type carries no annotation,
    whatever the configuration holds. Any other image carries the
    annotations of the configuration, and when the VCS URL has the form
    url@revision the two keys of source and revision hold url and
    revision, over any value the configuration gave them; a VCS URL
    without "@" adds nothing. *)
Theorem built_annotations o mediaType layerTarGZ ic created arch sbomPath sbomFormats
    s si s' :
  oci.buildImageFromLayerWithMediaType o mediaType layerTarGZ ic created arch
    sbomPath sbomFormats s = (Ok si, s') →
  let anns := img_annotations (si_image si) in
  (mediaType = ggcrtypes.DockerLayer → anns = ∅)
  ∧ (mediaType ≠ ggcrtypes.DockerLayer →
     (∀ url hash,
        VCSUrl ic ≠ "" → GoString.Cut (VCSUrl ic) "@" = (url, hash, true) →
        anns !! "org.opencontainers.image.source" = Some url
        ∧ anns !! "org.opencontainers.image.revision" = Some hash
        ∧ ∀ k, k ≠ "org.opencontainers.image.source" →
               k ≠ "org.opencontainers.image.revision" →
               anns !! k = caller_annotations ic s !! k)
     ∧ ((VCSUrl ic = "" ∨ (GoString.Cut (VCSUrl ic) "@").2 = false) →
        anns = caller_annotations ic s)).
Proof.
  intros Hbuild.
  apply build_Ok in Hbuild as (b & dg & df & ep & cmd & _ & _ & _ & _ & _ & Himg & _).
  cbv zeta in *. rewrite Himg. cbn. split.
  - intros Hmt. rewrite decide_False; [done|]. by intros [? _].
  - intros Hmt.
    assert ((if decide (mediaType ≠ ggcrtypes.DockerLayer
                        ∧ vcs_annotations ic (caller_annotations ic s) ≠ ∅)
             then vcs_annotations ic (caller_annotations ic s) else ∅)
            = vcs_annotations ic (caller_annotations ic s)) as ->.
    { case_decide as Hd; [done|]. apply not_and_l in Hd as [Hd|Hd]; [done|].
      by apply dec_stable in Hd. }
    unfold vcs_annotations, vcs_cut. split.
    + intros url hash Hne Hcut. rewrite decide_True, Hcut by done. split_and!.
      * by rewrite lookup_insert_ne, lookup_insert_eq.
      * by rewrite lookup_insert_eq.
      * intros k Hk1 Hk2. by rewrite !lookup_insert_ne.
    + intros [Hempty|Hcut].
      * rewrite decide_False; [done|]. by intros ?.
      * case_decide; [|done]. destruct (GoString.Cut (VCSUrl ic) "@") as [[url hash] [|]];
          [done|done].
Qed.

(** X3. The config of the assembled image names apko as its author and
    linux as its OS, takes architecture and variant from the OCI platform
    of the architecture, and has no label. Its creation time and the
    creation time of its single history entry are the time the caller
    supplied; its diff-id list is the diff id of the layer; working
    directory and user are those of the configuration. *)
Theorem built_config_fields o mediaType layerTarGZ ic created arch sbomPath sbomFormats
    s si s' :
  oci.buildImageFromLayerWithMediaType o mediaType layerTarGZ ic created arch
    sbomPath sbomFormats s = (Ok si, s') →
  let cf := img_configFile (si_image si) in
  cf_Author cf = "github.com/chainguard-dev/apko"
  ∧ cf_OS cf = "linux"
  ∧ cf_Architecture cf = plat_Architecture (ToOCIPlatform arch)
  ∧ cf_Variant cf = plat_Variant (ToOCIPlatform arch)
  ∧ cf_Created cf = created
  ∧ cf_History cf = [ {| hist_Author := "apko"; hist_Created := created;
                         hist_CreatedBy := "apko";
                         hist_Comment := "This is an apko single-layer image" |} ]
  ∧ (∃ b diffid,
       files s !! layerTarGZ = Some b
       ∧ layer_DiffID {| layer_bytes := b; layer_mediaType := mediaType |} = Ok diffid
       ∧ cf_RootFS_DiffIDs cf = [diffid])
  ∧ cfg_Labels (cf_Config cf) = ∅
  ∧ cfg_WorkingDir (cf_Config cf) = WorkDir ic
  ∧ cfg_User (cf_Config cf) = Accounts_RunAs ic.
Proof.
  intros Hbuild.
  apply build_Ok in Hbuild as (b & dg & df & ep & cmd & Hb & _ & Hdf & _ & _ & Himg & _).
  cbv zeta in *. rewrite Himg. cbn. split_and!; try done. by exists b, df.
Qed.

(** X4. The Cmd of the config is the list of words into which the
    command string of the configuration is split, and is empty when the
    string is empty. *)
Theorem cmd_synthesis o mediaType layerTarGZ ic created arch sbomPath sbomFormats s si s' :
  oci.buildImageFromLayerWithMediaType o mediaType layerTarGZ ic created arch
    sbomPath sbomFormats s = (Ok si, s') →
  let cmd := cfg_Cmd (cf_Config (img_configFile (si_image si))) in
  (Cmd ic ≠ "" → shlex_Split (Cmd ic) = Ok cmd)
  ∧ (Cmd ic = "" → cmd = []).
Proof.
  intros Hbuild.
  apply build_Ok in Hbuild as (b & dg & df & ep & cmd & _ & _ & _ & _ & Hcmd & Himg & _).
  cbv zeta in *. rewrite Himg. cbn. unfold cmd_of in Hcmd. split.
  - intros Hne. rewrite decide_True in Hcmd by done. by apply wrap_Ok in Hcmd.
  - intros He. rewrite decide_False in Hcmd by (by intros ?). by injection Hcmd.
Qed.

(** X5. With no SBOM format requested the assembled image has no
    attachment. With formats requested it has exactly one, named "sbom":
    the file made from the bytes of sbom-<arch>.<ext> under the SBOM
    directory, with the media type of the first format. *)
Theorem built_sbom_attachment o mediaType layerTarGZ ic created arch sbomPath sbomFormats
    s si s' :
  oci.buildImageFromLayerWithMediaType o mediaType layerTarGZ ic created arch
    sbomPath sbomFormats s = (Ok si, s') →
  match sbomFormats with
  | [] => si_attachments si = ∅
  | format0 :: _ =>
      ∃ mt ext b f,
        sbom_select format0 = Some (mt, ext)
        ∧ files s !! sbom_file sbomPath arch ext = Some b
        ∧ static_NewFile b mt = Ok f
        ∧ si_attachments si = {[ "sbom" := f ]}
  end.
Proof.
  intros Hbuild.
  apply build_Ok_attach in Hbuild as (i0 & s0 & Hfiles & Hnone & Hatt).
  destruct sbomFormats as [|format0 rest].
  - rewrite attachSBOM_nil in Hatt. by injection Hatt as <- _.
  - rewrite attachSBOM_cons in Hatt.
    destruct (sbom_select format0) as [[mt ext]|]; [|done].
    cbv zeta in Hatt. unfold os_ReadFile in Hatt.
    assert (files (warned mt rest s0) = files s) as Hw by (by destruct rest).
    rewrite Hw in Hatt.
    destruct (files s !! sbom_file sbomPath arch ext) as [b|] eqn:Hb; [|done].
    destruct (static_NewFile b mt) as [f|] eqn:Hf; [|done].
    simpl in Hatt. injection Hatt as <- _. by exists mt, ext, b, f.
Qed.

(** X18. The assembler changes no file. Of the Go maps that exist it
    can change only the annotation map of the configuration, and when the
    VCS URL is empty or has no "@" every map holds what it held. *)
Theorem assembler_frame o mediaType layerTarGZ ic created arch sbomPath sbomFormats s si s' :
  oci.buildImageFromLayerWithMediaType o mediaType layerTarGZ ic created arch
    sbomPath sbomFormats s = (Ok si, s') →
  files s' = files s
  ∧ (∀ l, Annotations ic ≠ Some l → is_Some (heap s !! l) → heap s' !! l = heap s !! l)
  ∧ ((VCSUrl ic = "" ∨ (GoString.Cut (VCSUrl ic) "@").2 = false) →
     ∀ l, is_Some (heap s !! l) → map_contents s' l = map_contents s l).
Proof.
  intros Hbuild. apply build_frame in Hbuild as (Hf & Hh & Hm). split_and!; [done..|].
  intros Hvcs. apply Hm. unfold vcs_cut. destruct Hvcs as [->|Hcut]; [done|].
  case_decide; [|done]. by destruct (GoString.Cut (VCSUrl ic) "@") as [[url hash] [|]].
Qed.

End assembler_more.

Section assembler_errors.
Context `{L : Collab}.

Lemma liftR_wrap_Err {A} p (r : result A) s e s' :
  liftR (wrap p r) s = (Err e, s') → ∃ cause, e = WrapError p cause ∧ s' = s.
Proof. intros [He ->]%liftR_run. destruct r; [done|]. injection He as ->. eauto. Qed.

Lemma wrapM_Err {A} p (m : M A) s e s' :
  wrapM p m s = (Err e, s') → ∃ cause, e = WrapError p cause ∧ m s = (Err cause, s').
Proof.
  unfold wrapM. destruct (m s) as [[a|e0] s1]; simpl; [done|]. intros [= <- <-]. eauto.
Qed.

Lemma Append_config base a img :
  mutate.Append base [a] = Ok img →
  cf_Config (img_configFile img) = cf_Config (img_configFile base).
Proof.
  simpl. unfold mutate.append1. destruct (layer_DiffID _); [|done]. by intros [= <-].
Qed.

Lemma entrypoint_of_Err ic e :
  entrypoint_of ic = Err e → ∃ cause, e = WrapError "unable to parse entrypoint command" cause.
Proof.
  unfold entrypoint_of. destruct (decide (Entrypoint_ShellFragment ic ≠ "")); [done|].
  destruct (decide (Entrypoint_Command ic ≠ "")); [|done].
  destruct (shlex_Split _); [done|]. intros [= <-]. eauto.
Qed.

Lemma cmd_of_Err ic e :
  cmd_of ic = Err e → ∃ cause, e = WrapError "unable to parse cmd" cause.
Proof.
  unfold cmd_of. destruct (decide (Cmd ic ≠ "")); [|done].
  destruct (shlex_Split _); [done|]. intros [= <-]. eauto.
Qed.

Lemma build_Err o mediaType layerTarGZ ic created arch sbomPath sbomFormats
    s e s' :
  oci.buildImageFromLayerWithMediaType o mediaType layerTarGZ ic created arch
    sbomPath sbomFormats s = (Err e, s') →
  (∃ step cause, e = WrapError step cause ∧ step ∈ assembler_steps mediaType)
  ∧ files s' = files s.
Proof.
  intros H. unfold oci.buildImageFromLayerWithMediaType in H. cbv zeta in H.
  assert (∀ step, In step (assembler_steps mediaType) → step ∈ assembler_steps mediaType)
    as Hin by (intros; by apply list_elem_of_In).
  apply bind_Err in H as [H|(u0 & s0 & H0 & H)]; [by apply log_run in H as [[=] _]|].
  apply log_run in H0 as [_ ->]. cbv beta in H.
  apply bind_Err in H as [H|(v1Layer & s1 & H1 & H)].
  { apply wrapM_Err in H as (cause & -> & H). apply LayerFromFile_run in H as [-> _].
    split; [|done]. eexists _, _. split; [done|]. apply Hin. simpl. tauto. }
  apply wrapM_Ok, LayerFromFile_run in H1 as [-> _]. cbv beta in H.
  apply bind_Err in H as [H|(digest & s2 & H2 & H)].
  { apply liftR_wrap_Err in H as (cause & -> & ->).
    split; [|done]. eexists _, _. split; [done|]. apply Hin. simpl. tauto. }
  apply liftR_run in H2 as [_ ->]. cbv beta in H.
  apply bind_Err in H as [H|(diffid & s3 & H3 & H)].
  { apply liftR_wrap_Err in H as (cause & -> & ->).
    split; [|done]. eexists _, _. split; [done|]. apply Hin. simpl. tauto. }
  apply liftR_run in H3 as [_ ->]. cbv beta in H.
  apply bind_Err in H as [H|(u4 & s4 & H4 & H)]; [by apply log_run in H as [[=] _]|].
  apply log_run in H4 as [_ ->]. cbv beta in H.
  apply bind_Err in H as [H|(u5 & s5 & H5 & H)]; [by apply log_run in H as [[=] _]|].
  apply log_run in H5 as [_ ->]. cbv beta in H.
  apply bind_Err in H as [H|(v1Image & s6 & H6 & H)].
  { apply liftR_wrap_Err in H as (cause & -> & ->).
    split; [|done]. eexists _, _. split; [done|]. apply Hin. simpl. tauto. }
  apply liftR_run in H6 as [H6 ->]. symmetry in H6. apply wrap_Ok in H6. cbv beta in H.
  lazymatch type of H with
  | (_ ≫= _) ?st = _ => destruct (annotate_succeeds ic st) as (l & sa & sb & Hl & Hst & Hfs)
  end.
  apply bind_Err in H as [H|(l' & sa' & Hl' & H)]; [congruence|].
  assert (l' = l ∧ sa' = sa) as [-> ->] by (split; congruence). cbv beta in H.
  apply bind_Err in H as [H|(u7 & sb' & Hst' & H)]; [congruence|].
  assert (sb' = sb) as -> by congruence. cbv beta in H.
  apply bind_Err in H as [H|(anns & s8 & H8 & H)]; [by injection H|].
  injection H8 as _ <-. cbv beta in H.
  apply bind_Err in H as [H|(cfg & s9 & H9 & H)].
  { apply liftR_wrap_Err in H as (cause & -> & ->).
    split; [|done]. eexists _, _. split; [done|]. apply Hin. simpl. tauto. }
  apply liftR_run in H9 as [H9 ->]. symmetry in H9. apply wrap_Ok in H9.
  assert (cf_Config cfg = empty.Config_) as Hcfg.
  { unfold oci.v1Image_ConfigFile in H9. injection H9 as <-.
    apply Append_config in H6.
    transitivity (cf_Config (img_configFile v1Image)); [by destruct (decide (_ ∧ _))|].
    rewrite H6. by destruct (decide (mediaType = _)). }
  cbv beta in H.
  apply bind_Err in H as [H|(ep & s10 & H10 & H)].
  { apply entrypoint_run in H as [He ->];
      [|by rewrite Hcfg].
    symmetry in He. apply entrypoint_of_Err in He as [cause ->].
    split; [|done]. eexists _, _. split; [done|]. apply Hin. simpl. tauto. }
  apply entrypoint_run in H10 as [_ ->];
    [|by rewrite Hcfg].
  cbv beta in H.
  apply bind_Err in H as [H|(cmd & s11 & H11 & H)].
  { apply cmd_run in H as [He ->];
      [|by rewrite Hcfg].
    symmetry in He. apply cmd_of_Err in He as [cause ->].
    split; [|done]. eexists _, _. split; [done|]. apply Hin. simpl. tauto. }
  apply cmd_run in H11 as [_ ->];
    [|by rewrite Hcfg].
  cbv beta in H.
  apply bind_Err in H as [H|(environment & s11 & Henv & H)];
    [by apply environment_run in H as [[=] _]|].
  apply environment_run in Henv as [_ ->]. cbv beta in H.
  apply bind_Err in H as [H|(img & s12 & H12 & H)].
  { apply liftR_wrap_Err in H as (cause & -> & ->).
    split; [|done]. eexists _, _. split; [done|]. apply Hin. simpl. tauto. }
  apply liftR_run in H12 as [_ ->]. cbv beta in H.
  apply bind_Err in H as [H|(ent & s13 & H13 & H)].
  { apply wrapM_Err in H as (cause & -> & H).
    apply attachSBOM_frame in H as [_ Hf]. split; [|by rewrite Hf].
    eexists _, _. split; [done|]. apply Hin. simpl. tauto. }
  apply wrapM_Ok in H13. destruct (attachSBOM_image _ _ _ _ _ _ _ H13) as (i' & -> & _).
  by apply mret_run in H as [[=] _].
Qed.

Lemma build_errors_files o mediaType layerTarGZ ic created arch sbomPath sbomFormats s e s' :
  oci.buildImageFromLayerWithMediaType o mediaType layerTarGZ ic created arch
    sbomPath sbomFormats s = (Err e, s') →
  files s' = files s.
Proof. by intros [_ ?]%build_Err. Qed.


End assembler_errors.

(** ** More on the publisher *)

Section retry_facts.

Lemma retry_trace out ev n last s r s' :
  retry_attempts n (recorded out ev) last s = (r, s') →
  heap s' = heap s ∧ files s' = files s
  ∧ ∃ evs, trace s' = trace s ++ evs
           ∧ retried ev (bool_decide (r = Ok tt)) evs
           ∧ (length evs ≤ n)%nat
           ∧ (r = Ok tt ∨ ∃ e, r = Err (WrapError "All attempts fail" e)).
Proof.
  revert last s. induction n as [|n IH]; intros last s; simpl.
  - intros [-> ->]%fail_run. split_and!; [done..|].
    exists []. rewrite app_nil_r. split_and!; [done|by exists []|done|right; eauto].
  - unfold recorded at 1. destruct (out (trace s)) as [e|] eqn:Hout; simpl.
    + intros Hrest. apply IH in Hrest as (Hh & Hf & evs & Ht & [errs Hevs] & Hlen & Hr).
      simpl in *. split_and!; [done..|].
      exists (ev (Some e) :: evs). rewrite Ht, <- app_assoc. split_and!; [done| |simpl; lia|done].
      exists (e :: errs). by rewrite Hevs.
    + intros [= <- <-]. simpl. split_and!; [done..|].
      exists [ev None]. split_and!; [done| |simpl; lia|by left]. by exists [].
Qed.

End retry_facts.

Lemma occurs_app c a b : occurs c (a +:+ b) = (occurs c a || occurs c b)%bool.
Proof. induction a as [|c' a IH]; simpl; [done|]. by rewrite IH, orb_assoc. Qed.

(** Replacing every occurrence of a byte by a text without it leaves no
    occurrence. *)
Lemma ReplaceByte_none s old new :
  occurs old new = false → occurs old (GoString.ReplaceByte s old new) = false.
Proof.
  intros Hnew. induction s as [|c s IH]; simpl; [done|].
  destruct (Ascii.eqb c old) eqn:Hc.
  - by rewrite occurs_app, Hnew, IH.
  - simpl. by rewrite Hc, IH.
Qed.

Lemma ReplaceByte_id s old new :
  occurs old s = false → GoString.ReplaceByte s old new = s.
Proof.
  induction s as [|c s IH]; simpl; [done|]. intros [Hc Hs]%orb_false_elim.
  by rewrite Hc, IH.
Qed.

Lemma string_app_assoc (a b c : string) : (a +:+ b) +:+ c = a +:+ (b +:+ c).
Proof.
  induction a as [|x a IH]; [done|].
  change (String x ((a +:+ b) +:+ c) = String x (a +:+ (b +:+ c))). by rewrite IH.
Qed.

Lemma ReplaceByte_app a b old new :
  GoString.ReplaceByte (a +:+ b) old new
  = GoString.ReplaceByte a old new +:+ GoString.ReplaceByte b old new.
Proof.
  induction a as [|c a IH]; simpl; [done|]. rewrite IH.
  destruct (Ascii.eqb c old); [|done].
  by rewrite string_app_assoc.
Qed.

(** Replacing the separator of joined pieces that do not hold it joins
    the pieces by the replacement. *)
Lemma ReplaceByte_pieces old new pieces :
  Forall (λ piece, occurs old piece = false) pieces →
  GoString.ReplaceByte (String.concat (String old "") pieces) old new
  = String.concat new pieces.
Proof.
  induction 1 as [|piece pieces Hpiece Hrest IH]; [done|].
  destruct pieces as [|piece' pieces].
  - simpl. by apply ReplaceByte_id.
  - change (String.concat (String old "") (piece :: piece' :: pieces))
      with (piece +:+ String old "" +:+ String.concat (String old "") (piece' :: pieces)).
    change (String.concat new (piece :: piece' :: pieces))
      with (piece +:+ new +:+ String.concat new (piece' :: pieces)).
    rewrite ReplaceByte_app, (ReplaceByte_id _ _ _ Hpiece).
    change (String old "" +:+ String.concat (String old "") (piece' :: pieces))
      with (String old (String.concat (String old "") (piece' :: pieces))).
    cbn [GoString.ReplaceByte]. by rewrite Ascii.eqb_refl, IH.
Qed.

Lemma successful_writes_app evs1 evs2 :
  successful_writes (evs1 ++ evs2) = successful_writes evs1 ++ successful_writes evs2.
Proof. apply omap_app. Qed.

Lemma successful_writes_peripheral evs :
  Forall peripheral_event evs → successful_writes evs = [].
Proof.
  induction 1 as [|ev evs Hev _ IH]; [done|].
  change (successful_writes (ev :: evs)) with (successful_writes ([ev] ++ evs)).
  rewrite successful_writes_app, IH. by destruct ev.
Qed.

Lemma successful_writes_attempts ref image errs :
  successful_writes (attempts (EvRemoteWrite ref image) errs) = [].
Proof.
  induction errs as [|e errs IH]; [done|].
  change (attempts (EvRemoteWrite ref image) (e :: errs))
    with ([EvRemoteWrite ref image (Some e)] ++ attempts (EvRemoteWrite ref image) errs).
  by rewrite successful_writes_app, IH.
Qed.

Section publisher_more.
Context `{L : Collab}.

Lemma appends_writePeripherals o tag se :
  appends peripheral_event (oci.writePeripherals o tag se).
Proof.
  unfold oci.writePeripherals. destruct (GetEnvTargetRepository o); [|apply appends_fail].
  cbv zeta. repeat appends_step.
  unfold oci.remote_WriteFile_call. intros s r s' [= _ <-]. eexists [_]. split; [done|].
  by constructor.
Qed.

(** Writing peripherals changes no Go map and no file. *)
Lemma writePeripherals_frame o tag se s r s' :
  oci.writePeripherals o tag se s = (r, s') → heap s' = heap s ∧ files s' = files s.
Proof.
  unfold oci.writePeripherals. destruct (GetEnvTargetRepository o) as [repo|e];
    [|by intros [_ ->]%fail_run].
  cbv zeta. unfold mbind, M_bind, bind, liftR.
  destruct (oci.SignedEntity_Digest se) as [h|e]; [|by intros [= _ <-]].
  destruct (ociremote_SBOMTag _ _) as [t|e]; [|by intros [= _ <-]].
  destruct (oci.SignedEntity_Attachment se "sbom") as [f|e]; [|by intros [_ ->]%mret_run].
  unfold wrapM, retry_Do.
  destruct (retry_attempts 10 _ _ s) as [r1 s1] eqn:Hretry.
  change (oci.remote_WriteFile_call o t f)
    with (recorded (λ tr, remote_WriteFile o tr t f) (EvRemoteWriteFile t f)) in Hretry.
  apply retry_trace in Hretry as (Hh & Hf & _).
  destruct r1; simpl; intros [= _ <-]; by simpl.
Qed.

Lemma publishTag_remote_run o image imageRef hash s r s' :
  oci.publishTagFromImage o image imageRef hash false s = (r, s') →
  heap s' = heap s ∧ files s' = files s
  ∧ ∃ evs_p evs_w,
      trace s' = trace s ++ evs_p ++ evs_w
      ∧ Forall peripheral_event evs_p
      ∧ (evs_w ≠ [] →
         ∃ ref s1, name_ParseReference imageRef = Ok ref
                   ∧ oci.writePeripherals o ref (SEImage image) s = (Ok tt, s1))
      ∧ match r with
        | Ok d =>
            ∃ ref, name_ParseReference imageRef = Ok ref
                   ∧ d = name.Repository_Digest (name.Context ref) (Hash_String hash)
                   ∧ retried (EvRemoteWrite ref image) true evs_w
        | Err e =>
            evs_w = []
            ∨ ∃ ref, name_ParseReference imageRef = Ok ref
                     ∧ retried (EvRemoteWrite ref image) false evs_w
        end.
Proof.
  unfold oci.publishTagFromImage. unfold mbind at 1, M_bind at 1, bind at 1, liftR.
  destruct (name_ParseReference imageRef) as [ref|e0] eqn:Href; simpl.
  2:{ intros [= <- <-]. split_and!; [done..|]. exists [], []. rewrite !app_nil_r.
      split_and!; [done..|by left]. }
  unfold mbind at 1, M_bind at 1, bind at 1.
  destruct (oci.writePeripherals o ref (SEImage image) s) as [[[]|e1] s1] eqn:Hwp.
  2:{ intros [= <- <-]. destruct (writePeripherals_frame _ _ _ _ _ _ Hwp) as [Hh Hf].
      destruct (appends_writePeripherals _ _ _ _ _ _ Hwp) as (evs_p & Ht & Hp).
      split_and!; [done..|]. exists evs_p, []. rewrite app_nil_r.
      split_and!; [done..|by left]. }
  destruct (writePeripherals_frame _ _ _ _ _ _ Hwp) as [Hh Hf].
  destruct (appends_writePeripherals _ _ _ _ _ _ Hwp) as (evs_p & Ht & Hp).
  unfold mbind, M_bind, bind, wrapM, retry_Do.
  change (oci.remote_Write_call o ref image)
    with (recorded (λ tr, remote_Write o tr ref image) (EvRemoteWrite ref image)).
  destruct (retry_attempts 10 _ _ s1) as [r1 s2] eqn:Hretry.
  apply retry_trace in Hretry as (Hh2 & Hf2 & evs_w & Ht2 & Hret & _ & Hr1).
  assert (∀ r0, (r0, s2) = (r, s') →
            heap s' = heap s ∧ files s' = files s ∧ trace s' = trace s ++ evs_p ++ evs_w)
    as Hstate.
  { intros r0 [= _ <-]. by rewrite Hh2, Hf2, Ht2, Ht, Hh, Hf, app_assoc. }
  destruct Hr1 as [->|[e ->]]; simpl.
  - intros Hrun. destruct (Hstate _ Hrun) as (? & ? & ?). injection Hrun as <- _.
    split_and!; [done..|]. exists evs_p, evs_w. split_and!; [done|done|by eauto|].
    exists ref. by rewrite bool_decide_eq_true_2 in Hret.
  - intros Hrun. destruct (Hstate _ Hrun) as (? & ? & ?). injection Hrun as <- _.
    split_and!; [done..|]. exists evs_p, evs_w. split_and!; [done|done|by eauto|].
    right. exists ref. by rewrite bool_decide_eq_false_2 in Hret.
Qed.


(** Of what one tag of a successful remote publish records, the image
    writes that succeeded are the one write of the image to the parsed
    reference. *)
Lemma remote_publish_success o image imageRef hash s d s' :
  oci.publishTagFromImage o image imageRef hash false s = (Ok d, s') →
  ∃ ref evs, name_ParseReference imageRef = Ok ref
             ∧ trace s' = trace s ++ evs
             ∧ successful_writes evs = [(ref, image)].
Proof.
  intros Hrun. apply publishTag_remote_run in Hrun
    as (_ & _ & evs_p & evs_w & Ht & Hp & _ & ref & Href & _ & errs & ->).
  exists ref, (evs_p ++ attempts (EvRemoteWrite ref image) errs ++ [EvRemoteWrite ref image None]).
  split_and!; [done..|].
  by rewrite !successful_writes_app, (successful_writes_peripheral _ Hp),
    successful_writes_attempts.
Qed.

End publisher_more.

Lemma successful_writes_logs evs : Forall is_log evs → successful_writes evs = [].
Proof.
  intros H. apply successful_writes_peripheral. eapply Forall_impl; [exact H|].
  by intros [].
Qed.

Lemma successful_file_writes_app evs1 evs2 :
  successful_file_writes (evs1 ++ evs2)
  = successful_file_writes evs1 ++ successful_file_writes evs2.
Proof. apply omap_app. Qed.

Lemma successful_file_writes_attempts ref f errs :
  successful_file_writes (attempts (EvRemoteWriteFile ref f) errs) = [].
Proof.
  induction errs as [|e errs IH]; [done|].
  change (attempts (EvRemoteWriteFile ref f) (e :: errs))
    with ([EvRemoteWriteFile ref f (Some e)] ++ attempts (EvRemoteWriteFile ref f) errs).
  by rewrite successful_file_writes_app, IH.
Qed.

Lemma elem_of_attempts ev errs e0 :
  e0 ∈ attempts ev errs → ∃ e, e0 = ev (Some e).
Proof. unfold attempts. intros (e & -> & _)%list_elem_of_fmap. eauto. Qed.

Section publisher_tags.
Context `{L : Collab}.

Lemma forTags_remote_writes o image h tags d0 s0 d s1 :
  oci.forTags "image" (λ tag, oci.publishTagFromImage o image tag h false) tags d0 s0
  = (Ok d, s1) →
  files s1 = files s0
  ∧ ∃ refs evs,
      Forall2 (λ tag ref, name_ParseReference tag = Ok ref) tags refs
      ∧ trace s1 = trace s0 ++ evs
      ∧ successful_writes evs = (λ ref, (ref, image)) <$> refs.
Proof.
  revert d0 s0. induction tags as [|tag tags IH]; intros d0 s0; simpl.
  - intros [_ ->]%mret_run. split; [done|]. exists [], []. by rewrite app_nil_r.
  - intros Hrun. apply bind_Ok in Hrun as (u & sa & Hlog & Hrun).
    apply log_run in Hlog as [_ ->].
    apply bind_Ok in Hrun as (d1 & sb & Hpub & Hrest).
    pose proof (publishTag_remote_run _ _ _ _ _ _ _ Hpub) as (_ & Hf & _).
    apply remote_publish_success in Hpub as (ref & evs1 & Href & Ht1 & Hw1).
    apply IH in Hrest as (Hf2 & refs & evs2 & Hrefs & Ht2 & Hw2).
    split; [by rewrite Hf2, Hf|].
    exists (ref :: refs), ([EvLog InfoLevel ("publishing image tag " +:+ tag)] ++ evs1 ++ evs2).
    split_and!.
    + by constructor.
    + rewrite Ht2, Ht1. simpl. by rewrite <- !app_assoc.
    + rewrite !successful_writes_app, Hw1, Hw2. done.
Qed.

(** X8. When an image is published to registries and the call succeeds,
    every tag was parsed, and the writes of an image that a registry
    accepted are those of the returned image to the references of the
    tags, one for each tag and in the order of the tags. No file on disk
    was changed. *)
Theorem publish_writes_every_tag o mediaType layerTarGZ ic created arch sbomPath sbomFormats
    tags s d image s' :
  oci.publishImageFromLayerWithMediaType o mediaType layerTarGZ ic created arch
    sbomPath sbomFormats false tags s = (Ok (d, image), s') →
  files s' = files s
  ∧ ∃ refs evs,
      Forall2 (λ tag ref, name_ParseReference tag = Ok ref) tags refs
      ∧ trace s' = trace s ++ evs
      ∧ successful_writes evs = (λ ref, (ref, image)) <$> refs.
Proof.
  intros Hpub. unfold oci.publishImageFromLayerWithMediaType in Hpub.
  apply bind_Ok in Hpub as (img & s0 & Hbuild & Hpub).
  apply bind_Ok in Hpub as (h & s1 & Hh & Hpub). apply liftR_run in Hh as [_ ->].
  apply bind_Ok in Hpub as (d1 & s2 & Hloop & Hpub).
  apply mret_run in Hpub as [[= <- <-] ->].
  destruct (appends_build _ _ _ _ _ _ _ _ _ _ _ Hbuild) as (evs0 & Ht0 & Hlogs).
  apply build_frame in Hbuild as [Hf0 _].
  apply forTags_remote_writes in Hloop as (Hf & refs & evs & Hrefs & Ht & Hw).
  split; [by rewrite Hf, Hf0|].
  exists refs, (evs0 ++ evs). split_and!; [done|by rewrite Ht, Ht0, app_assoc|].
  by rewrite successful_writes_app, (successful_writes_logs _ Hlogs).
Qed.

Lemma writePeripherals_run o tag se s r s' :
  oci.writePeripherals o tag se s = (r, s') →
  heap s' = heap s ∧ files s' = files s
  ∧ ∃ evs,
      trace s' = trace s ++ evs
      ∧ (∀ ref f err, EvRemoteWriteFile ref f err ∈ evs →
           ∃ repo h,
             GetEnvTargetRepository o = Ok repo
             ∧ oci.SignedEntity_Digest se = Ok h
             ∧ ociremote_SBOMTag
                 (name.Repository_Digest (name.Context tag) (Hash_String h))
                 (if decide (repo ≠ name.zeroRepository) then Some repo else None) = Ok ref
             ∧ oci.SignedEntity_Attachment se "sbom" = Ok f)
      ∧ (is_Err (oci.SignedEntity_Attachment se "sbom") → evs = [])
      ∧ (r = Ok tt → is_Ok (oci.SignedEntity_Attachment se "sbom") →
           ∃ ref f,
             successful_file_writes evs = [(ref, f)]
             ∧ last evs = Some (EvLog InfoLevel ("Published SBOM " +:+ name.Tag_Name ref))).
Proof.
  intros Hrun. destruct (writePeripherals_frame _ _ _ _ _ _ Hrun) as [Hh Hf].
  split_and!; [done..|].
  unfold oci.writePeripherals in Hrun.
  destruct (GetEnvTargetRepository o) as [repo|e0] eqn:Hrepo.
  2:{ apply fail_run in Hrun as [-> ->]. exists []. rewrite app_nil_r.
      split_and!; [done| |done|done]. by intros ??? ?%elem_of_nil. }
  cbv zeta in Hrun. unfold mbind, M_bind, bind, liftR in Hrun.
  destruct (oci.SignedEntity_Digest se) as [h|e1] eqn:Hdigest.
  2:{ injection Hrun as <- <-. exists []. rewrite app_nil_r.
      split_and!; [done| |done|done]. by intros ??? ?%elem_of_nil. }
  destruct (ociremote_SBOMTag _ _) as [t|e2] eqn:Htag.
  2:{ injection Hrun as <- <-. exists []. rewrite app_nil_r.
      split_and!; [done| |done|done]. by intros ??? ?%elem_of_nil. }
  destruct (oci.SignedEntity_Attachment se "sbom") as [f|e3] eqn:Hatt.
  2:{ apply mret_run in Hrun as [-> ->]. exists []. rewrite app_nil_r.
      split_and!; [done| |done|]; [by intros ??? ?%elem_of_nil|by intros _ [? ?]]. }
  unfold wrapM, retry_Do in Hrun.
  destruct (retry_attempts 10 _ _ s) as [r1 s1] eqn:Hretry.
  change (oci.remote_WriteFile_call o t f)
    with (recorded (λ tr, remote_WriteFile o tr t f) (EvRemoteWriteFile t f)) in Hretry.
  apply retry_trace in Hretry as (_ & _ & evs_w & Ht & [errs Hret] & _ & Hr1).
  destruct Hr1 as [->|[e ->]]; simpl in Hrun.
  - injection Hrun as <- <-. rewrite bool_decide_eq_true_2 in Hret by done. subst evs_w.
    exists ((attempts (EvRemoteWriteFile t f) errs ++ [EvRemoteWriteFile t f None])
            ++ [EvLog InfoLevel ("Published SBOM " +:+ name.Tag_Name t)]).
    split_and!.
    + cbn [trace emit]. by rewrite Ht, <- !app_assoc.
    + intros ref f' err [[Hin|Hin%list_elem_of_singleton]%elem_of_app
                        |Hin%list_elem_of_singleton]%elem_of_app; [| |done].
      * apply elem_of_attempts in Hin as [e [= -> -> _]]. by exists repo, h.
      * injection Hin as -> -> _. by exists repo, h.
    + by intros [? ?].
    + intros _ _. exists t, f. split; [|by rewrite last_snoc].
      by rewrite !successful_file_writes_app, successful_file_writes_attempts.
  - injection Hrun as <- <-. rewrite bool_decide_eq_false_2 in Hret by done.
    rewrite app_nil_r in Hret. subst evs_w.
    exists (attempts (EvRemoteWriteFile t f) errs). split_and!; [done| |by intros [? ?]|done].
    intros ref f' err Hin. apply elem_of_attempts in Hin as [e' [= -> -> _]].
    by exists repo, h.
Qed.

(** X9. Writing the peripherals of an entity under a tag changes no Go
    map and no file. A file is written only to the SBOM tag of the
    digest of the entity in the repository of the tag, or in the
    repository that overrides it, and the file is the attachment of the
    entity named "sbom". An entity without that attachment causes no
    write and no log line. When the call succeeds for an entity with the
    attachment, exactly one write was accepted and the last line of the
    log reports it. *)
Theorem sbom_upload_condition o tag se s r s' :
  oci.writePeripherals o tag se s = (r, s') →
  heap s' = heap s ∧ files s' = files s
  ∧ ∃ evs,
      trace s' = trace s ++ evs
      ∧ (∀ ref f err, EvRemoteWriteFile ref f err ∈ evs →
           ∃ repo h,
             GetEnvTargetRepository o = Ok repo
             ∧ oci.SignedEntity_Digest se = Ok h
             ∧ ociremote_SBOMTag
                 (name.Repository_Digest (name.Context tag) (Hash_String h))
                 (if decide (repo ≠ name.zeroRepository) then Some repo else None) = Ok ref
             ∧ oci.SignedEntity_Attachment se "sbom" = Ok f)
      ∧ (is_Err (oci.SignedEntity_Attachment se "sbom") → evs = [])
      ∧ (r = Ok tt → is_Ok (oci.SignedEntity_Attachment se "sbom") →
           ∃ ref f,
             successful_file_writes evs = [(ref, f)]
             ∧ last evs = Some (EvLog InfoLevel ("Published SBOM " +:+ name.Tag_Name ref))).
Proof. apply writePeripherals_run. Qed.

Lemma publishTag_local_run o image imageRef hash s r s' :
  oci.publishTagFromImage o image imageRef hash true s = (r, s') →
  heap s' = heap s ∧ files s' = files s
  ∧ ((is_Err r ∧ trace s' = trace s
      ∧ (is_Err (name_ParseReference imageRef)
         ∨ is_Err (name_NewTag ("apko.local/cache:" +:+ Hex hash))))
     ∨ ∃ ref t resp err line,
         name_ParseReference imageRef = Ok ref
         ∧ name_NewTag ("apko.local/cache:" +:+ Hex hash) = Ok t
         ∧ trace s'
           = trace s
             ++ [ EvLog InfoLevel ("saving OCI image locally: " +:+ name.Tag_Name t);
                  EvDaemonWrite t image err;
                  match err with
                  | Some _ => EvLog ErrorLevel ("docker daemon error: " +:+ line)
                  | None => EvLog DebugLevel ("docker daemon response: " +:+ line)
                  end ]
         ∧ daemon_Write o
             (trace s ++ [EvLog InfoLevel ("saving OCI image locally: " +:+ name.Tag_Name t)])
             t image = (resp, err)
         ∧ line = GoString.ReplaceByte resp newline "\n"
         ∧ (∀ pieces,
              Forall (λ piece, occurs newline piece = false) pieces →
              resp = String.concat (String newline "") pieces →
              line = String.concat "\n" pieces)
         ∧ occurs newline line = false
         ∧ (occurs newline resp = false → line = resp)
         ∧ r = match err with
               | Some e => Err (WrapError "failed to save OCI image locally" e)
               | None => Ok (name.Repository_Digest (name.Context ref) (Hash_String hash))
               end).
Proof.
  unfold oci.publishTagFromImage. unfold mbind at 1, M_bind at 1, bind at 1, liftR.
  destruct (name_ParseReference imageRef) as [ref|e0] eqn:Href; simpl.
  2:{ intros [= <- <-]. split_and!; [done..|]. left. split_and!; [by eexists|done|].
      left. by eexists. }
  unfold mbind at 1, M_bind at 1, bind at 1, liftR.
  change (oci.localTagOf (Hex hash)) with ("apko.local/cache:" +:+ Hex hash).
  destruct (name_NewTag ("apko.local/cache:" +:+ Hex hash)) as [t|e1] eqn:Htag.
  2:{ intros [= <- <-]. split_and!; [done..|]. left. split_and!; [by eexists|done|].
      right. by eexists. }
  unfold mbind, M_bind, bind, log, modify, oci.daemon_Write_call. cbn [trace emit].
  destruct (daemon_Write o _ t image) as [resp err] eqn:Hdaemon.
  intros Hrun. assert (heap s' = heap s ∧ files s' = files s) as [Hh Hf].
  { destruct err; by injection Hrun as _ <-. }
  split_and!; [done..|]. right.
  exists ref, t, resp, err, (escape_newlines resp).
  split_and!; [done|done| |done|done| | | |].
  - destruct err; injection Hrun as _ <-; simpl; by rewrite <- !app_assoc.
  - intros pieces Hpieces ->. by apply ReplaceByte_pieces.
  - by apply ReplaceByte_none.
  - apply ReplaceByte_id.
  - by destruct err; injection Hrun as <- _.
Qed.

(** X10. Saving an image to the daemon under one tag changes no Go map
    and no file. When the reference or the local tag cannot be parsed
    nothing is recorded. Otherwise the daemon is asked once, whatever it
    answers: an error of the daemon is returned wrapped and is logged at
    the error level, a success is logged at the debug level. What is
    logged of the response is the response with every newline replaced
    by the two characters backslash and n: the pieces between its
    newlines, joined by backslash and n. That text holds no newline, and
    is the response itself when the response has none. *)
Theorem local_save_not_retried o image imageRef hash s r s' :
  oci.publishTagFromImage o image imageRef hash true s = (r, s') →
  heap s' = heap s ∧ files s' = files s
  ∧ ((is_Err r ∧ trace s' = trace s
      ∧ (is_Err (name_ParseReference imageRef)
         ∨ is_Err (name_NewTag ("apko.local/cache:" +:+ Hex hash))))
     ∨ ∃ ref t resp err line,
         name_ParseReference imageRef = Ok ref
         ∧ name_NewTag ("apko.local/cache:" +:+ Hex hash) = Ok t
         ∧ trace s'
           = trace s
             ++ [ EvLog InfoLevel ("saving OCI image locally: " +:+ name.Tag_Name t);
                  EvDaemonWrite t image err;
                  match err with
                  | Some _ => EvLog ErrorLevel ("docker daemon error: " +:+ line)
                  | None => EvLog DebugLevel ("docker daemon response: " +:+ line)
                  end ]
         ∧ daemon_Write o
             (trace s ++ [EvLog InfoLevel ("saving OCI image locally: " +:+ name.Tag_Name t)])
             t image = (resp, err)
         ∧ line = GoString.ReplaceByte resp newline "\n"
         ∧ (∀ pieces,
              Forall (λ piece, occurs newline piece = false) pieces →
              resp = String.concat (String newline "") pieces →
              line = String.concat "\n" pieces)
         ∧ occurs newline line = false
         ∧ (occurs newline resp = false → line = resp)
         ∧ r = match err with
               | Some e => Err (WrapError "failed to save OCI image locally" e)
               | None => Ok (name.Repository_Digest (name.Context ref) (Hash_String hash))
               end).
Proof. apply publishTag_local_run. Qed.

End publisher_tags.

(** ** More on the index *)

Section keeps_facts.
Context {A B : Type}.

Lemma keeps_mret (a : A) : keeps (mret a).
Proof. by intros s r s' [_ ->]%mret_run. Qed.

Lemma keeps_fail e : keeps (fail (A := A) e).
Proof. by intros s r s' [_ ->]%fail_run. Qed.

Lemma keeps_liftR (r : result A) : keeps (liftR r).
Proof. by intros s r' s' [_ ->]%liftR_run. Qed.

Lemma keeps_bind (m : M A) (k : A → M B) :
  keeps m → (∀ a, keeps (k a)) → keeps (m ≫= k).
Proof.
  intros Hm Hk s r s' Hrun. unfold mbind, M_bind, bind in Hrun.
  destruct (m s) as [[a|e] s1] eqn:Hms.
  - destruct (Hm _ _ _ Hms) as [Hh1 Hf1]. destruct (Hk a _ _ _ Hrun) as [Hh2 Hf2].
    by rewrite Hh2, Hf2.
  - injection Hrun as <- <-. by eapply Hm.
Qed.

Lemma keeps_wrapM p (m : M A) : keeps m → keeps (wrapM p m).
Proof.
  intros Hm s r s' Hrun. unfold wrapM in Hrun.
  destruct (m s) as [r1 s1] eqn:Hms. injection Hrun as _ <-. by eapply Hm.
Qed.

End keeps_facts.

Lemma keeps_log lvl msg : keeps (log lvl msg).
Proof. by intros s r s' [_ ->]%log_run. Qed.

Lemma keeps_retry (f : M unit) n last : keeps f → keeps (retry_attempts n f last).
Proof.
  intros Hf. revert last. induction n as [|n IH]; intros last; simpl.
  - apply keeps_fail.
  - intros s r s' Hrun. destruct (f s) as [[[]|e] s1] eqn:Hfs.
    + injection Hrun as <- <-. by eapply Hf.
    + destruct (Hf _ _ _ Hfs) as [Hh1 Hf1]. destruct (IH e _ _ _ Hrun) as [Hh2 Hf2].
      by rewrite Hh2, Hf2.
Qed.

(** One statement of a run at a time. *)
Ltac keeps_step :=
  first
    [ apply keeps_bind; [|intros ?]
    | apply keeps_log
    | apply keeps_wrapM
    | apply keeps_liftR
    | apply keeps_mret
    | apply keeps_fail
    | apply keeps_retry
    | lazymatch goal with
      | |- keeps (if ?b then _ else _) => destruct b
      | |- keeps (match ?x with _ => _ end) => destruct x
      end ].

Lemma successful_index_writes_app evs1 evs2 :
  successful_index_writes (evs1 ++ evs2)
  = successful_index_writes evs1 ++ successful_index_writes evs2.
Proof. apply omap_app. Qed.

Lemma successful_index_writes_peripheral evs :
  Forall peripheral_event evs → successful_index_writes evs = [].
Proof.
  induction 1 as [|ev evs Hev _ IH]; [done|].
  change (successful_index_writes (ev :: evs)) with (successful_index_writes ([ev] ++ evs)).
  rewrite successful_index_writes_app, IH. by destruct ev.
Qed.

Lemma successful_index_writes_attempts ref index errs :
  successful_index_writes (attempts (EvRemoteWriteIndex ref index) errs) = [].
Proof.
  induction errs as [|e errs IH]; [done|].
  change (attempts (EvRemoteWriteIndex ref index) (e :: errs))
    with ([EvRemoteWriteIndex ref index (Some e)]
          ++ attempts (EvRemoteWriteIndex ref index) errs).
  by rewrite successful_index_writes_app, IH.
Qed.

Lemma retags_app evs1 evs2 : retags (evs1 ++ evs2) = retags evs1 ++ retags evs2.
Proof. apply omap_app. Qed.

Section index_more.
Context `{L : Collab}.

Lemma keeps_writePeripherals o tag se : keeps (oci.writePeripherals o tag se).
Proof. intros s r s'. apply writePeripherals_frame. Qed.

Lemma keeps_walk_members o ref index descs :
  keeps (oci.walk_members index descs (oci.writePeripherals o ref)).
Proof.
  induction descs as [|desc descs IH]; simpl; [apply keeps_mret|].
  apply keeps_bind; [|by intros _].
  repeat first [ apply keeps_writePeripherals | keeps_step ].
Qed.

Lemma appends_walk_members o ref index descs :
  appends peripheral_event (oci.walk_members index descs (oci.writePeripherals o ref)).
Proof.
  induction descs as [|desc descs IH]; simpl; [apply appends_mret|].
  apply appends_bind; [|by intros _].
  repeat first [ apply appends_writePeripherals | appends_step ].
Qed.

Lemma walk_run o ref index s r s' :
  oci.walk_SignedEntity index (oci.writePeripherals o ref) s = (r, s') →
  heap s' = heap s ∧ files s' = files s
  ∧ ∃ evs, trace s' = trace s ++ evs ∧ Forall peripheral_event evs.
Proof.
  intros Hrun.
  assert (keeps (oci.walk_SignedEntity index (oci.writePeripherals o ref))) as Hk.
  { apply keeps_bind; [apply keeps_writePeripherals|]. intros _. apply keeps_walk_members. }
  assert (appends peripheral_event
            (oci.walk_SignedEntity index (oci.writePeripherals o ref))) as Ha.
  { apply appends_bind; [apply appends_writePeripherals|]. intros _.
    apply appends_walk_members. }
  destruct (Hk _ _ _ Hrun) as [Hh Hf]. by destruct (Ha _ _ _ Hrun) as (evs & Ht & Hp); eauto.
Qed.

Lemma publishTagFromIndex_run o index imageRef hash s r s' :
  oci.publishTagFromIndex o index imageRef hash s = (r, s') →
  heap s' = heap s ∧ files s' = files s
  ∧ ∃ evs_p evs_w,
      trace s' = trace s ++ evs_p ++ evs_w
      ∧ Forall peripheral_event evs_p
      ∧ (evs_w ≠ [] →
         ∃ ref s1, name_ParseReference imageRef = Ok ref
                   ∧ oci.walk_SignedEntity index (oci.writePeripherals o ref) s = (Ok tt, s1))
      ∧ match r with
        | Ok d =>
            ∃ ref, name_ParseReference imageRef = Ok ref
                   ∧ d = name.Repository_Digest (name.Context ref) (Hash_String hash)
                   ∧ retried (EvRemoteWriteIndex ref index) true evs_w
        | Err e =>
            evs_w = []
            ∨ ∃ ref, name_ParseReference imageRef = Ok ref
                     ∧ retried (EvRemoteWriteIndex ref index) false evs_w
        end.
Proof.
  unfold oci.publishTagFromIndex. unfold mbind at 1, M_bind at 1, bind at 1, liftR.
  destruct (name_ParseReference imageRef) as [ref|e0] eqn:Href; simpl.
  2:{ intros [= <- <-]. split_and!; [done..|]. exists [], []. rewrite !app_nil_r.
      split_and!; [done..|by left]. }
  unfold mbind at 1, M_bind at 1, bind at 1.
  destruct (oci.walk_SignedEntity index (oci.writePeripherals o ref) s)
    as [[[]|e1] s1] eqn:Hwp.
  2:{ intros [= <- <-]. destruct (walk_run _ _ _ _ _ _ Hwp) as (Hh & Hf & evs_p & Ht & Hp).
      split_and!; [done..|]. exists evs_p, []. rewrite app_nil_r.
      split_and!; [done..|by left]. }
  destruct (walk_run _ _ _ _ _ _ Hwp) as (Hh & Hf & evs_p & Ht & Hp).
  unfold mbind, M_bind, bind, wrapM, retry_Do.
  change (oci.remote_WriteIndex_call o ref index)
    with (recorded (λ tr, remote_WriteIndex o tr ref index) (EvRemoteWriteIndex ref index)).
  destruct (retry_attempts 10 _ _ s1) as [r1 s2] eqn:Hretry.
  apply retry_trace in Hretry as (Hh2 & Hf2 & evs_w & Ht2 & Hret & _ & Hr1).
  assert (∀ r0, (r0, s2) = (r, s') →
            heap s' = heap s ∧ files s' = files s ∧ trace s' = trace s ++ evs_p ++ evs_w)
    as Hstate.
  { intros r0 [= _ <-]. by rewrite Hh2, Hf2, Ht2, Ht, Hh, Hf, app_assoc. }
  destruct Hr1 as [->|[e ->]]; simpl.
  - intros Hrun. destruct (Hstate _ Hrun) as (? & ? & ?). injection Hrun as <- _.
    split_and!; [done..|]. exists evs_p, evs_w. split_and!; [done|done|by eauto|].
    exists ref. by rewrite bool_decide_eq_true_2 in Hret.
  - intros Hrun. destruct (Hstate _ Hrun) as (? & ? & ?). injection Hrun as <- _.
    split_and!; [done..|]. exists evs_p, evs_w. split_and!; [done|done|by eauto|].
    right. exists ref. by rewrite bool_decide_eq_false_2 in Hret.
Qed.

End index_more.

Section index_publish.
Context `{L : Collab}.

(** X11. Publishing an index to a registry under one tag changes no Go
    map and no file, and records first what writing the peripherals of
    the index and of its members records (log lines and writes of SBOM
    files), then the writes of the index; no image is written on its
    own. The index is written only when the reference was parsed and the
    peripherals were written; a call that succeeds ends with the one
    write of the index that succeeded, after failed attempts only, and a
    call that fails has no successful write of the index. *)
Theorem index_publish_order o index imageRef hash s r s' :
  oci.publishTagFromIndex o index imageRef hash s = (r, s') →
  heap s' = heap s ∧ files s' = files s
  ∧ ∃ evs_p evs_w,
      trace s' = trace s ++ evs_p ++ evs_w
      ∧ Forall peripheral_event evs_p
      ∧ (evs_w ≠ [] →
         ∃ ref s1, name_ParseReference imageRef = Ok ref
                   ∧ oci.walk_SignedEntity index (oci.writePeripherals o ref) s = (Ok tt, s1))
      ∧ match r with
        | Ok d =>
            ∃ ref, name_ParseReference imageRef = Ok ref
                   ∧ d = name.Repository_Digest (name.Context ref) (Hash_String hash)
                   ∧ retried (EvRemoteWriteIndex ref index) true evs_w
        | Err e =>
            evs_w = []
            ∨ ∃ ref, name_ParseReference imageRef = Ok ref
                     ∧ retried (EvRemoteWriteIndex ref index) false evs_w
        end.
Proof. apply publishTagFromIndex_run. Qed.

Lemma index_event_peripheral index evs :
  Forall peripheral_event evs → Forall (index_event index) evs.
Proof. intros H. eapply Forall_impl; [exact H|]. by intros []. Qed.

Lemma index_event_retried index ref ok evs :
  retried (EvRemoteWriteIndex ref index) ok evs → Forall (index_event index) evs.
Proof.
  intros [errs ->]. apply Forall_app. split.
  - apply Forall_forall. by intros ev [e ->]%elem_of_attempts.
  - destruct ok; by repeat constructor.
Qed.

Lemma forTags_index_writes o index h tags d0 s0 d s1 :
  oci.forTags "index" (λ tag, oci.publishTagFromIndex o index tag h) tags d0 s0
  = (Ok d, s1) →
  heap s1 = heap s0 ∧ files s1 = files s0
  ∧ ∃ refs evs,
      Forall2 (λ tag ref, name_ParseReference tag = Ok ref) tags refs
      ∧ trace s1 = trace s0 ++ evs
      ∧ Forall (index_event index) evs
      ∧ successful_index_writes evs = (λ ref, (ref, index)) <$> refs
      ∧ d = match last refs with
            | Some ref => name.Repository_Digest (name.Context ref) (Hash_String h)
            | None => d0
            end.
Proof.
  revert d0 s0. induction tags as [|tag tags IH]; intros d0 s0; simpl.
  - intros [[= ->] ->]%mret_run. split_and!; [done..|]. exists [], []. by rewrite app_nil_r.
  - intros Hrun. apply bind_Ok in Hrun as (u & sa & Hlog & Hrun).
    apply log_run in Hlog as [_ ->].
    apply bind_Ok in Hrun as (d1 & sb & Hpub & Hrest).
    apply publishTagFromIndex_run in Hpub
      as (Hh1 & Hf1 & evs_p & evs_w & Ht1 & Hp & _ & ref & Href & Hd1 & Hret).
    apply IH in Hrest as (Hh2 & Hf2 & refs & evs2 & Hrefs & Ht2 & Hev2 & Hw2 & Hd).
    split_and!; [by rewrite Hh2, Hh1|by rewrite Hf2, Hf1|].
    exists (ref :: refs),
      ([EvLog InfoLevel ("publishing index tag " +:+ tag)] ++ (evs_p ++ evs_w) ++ evs2).
    split_and!.
    + by constructor.
    + rewrite Ht2, Ht1. simpl. by rewrite <- !app_assoc.
    + apply Forall_app. split; [by repeat constructor|]. apply Forall_app. split; [|done].
      apply Forall_app. split; [by apply index_event_peripheral|].
      by eapply index_event_retried.
    + destruct Hret as [errs ->].
      rewrite !successful_index_writes_app, Hw2,
        (successful_index_writes_peripheral _ Hp), successful_index_writes_attempts. done.
    + rewrite last_cons. destruct (last refs); [done|]. by subst.
Qed.

(** X12. When an index is published to registries and the call
    succeeds, no Go map and no file was changed, every tag was parsed,
    and the writes of an index that a registry accepted are those of the
    returned index to the references of the tags, one for each tag and in
    the order of the tags. Nothing but log lines, SBOM files and that
    index was written. The digest reference returned is the digest of the
    index in the repository of the last tag, and the zero reference when
    no tag was given. *)
Theorem index_writes_every_tag o mediaType ic imgs tags s d idx s' :
  oci.publishIndexWithMediaType o mediaType ic imgs false tags s = (Ok (d, idx), s') →
  heap s' = heap s ∧ files s' = files s
  ∧ ∃ h refs evs,
      oci.SignedImageIndex_Digest idx = Ok h
      ∧ Forall2 (λ tag ref, name_ParseReference tag = Ok ref) tags refs
      ∧ trace s' = trace s ++ evs
      ∧ Forall (index_event idx) evs
      ∧ successful_index_writes evs = (λ ref, (ref, idx)) <$> refs
      ∧ d = match last refs with
            | Some ref => name.Repository_Digest (name.Context ref) (Hash_String h)
            | None => name.zeroDigest
            end.
Proof.
  intros Hpub. unfold oci.publishIndexWithMediaType in Hpub.
  apply bind_Ok in Hpub as (idx0 & s0 & Hidx & Hpub). apply liftR_run in Hidx as [_ ->].
  apply bind_Ok in Hpub as (promoted & s1 & Hp & Hpub).
  apply mret_run in Hp as [[= ->] ->].
  apply bind_Ok in Hpub as (h & s2 & Hh & Hpub). apply liftR_run in Hh as [Hh ->].
  apply bind_Ok in Hpub as (d1 & s3 & Hloop & Hpub).
  apply mret_run in Hpub as [[= <- <-] ->].
  apply forTags_index_writes in Hloop as (? & ? & refs & evs & ? & ? & ? & ? & ?).
  split_and!; [done..|]. by exists h, refs, evs.
Qed.

Lemma promoteNative_find o manifests goos goarch tags :
  oci.promoteNative o manifests goos goarch tags
  = match find (is_native goos goarch) manifests with
    | None => mret None
    | Some manifest =>
        let localSrcTagStr := oci.localTagOf (Hex (desc_Digest manifest)) in
        log InfoLevel ("using native single-arch image for local tags: "
                         +:+ localSrcTagStr +:+ " (" +:+ goos +:+ "/" +:+ goarch +:+ ")");;
        localSrcTag ← liftR (name_NewTag localSrcTagStr);
        oci.tagLocally o localSrcTag tags;;
        digest ← liftR (name_NewDigest (name.Tag_Name localSrcTag +:+ "@"
                                          +:+ Hash_String (desc_Digest manifest)));
        mret (Some digest)
    end.
Proof.
  induction manifests as [|manifest manifests IH]; simpl; [done|].
  unfold is_native at 1. destruct (desc_Platform manifest) as [p|]; [|done].
  destruct (decide (plat_OS p ≠ goos)) as [Hos|Hos].
  { rewrite bool_decide_eq_false_2; [done|]. by intros [? _]. }
  destruct (decide (plat_Architecture p ≠ goarch)) as [Harch|Harch].
  { rewrite bool_decide_eq_false_2; [done|]. by intros [_ ?]. }
  apply dec_stable in Hos. apply dec_stable in Harch.
  by rewrite bool_decide_eq_true_2.
Qed.

Lemma tagLocally_run o src tags s r s' :
  oci.tagLocally o src tags s = (r, s') →
  heap s' = heap s ∧ files s' = files s
  ∧ ∃ evs, trace s' = trace s ++ evs
           ∧ Forall (retag_event src) evs
           ∧ (r = Ok tt →
              ∃ dsts, Forall2 (λ tag dst, name_NewTag tag = Ok dst) tags dsts
                      ∧ retags evs = (λ dst, (src, dst)) <$> dsts).
Proof.
  revert s. induction tags as [|tag tags IH]; intros s; simpl.
  - intros [-> ->]%mret_run. split_and!; [done..|]. exists []. rewrite app_nil_r.
    split_and!; [done..|]. intros _. by exists [].
  - unfold mbind at 1, M_bind at 1, bind at 1, liftR.
    destruct (name_NewTag tag) as [dst|e] eqn:Hdst.
    2:{ intros [= <- <-]. split_and!; [done..|]. exists []. rewrite app_nil_r.
        split_and!; [done..|]. by intros [=]. }
    unfold mbind at 1, M_bind at 1, bind at 1, log, modify.
    unfold mbind at 1, M_bind at 1, bind at 1, oci.daemon_Tag_call. cbn [trace emit].
    destruct (daemon_Tag o _ src dst) as [e|] eqn:Hd; simpl.
    + intros [= <- <-]. split_and!; [done..|]. eexists [_; _]. cbn [trace emit].
      rewrite <- !app_assoc. split_and!; [done|by repeat constructor|]. by intros [=].
    + intros Hrest. apply IH in Hrest as (Hh & Hf & evs & Ht & Hev & Hok).
      split_and!; [done..|].
      exists ([EvLog InfoLevel ("tagging local image " +:+ name.Tag_Name src +:+ " as "
                                 +:+ name.Tag_Name dst);
               EvDaemonTag src dst None] ++ evs).
      split_and!.
      * rewrite Ht. cbn [trace emit]. by rewrite <- !app_assoc.
      * apply Forall_app. split; [by repeat constructor|done].
      * intros Hr. destruct (Hok Hr) as (dsts & Hdsts & Hre). exists (dst :: dsts).
        split; [by constructor|]. by rewrite retags_app, Hre.
Qed.

(** X13. With the local flag set and an image of the native platform in
    the index, nothing is sent to a registry and no image is written to
    the daemon: the daemon is only asked to give names to the image it
    holds under apko.local/cache:<hex>, where <hex> is the hex of the
    digest of the first native manifest. When the call succeeds every
    requested name was read as a tag and given to that image, one request
    for each and in the order given, and the reference returned is the
    one that name.NewDigest reads from the name of that local tag, "@"
    and the digest of the manifest. No Go map and no file is changed. *)
Theorem index_local_promotion o mediaType ic imgs tags s r s' idx manifest :
  oci.assembleIndex o mediaType imgs = Ok idx →
  find (is_native (goos_of o) (goarch_of o)) (Manifests idx) = Some manifest →
  oci.publishIndexWithMediaType o mediaType ic imgs true tags s = (r, s') →
  heap s' = heap s ∧ files s' = files s
  ∧ ∃ evs,
      trace s' = trace s ++ evs
      ∧ Forall (λ e, is_log e
                     ∨ ∃ src dst err,
                         e = EvDaemonTag src dst err
                         ∧ name_NewTag ("apko.local/cache:" +:+ Hex (desc_Digest manifest))
                           = Ok src) evs
      ∧ (∀ d idx', r = Ok (d, idx') →
           idx' = idx
           ∧ ∃ src dsts,
               name_NewTag ("apko.local/cache:" +:+ Hex (desc_Digest manifest)) = Ok src
               ∧ Forall2 (λ tag dst, name_NewTag tag = Ok dst) tags dsts
               ∧ retags evs = (λ dst, (src, dst)) <$> dsts
               ∧ name_NewDigest (name.Tag_Name src +:+ "@"
                                   +:+ Hash_String (desc_Digest manifest)) = Ok d).
Proof.
  intros Hidx Hfind. unfold oci.publishIndexWithMediaType. rewrite Hidx.
  unfold mbind at 1, M_bind at 1, bind at 1, liftR. cbv zeta.
  fold (goos_of o). fold (goarch_of o). rewrite promoteNative_find, Hfind. cbv zeta.
  change (oci.localTagOf (Hex (desc_Digest manifest)))
    with ("apko.local/cache:" +:+ Hex (desc_Digest manifest)).
  unfold mbind at 1, M_bind at 1, bind at 1.
  unfold mbind at 1, M_bind at 1, bind at 1, log, modify.
  unfold mbind at 1, M_bind at 1, bind at 1, liftR.
  destruct (name_NewTag _) as [src|e] eqn:Hsrc.
  2:{ intros [= <- <-]. split_and!; [done..|]. eexists [_]. split_and!; [done| |done].
      constructor; [by left|constructor]. }
  unfold mbind at 1, M_bind at 1, bind at 1.
  destruct (oci.tagLocally o src tags _) as [[[]|e] s1] eqn:Htag;
    apply tagLocally_run in Htag as (Hh & Hf & evs & Ht & Hev & Hok); cbn [trace emit] in *.
  2:{ intros [= <- <-]. split_and!; [done..|]. eexists (_ :: evs).
      rewrite Ht, <- app_assoc. split_and!; [done| |done].
      constructor; [by left|]. eapply Forall_impl; [exact Hev|].
      intros [] Hre; try done; [by left|]. right. simpl in Hre. subst. eauto. }
  destruct (Hok eq_refl) as (dsts & Hdsts & Hre).
  unfold mbind at 1, M_bind at 1, bind at 1, liftR.
  assert (Forall (λ e, is_log e
                       ∨ ∃ src0 dst err,
                           e = EvDaemonTag src0 dst err
                           ∧ Ok (A := Tag) src = Ok src0)
            (EvLog InfoLevel
               ("using native single-arch image for local tags: "
                +:+ ("apko.local/cache:" +:+ Hex (desc_Digest manifest))
                +:+ " (" +:+ goos_of o +:+ "/" +:+ goarch_of o +:+ ")") :: evs)) as Hall.
  { constructor; [by left|]. eapply Forall_impl; [exact Hev|].
    intros [] Hre'; try done; [by left|]. right. simpl in Hre'. subst. eauto. }
  destruct (name_NewDigest _) as [digest|e] eqn:Hdigest; simpl.
  2:{ intros [= <- <-]. split_and!; [done..|]. eexists (_ :: evs).
      rewrite Ht, <- app_assoc. split_and!; [done|exact Hall|done]. }
  intros [= <- <-]. split_and!; [done..|]. eexists (_ :: evs).
  rewrite Ht, <- app_assoc. split_and!; [done|exact Hall|].
  intros d idx' [= <- <-]. split; [done|]. exists src, dsts. split_and!; [done|done| |done].
  exact Hre.
Qed.

Lemma bind_liftR {A B} (r : result A) (k : A → M B) s :
  (liftR r ≫= k) s = match r with Ok a => k a s | Err e => (Err e, s) end.
Proof. by destruct r. Qed.

Lemma appendArchs_members imgs archs idx0 idx :
  oci.appendArchs imgs archs idx0 = Ok idx →
  Manifests idx0 = [] →
  Forall2 (λ arch m, is_Some (imgs !! arch) ∧ desc_Platform m = Some (ToOCIPlatform arch))
    archs (Manifests idx).
Proof.
  intros Hrun Hempty. apply appendArchs_Ok in Hrun as (_ & adds & Hadds & Hall).
  unfold Manifests in *. apply fmap_nil_inv in Hempty. rewrite Hempty in Hadds.
  simpl in Hadds. rewrite Hadds. apply Forall2_fmap_r.
  eapply Forall2_impl; [exact Hall|].
  intros arch a (img & h & size & Himg & _ & _ & _ & Hd). simpl. rewrite Hd.
  split; [by eexists|done].
Qed.

(** X14. With the local flag set but no image of the native platform in
    the map, the flag has no effect: the index is published to the
    registries exactly as without it. *)
Theorem index_local_fallthrough o mediaType ic imgs tags s :
  (∀ arch, is_Some (imgs !! arch) →
     plat_OS (ToOCIPlatform arch) ≠ goos_of o
     ∨ plat_Architecture (ToOCIPlatform arch) ≠ goarch_of o) →
  oci.publishIndexWithMediaType o mediaType ic imgs true tags s
  = oci.publishIndexWithMediaType o mediaType ic imgs false tags s.
Proof.
  intros Hnone. unfold oci.publishIndexWithMediaType. rewrite !bind_liftR.
  destruct (oci.assembleIndex o mediaType imgs) as [idx|e] eqn:Hidx; [|done].
  unfold mbind at 1, M_bind at 1, bind at 1. cbv zeta. fold (goos_of o). fold (goarch_of o). rewrite promoteNative_find.
  assert (find (is_native (goos_of o) (goarch_of o)) (Manifests idx) = None) as ->; [|done].
  unfold oci.assembleIndex in Hidx. cbv zeta in Hidx.
  apply appendArchs_members in Hidx; [|done].
  induction Hidx as [|arch m archs ms [Hsome Hplat] _ IH]; simpl; [done|].
  unfold is_native at 1. rewrite Hplat, IH.
  rewrite bool_decide_eq_false_2; [done|]. intros [? ?]. by destruct (Hnone arch Hsome).
Qed.



End index_publish.

(** ** Attaching after publication, and the tarball *)

Lemma elem_of_successful_file_writes ref f evs :
  (ref, f) ∈ successful_file_writes evs → EvRemoteWriteFile ref f None ∈ evs.
Proof.
  unfold successful_file_writes. intros (ev & Hev & Hsome)%list_elem_of_omap.
  destruct ev as [| | | |ref' f' [e|]|]; try done. by injection Hsome as -> ->.
Qed.

Section post_attach.
Context `{L : Collab}.

Lemma writePeripherals_Ok o tag ref se s s' :
  name_ParseReference tag = Ok ref →
  oci.writePeripherals o ref se s = (Ok tt, s') →
  heap s' = heap s ∧ files s' = files s
  ∧ ∃ evs, trace s' = trace s ++ evs
           ∧ Forall peripheral_event evs
           ∧ match oci.SignedEntity_Attachment se "sbom" with
             | Ok _ => ∃ w, successful_file_writes evs = [w] ∧ sbom_written o se tag w
             | Err _ => successful_file_writes evs = []
             end.
Proof.
  intros Href Hrun. destruct (appends_writePeripherals _ _ _ _ _ _ Hrun) as (evs0 & Ht0 & Hp).
  apply writePeripherals_run in Hrun as (Hh & Hf & evs & Ht & Hwhere & Hnone & Hone).
  assert (evs0 = evs) as -> by (rewrite Ht0 in Ht; by apply app_inv_head in Ht).
  split_and!; [done..|]. exists evs. split_and!; [done..|].
  destruct (oci.SignedEntity_Attachment se "sbom") as [f|e] eqn:Hatt.
  - destruct (Hone eq_refl ltac:(by eexists)) as (t & f' & Hw & _).
    exists (t, f'). split; [done|].
    assert ((t, f') ∈ successful_file_writes evs) as Hin by (rewrite Hw; set_solver).
    apply elem_of_successful_file_writes, Hwhere in Hin as (repo & h & ? & ? & ? & ?).
    exists ref, repo, h. split_and!; [done..|]. simpl. congruence.
  - by rewrite (Hnone ltac:(by eexists)).
Qed.

Lemma postAttachTags_Ok o se tags s s' :
  oci.postAttachTags o se tags s = (Ok tt, s') →
  heap s' = heap s ∧ files s' = files s
  ∧ ∃ evs, trace s' = trace s ++ evs
           ∧ Forall peripheral_event evs
           ∧ match oci.SignedEntity_Attachment se "sbom" with
             | Ok _ => Forall2 (sbom_written o se) tags (successful_file_writes evs)
             | Err _ =>
                 successful_file_writes evs = []
                 ∧ Forall (λ tag, is_Ok (name_ParseReference tag)) tags
             end.
Proof.
  revert s. induction tags as [|tag tags IH]; intros s; simpl.
  - intros [_ ->]%mret_run. split_and!; [done..|]. exists []. rewrite app_nil_r.
    split_and!; [done..|]. by destruct (oci.SignedEntity_Attachment se "sbom").
  - intros Hrun. apply bind_Ok in Hrun as (ref & s0 & Href & Hrun).
    apply liftR_run in Href as [Href ->]. symmetry in Href. apply wrap_Ok in Href.
    cbv zeta in Hrun. apply bind_Ok in Hrun as ([] & s1 & Hwp & Hrest).
    apply (writePeripherals_Ok _ tag) in Hwp as (Hh1 & Hf1 & evs1 & Ht1 & Hp1 & Hw1); [|done].
    apply IH in Hrest as (Hh2 & Hf2 & evs2 & Ht2 & Hp2 & Hw2).
    split_and!; [by rewrite Hh2, Hh1|by rewrite Hf2, Hf1|].
    exists (evs1 ++ evs2). split_and!.
    + by rewrite Ht2, Ht1, app_assoc.
    + by apply Forall_app.
    + rewrite successful_file_writes_app.
      destruct (oci.SignedEntity_Attachment se "sbom") as [f|e].
      * destruct Hw1 as (w & -> & Hw). by constructor.
      * destruct Hw2 as [-> Hall]. rewrite Hw1. split; [done|]. constructor; [by eexists|done].
Qed.

Lemma successful_file_writes_logs evs : Forall is_log evs → successful_file_writes evs = [].
Proof.
  induction 1 as [|ev evs Hev _ IH]; [done|].
  change (successful_file_writes (ev :: evs)) with (successful_file_writes ([ev] ++ evs)).
  rewrite successful_file_writes_app, IH. by destruct ev.
Qed.

(** X16. When an SBOM is attached to an entity that is already
    published and the call succeeds, the entity returned is what the
    attacher made of the one given, no Go map and no file was changed,
    and nothing but log lines and SBOM files was written. If the entity
    returned has an attachment named "sbom", that file was accepted once
    for each tag and in the order of the tags, at the SBOM tag of the
    digest of the entity in the repository of the tag or in the
    repository that overrides it; if it has none, every tag was parsed
    and no file was written. *)
Theorem post_attach_sbom o si sbomPath sbomFormats arch tags s si' s' :
  oci.PostAttachSBOM o si sbomPath sbomFormats arch tags s = (Ok si', s') →
  heap s' = heap s ∧ files s' = files s
  ∧ (∃ s0, oci.attachSBOM si sbomPath sbomFormats arch s = (Ok si', s0))
  ∧ ∃ evs, trace s' = trace s ++ evs
           ∧ Forall peripheral_event evs
           ∧ match oci.SignedEntity_Attachment si' "sbom" with
             | Ok _ => Forall2 (sbom_written o si') tags (successful_file_writes evs)
             | Err _ =>
                 successful_file_writes evs = []
                 ∧ Forall (λ tag, is_Ok (name_ParseReference tag)) tags
             end.
Proof.
  intros Hrun. unfold oci.PostAttachSBOM in Hrun.
  apply bind_Ok in Hrun as (se & s0 & Hatt & Hrun).
  apply bind_Ok in Hrun as ([] & s1 & Htags & Hrun).
  apply mret_run in Hrun as [[= <-] ->].
  destruct (attachSBOM_frame _ _ _ _ _ _ _ Hatt) as [Hh0 Hf0].
  destruct (appends_attachSBOM is_log _ _ _ _ ltac:(done) _ _ _ Hatt) as (evs0 & Ht0 & Hlogs).
  apply postAttachTags_Ok in Htags as (Hh1 & Hf1 & evs1 & Ht1 & Hp1 & Hw1).
  split_and!; [by rewrite Hh1|by rewrite Hf1|by eexists|].
  exists (evs0 ++ evs1). split_and!.
  - by rewrite Ht1, Ht0, app_assoc.
  - apply Forall_app. split; [|done]. eapply Forall_impl; [exact Hlogs|]. by intros [].
  - by rewrite successful_file_writes_app, (successful_file_writes_logs _ Hlogs).
Qed.

(** X17. Building the tarball of an image sends nothing to the daemon
    or to a registry, and changes no file but the output file. The
    output file is written only after the image was assembled, with the
    Docker layer type when the options ask for Docker media types and
    the OCI layer type otherwise, and after the reference was read as a
    tag; when the assembly or the tag fails every file is as before. A
    call that succeeds leaves in the output file the tarball of the
    assembled image under that tag. *)
Theorem tarball_touches_only_output o create tarball imageRef layerTarGZ outputTarGZ ic opts
    s r s' :
  oci.BuildImageTarballFromLayer o create tarball imageRef layerTarGZ outputTarGZ ic opts s
  = (r, s') →
  let mediaType :=
    if oci.UseDockerMediaTypes opts then ggcrtypes.DockerLayer else ggcrtypes.OCILayer in
  let built :=
    oci.buildImageFromLayerWithMediaType o mediaType layerTarGZ ic (oci.SourceDateEpoch opts)
      (oci.Arch opts) (oci.SBOMPath opts) (oci.SBOMFormats opts) s in
  (∀ path, path ≠ outputTarGZ → files s' !! path = files s !! path)
  ∧ (∃ evs, trace s' = trace s ++ evs ∧ Forall is_log evs)
  ∧ (files s' ≠ files s →
     ∃ image tag, built.1 = Ok image ∧ name_NewTag imageRef = Ok tag
                  ∧ create outputTarGZ = None
                  ∧ files s' = <[outputTarGZ := (tarball tag image).1]> (files s))
  ∧ (r = Ok tt →
     ∃ image tag bytes,
       built.1 = Ok image ∧ name_NewTag imageRef = Ok tag
       ∧ create outputTarGZ = None
       ∧ tarball tag image = (bytes, None)
       ∧ files s' = <[outputTarGZ := bytes]> (files s)).
Proof.
  intros Hrun mediaType built.
  assert (oci.buildImageTarballFromLayerWithMediaType o create tarball mediaType imageRef
            layerTarGZ outputTarGZ ic opts s = (r, s')) as H.
  { unfold oci.BuildImageTarballFromLayer in Hrun. unfold mediaType.
    by destruct (oci.UseDockerMediaTypes opts). }
  clear Hrun. unfold oci.buildImageTarballFromLayerWithMediaType in H. cbv zeta in H.
  unfold mbind at 1, M_bind at 1, bind at 1 in H. fold built in H.
  destruct built as [[image|e] s0] eqn:Hbuilt; unfold built in Hbuilt.
  2:{ injection H as <- <-. destruct (appends_build _ _ _ _ _ _ _ _ _ _ _ Hbuilt) as (evs & ? & ?).
      assert (files s0 = files s) as Hf.
      { by apply build_errors_files in Hbuilt. }
      split_and!; [by rewrite Hf|by exists evs|by rewrite Hf|done]. }
  destruct (appends_build _ _ _ _ _ _ _ _ _ _ _ Hbuilt) as (evs0 & Ht0 & Hlogs).
  apply build_frame in Hbuilt as [Hf0 _].
  rewrite bind_liftR in H.
  destruct (name_NewTag imageRef) as [tag|e] eqn:Htag; simpl in H.
  2:{ injection H as <- <-. split_and!; [by rewrite Hf0|by exists evs0|by rewrite Hf0|done]. }
  unfold mbind, M_bind, bind, wrapM, oci.v1tar_WriteToFile, log, modify in H.
  destruct (create outputTarGZ) as [e|] eqn:Hcreate; simpl in H.
  { injection H as <- <-. split_and!; [by rewrite Hf0|by exists evs0|by rewrite Hf0|done]. }
  destruct (tarball tag image) as [bytes err] eqn:Htar.
  assert (files s' = <[outputTarGZ := bytes]> (files s)
          ∧ ∃ evs, trace s' = trace s ++ evs ∧ Forall is_log evs) as [Hf [evs Hevs]].
  { destruct err; simpl in H; injection H as _ <-; simpl; rewrite Hf0; (split; [done|]).
    - by exists evs0.
    - exists (evs0 ++ [EvLog InfoLevel
                         ("output " +:+ oci.humanReadableImageType mediaType
                          +:+ " image file to " +:+ outputTarGZ)]).
      rewrite Ht0, app_assoc. split; [done|]. apply Forall_app. split; [done|].
      by repeat constructor. }
  split_and!.
  - intros path Hne. by rewrite Hf, lookup_insert_ne.
  - by exists evs.
  - intros _. exists image, tag. by rewrite Htar.
  - intros ->. destruct err; simpl in H; [done|]. by exists image, tag, bytes.
Qed.

End post_attach.

(** ** The further properties on the sample world *)

Lemma built_media_types_witness :
  ∃ si s',
    oci.buildImageFromLayerWithMediaType (L := Sample.collab) (Sample.oracle "")
      ggcrtypes.OCILayer "layer.tar.gz" Sample.ic 0 Sample.amd64 "sboms" ["spdx"] Sample.state
    = (Ok si, s')
    ∧ img_layers (si_image si)
      = [ {| layer_bytes := "LAYER"; layer_mediaType := ggcrtypes.OCILayer |} ]
    ∧ img_mediaType (si_image si) = ggcrtypes.OCIManifestSchema1.
Proof.
  destruct (oci.buildImageFromLayerWithMediaType (L := Sample.collab) (Sample.oracle "")
              ggcrtypes.OCILayer "layer.tar.gz" Sample.ic 0 Sample.amd64 "sboms" ["spdx"]
              Sample.state) as [[si|e] s'] eqn:Hrun; [|by vm_compute in Hrun].
  exists si, s'. split; [done|].
  destruct (built_media_types _ _ _ _ _ _ _ _ _ _ _ Hrun) as ((b & Hb & Hl) & Hoci & _).
  vm_compute in Hb. injection Hb as <-. split; [exact Hl|]. by destruct (Hoci eq_refl).
Defined.

Lemma built_annotations_witness :
  ∃ si s',
    oci.buildImageFromLayerWithMediaType (L := Sample.collab) (Sample.oracle "")
      ggcrtypes.OCILayer "layer.tar.gz" Sample.ic 0 Sample.amd64 "sboms" ["spdx"] Sample.state
    = (Ok si, s')
    ∧ img_annotations (si_image si) !! "org.opencontainers.image.source"
      = Some "https://github.com/chainguard-dev/apko"
    ∧ img_annotations (si_image si) !! "org.opencontainers.image.revision" = Some "0123abc".
Proof.
  destruct (oci.buildImageFromLayerWithMediaType (L := Sample.collab) (Sample.oracle "")
              ggcrtypes.OCILayer "layer.tar.gz" Sample.ic 0 Sample.amd64 "sboms" ["spdx"]
              Sample.state) as [[si|e] s'] eqn:Hrun; [|by vm_compute in Hrun].
  exists si, s'. split; [done|].
  destruct (built_annotations _ _ _ _ _ _ _ _ _ _ _ Hrun) as (_ & Hoci).
  destruct (Hoci ltac:(discriminate)) as [Hcut _].
  destruct (Hcut "https://github.com/chainguard-dev/apko" "0123abc"
              ltac:(discriminate) ltac:(vm_compute; reflexivity)) as (Hsrc & Hrev & _).
  by split.
Defined.

Lemma built_config_fields_witness :
  ∃ si s',
    oci.buildImageFromLayerWithMediaType (L := Sample.collab) (Sample.oracle "")
      ggcrtypes.OCILayer "layer.tar.gz" Sample.ic 0 Sample.amd64 "sboms" ["spdx"] Sample.state
    = (Ok si, s')
    ∧ cf_Author (img_configFile (si_image si)) = "github.com/chainguard-dev/apko"
    ∧ cfg_User (cf_Config (img_configFile (si_image si))) = "65532".
Proof.
  destruct (oci.buildImageFromLayerWithMediaType (L := Sample.collab) (Sample.oracle "")
              ggcrtypes.OCILayer "layer.tar.gz" Sample.ic 0 Sample.amd64 "sboms" ["spdx"]
              Sample.state) as [[si|e] s'] eqn:Hrun; [|by vm_compute in Hrun].
  exists si, s'. split; [done|].
  destruct (built_config_fields _ _ _ _ _ _ _ _ _ _ _ Hrun)
    as (Hauthor & _ & _ & _ & _ & _ & _ & _ & _ & Huser).
  by split.
Defined.

Lemma cmd_synthesis_witness :
  ∃ si s',
    oci.buildImageFromLayerWithMediaType (L := Sample.collab) (Sample.oracle "")
      ggcrtypes.OCILayer "layer.tar.gz" Sample.ic 0 Sample.amd64 "sboms" ["spdx"] Sample.state
    = (Ok si, s')
    ∧ cfg_Cmd (cf_Config (img_configFile (si_image si))) = ["--port"; "80 80"].
Proof.
  destruct (oci.buildImageFromLayerWithMediaType (L := Sample.collab) (Sample.oracle "")
              ggcrtypes.OCILayer "layer.tar.gz" Sample.ic 0 Sample.amd64 "sboms" ["spdx"]
              Sample.state) as [[si|e] s'] eqn:Hrun; [|by vm_compute in Hrun].
  exists si, s'. split; [done|].
  destruct (cmd_synthesis _ _ _ _ _ _ _ _ _ _ _ Hrun) as [Hsplit _].
  specialize (Hsplit ltac:(discriminate)).
  assert (shlex_Split (Collab := Sample.collab) (Cmd Sample.ic) = Ok ["--port"; "80 80"])
    as Hwords by (vm_compute; reflexivity).
  rewrite Hwords in Hsplit. by injection Hsplit as <-.
Defined.

Lemma built_sbom_attachment_witness :
  ∃ si s' f,
    oci.buildImageFromLayerWithMediaType (L := Sample.collab) (Sample.oracle "")
      ggcrtypes.OCILayer "layer.tar.gz" Sample.ic 0 Sample.amd64 "sboms" ["spdx"] Sample.state
    = (Ok si, s')
    ∧ si_attachments si = {[ "sbom" := f ]}.
Proof.
  destruct (oci.buildImageFromLayerWithMediaType (L := Sample.collab) (Sample.oracle "")
              ggcrtypes.OCILayer "layer.tar.gz" Sample.ic 0 Sample.amd64 "sboms" ["spdx"]
              Sample.state) as [[si|e] s'] eqn:Hrun; [|by vm_compute in Hrun].
  destruct (built_sbom_attachment _ _ _ _ _ _ _ _ _ _ _ Hrun) as (mt & ext & b & f & _ & _ & _ & Hatt).
  by exists si, s', f.
Defined.

Lemma assembler_frame_witness :
  ∃ si s',
    oci.buildImageFromLayerWithMediaType (L := Sample.collab) (Sample.oracle "")
      ggcrtypes.OCILayer "layer.tar.gz" Sample.ic 0 Sample.amd64 "sboms" ["spdx"] Sample.state
    = (Ok si, s')
    ∧ files s' = files Sample.state.
Proof.
  destruct (oci.buildImageFromLayerWithMediaType (L := Sample.collab) (Sample.oracle "")
              ggcrtypes.OCILayer "layer.tar.gz" Sample.ic 0 Sample.amd64 "sboms" ["spdx"]
              Sample.state) as [[si|e] s'] eqn:Hrun; [|by vm_compute in Hrun].
  exists si, s'. split; [done|].
  by destruct (assembler_frame _ _ _ _ _ _ _ _ _ _ _ Hrun) as [Hf _].
Defined.



Lemma publish_writes_every_tag_witness :
  ∃ d image s' evs,
    oci.publishImageFromLayerWithMediaType (L := Sample.collab) (Sample.oracle "")
      ggcrtypes.OCILayer "layer.tar.gz" Sample.ic 0 Sample.amd64 "sboms" ["spdx"] false
      ["up.example.com/app:v1"; "up.example.com/app:latest"] Sample.state
    = (Ok (d, image), s')
    ∧ trace s' = trace Sample.state ++ evs
    ∧ length (successful_writes evs) = 2%nat.
Proof.
  destruct (oci.publishImageFromLayerWithMediaType (L := Sample.collab) (Sample.oracle "")
              ggcrtypes.OCILayer "layer.tar.gz" Sample.ic 0 Sample.amd64 "sboms" ["spdx"] false
              ["up.example.com/app:v1"; "up.example.com/app:latest"] Sample.state)
    as [[[d image]|e] s'] eqn:Hrun; [|by vm_compute in Hrun].
  destruct (publish_writes_every_tag _ _ _ _ _ _ _ _ _ _ _ _ _ Hrun)
    as (_ & refs & evs & Hrefs & Ht & Hw).
  exists d, image, s', evs. split_and!; [done..|].
  apply Forall2_length in Hrefs. by rewrite Hw, length_fmap, <- Hrefs.
Defined.

Lemma sbom_upload_condition_witness :
  ∃ r s',
    oci.writePeripherals (L := Sample.collab) (Sample.oracle "")
      (RefTag {| tag_Repository := {| Registry := "up.example.com"; RepositoryStr := "app" |};
                 TagStr := "v1" |})
      (SEImage {| si_image := empty.Image;
                  si_attachments :=
                    {[ "sbom" := {| file_payload := "SPDX";
                                    file_layerMediaType := ctypes.SPDXJSONMediaType |} ]} |})
      Sample.state = (r, s')
    ∧ files s' = files Sample.state.
Proof.
  destruct (oci.writePeripherals (L := Sample.collab) (Sample.oracle "")
      (RefTag {| tag_Repository := {| Registry := "up.example.com"; RepositoryStr := "app" |};
                 TagStr := "v1" |})
      (SEImage {| si_image := empty.Image;
                  si_attachments :=
                    {[ "sbom" := {| file_payload := "SPDX";
                                    file_layerMediaType := ctypes.SPDXJSONMediaType |} ]} |})
      Sample.state) as [r s'] eqn:Hrun.
  exists r, s'. split; [done|].
  by destruct (sbom_upload_condition _ _ _ _ _ _ Hrun) as (_ & Hf & _).
Defined.

Lemma local_save_not_retried_witness :
  ∃ s',
    oci.publishTagFromImage (L := Sample.collab) daemon_down
      (signed.Image empty.Image) "up.example.com/app:v1" (Sample.digestOf "0a1b") true
      Sample.state
    = (Err (WrapError "failed to save OCI image locally" (ExternalError "connection refused")),
       s')
    ∧ last (trace s')
      = Some (EvLog ErrorLevel
                ("docker daemon error: "
                 +:+ "Cannot connect to the Docker daemon\nIs the daemon running?")).
Proof.
  destruct (oci.publishTagFromImage (L := Sample.collab) daemon_down
              (signed.Image empty.Image) "up.example.com/app:v1" (Sample.digestOf "0a1b") true
              Sample.state) as [r s'] eqn:Hrun.
  destruct (local_save_not_retried _ _ _ _ _ _ _ Hrun)
    as (_ & _ & [(_ & _ & Hparse)
                |(ref & t & resp & err & line & _ & _ & Ht & Hd & _ & Hpieces & _ & _ & ->)]).
  { exfalso. destruct Hparse as [[e He]|[e He]]; vm_compute in He; discriminate He. }
  cbn [daemon_Write daemon_down] in Hd. injection Hd as <- <-.
  exists s'. split; [reflexivity|].
  rewrite Ht, (Hpieces ["Cannot connect to the Docker daemon"; "Is the daemon running?"]);
    [reflexivity|by repeat constructor|reflexivity].
Defined.

Lemma index_publish_order_witness :
  ∃ r s',
    oci.publishTagFromIndex (L := Sample.collab) (Sample.oracle "")
      empty.Index "up.example.com/app:v1" (Sample.digestOf "0a1b") Sample.state = (r, s')
    ∧ files s' = files Sample.state.
Proof.
  destruct (oci.publishTagFromIndex (L := Sample.collab) (Sample.oracle "")
              empty.Index "up.example.com/app:v1" (Sample.digestOf "0a1b") Sample.state)
    as [r s'] eqn:Hrun.
  exists r, s'. split; [done|].
  by destruct (index_publish_order _ _ _ _ _ _ _ Hrun) as (_ & Hf & _).
Defined.

Lemma index_writes_every_tag_witness :
  ∃ d idx s' evs,
    oci.publishIndexWithMediaType (L := Sample.collab) (Sample.oracle "")
      ggcrtypes.OCIImageIndex Sample.ic Sample.imgs false
      ["up.example.com/app:v1"; "up.example.com/app:latest"] Sample.state
    = (Ok (d, idx), s')
    ∧ trace s' = trace Sample.state ++ evs
    ∧ length (successful_index_writes evs) = 2%nat.
Proof.
  destruct (oci.publishIndexWithMediaType (L := Sample.collab) (Sample.oracle "")
              ggcrtypes.OCIImageIndex Sample.ic Sample.imgs false
              ["up.example.com/app:v1"; "up.example.com/app:latest"] Sample.state)
    as [[[d idx]|e] s'] eqn:Hrun; [|by vm_compute in Hrun].
  destruct (index_writes_every_tag _ _ _ _ _ _ _ _ _ Hrun)
    as (_ & _ & h & refs & evs & _ & Hrefs & Ht & _ & Hw & _).
  exists d, idx, s', evs. split_and!; [done..|].
  apply Forall2_length in Hrefs. by rewrite Hw, length_fmap, <- Hrefs.
Defined.

Lemma index_local_promotion_witness :
  ∃ r s',
    oci.publishIndexWithMediaType (L := Sample.collab) (Sample.oracle "")
      ggcrtypes.OCIImageIndex Sample.ic Sample.imgs true
      ["up.example.com/app:v1"; "up.example.com/app:latest"] Sample.state = (r, s')
    ∧ files s' = files Sample.state.
Proof.
  assert (match oci.assembleIndex (L := Sample.collab) (Sample.oracle "")
                  ggcrtypes.OCIImageIndex Sample.imgs with
          | Ok idx =>
              bool_decide
                (is_Some (find (is_native (goos_of (Sample.oracle ""))
                                  (goarch_of (Sample.oracle ""))) (Manifests idx))) = true
          | Err _ => False
          end) as Hnative by (vm_compute; reflexivity).
  destruct (oci.assembleIndex (L := Sample.collab) (Sample.oracle "")
              ggcrtypes.OCIImageIndex Sample.imgs) as [idx|e] eqn:Hidx;
    [|destruct Hnative].
  apply bool_decide_eq_true_1 in Hnative as [manifest Hfind].
  destruct (oci.publishIndexWithMediaType (L := Sample.collab) (Sample.oracle "")
              ggcrtypes.OCIImageIndex Sample.ic Sample.imgs true
              ["up.example.com/app:v1"; "up.example.com/app:latest"] Sample.state)
    as [r s'] eqn:Hrun.
  exists r, s'. split; [done|].
  by destruct (index_local_promotion _ _ _ _ _ _ _ _ _ _ Hidx Hfind Hrun) as (_ & Hf & _).
Defined.

Lemma index_local_fallthrough_witness :
  oci.publishIndexWithMediaType (L := Sample.collab) (Sample.oracle "")
    ggcrtypes.OCIImageIndex Sample.ic {[ Sample.arm64 := signed.Image empty.Image ]} true
    ["up.example.com/app:v1"] Sample.state
  = oci.publishIndexWithMediaType (L := Sample.collab) (Sample.oracle "")
      ggcrtypes.OCIImageIndex Sample.ic {[ Sample.arm64 := signed.Image empty.Image ]} false
      ["up.example.com/app:v1"] Sample.state.
Proof.
  apply (index_local_fallthrough (L := Sample.collab)).
  intros arch [img [<- _]%lookup_singleton_Some]. right. intros H. by vm_compute in H.
Defined.


Lemma post_attach_sbom_witness :
  ∃ si' s',
    oci.PostAttachSBOM (L := Sample.collab) (Sample.oracle "")
      (SEImage (signed.Image empty.Image)) "sboms" ["spdx"] Sample.amd64
      ["up.example.com/app:v1"] Sample.state = (Ok si', s')
    ∧ files s' = files Sample.state.
Proof.
  destruct (oci.PostAttachSBOM (L := Sample.collab) (Sample.oracle "")
              (SEImage (signed.Image empty.Image)) "sboms" ["spdx"] Sample.amd64
              ["up.example.com/app:v1"] Sample.state)
    as [[si'|e] s'] eqn:Hrun; [|by vm_compute in Hrun].
  exists si', s'. split; [done|].
  by destruct (post_attach_sbom _ _ _ _ _ _ _ _ _ Hrun) as (_ & Hf & _).
Defined.

Lemma tarball_touches_only_output_witness :
  ∃ r s',
    oci.BuildImageTarballFromLayer (L := Sample.collab) (Sample.oracle "")
      (λ _, None) (λ _ _, ("TARBALL", None)) "up.example.com/app:v1" "layer.tar.gz"
      "image.tar" Sample.ic
      {| oci.UseDockerMediaTypes := false; oci.SourceDateEpoch := 0;
         oci.Arch := Sample.amd64; oci.SBOMPath := "sboms"; oci.SBOMFormats := [] |}
      Sample.state = (r, s')
    ∧ files s' !! "layer.tar.gz" = files Sample.state !! "layer.tar.gz".
Proof.
  destruct (oci.BuildImageTarballFromLayer (L := Sample.collab) (Sample.oracle "")
      (λ _, None) (λ _ _, ("TARBALL", None)) "up.example.com/app:v1" "layer.tar.gz"
      "image.tar" Sample.ic
      {| oci.UseDockerMediaTypes := false; oci.SourceDateEpoch := 0;
         oci.Arch := Sample.amd64; oci.SBOMPath := "sboms"; oci.SBOMFormats := [] |}
      Sample.state) as [r s'] eqn:Hrun.
  exists r, s'. split; [done|].
  destruct (tarball_touches_only_output _ _ _ _ _ _ _ _ _ _ _ Hrun) as (Hother & _).
  by apply Hother.
Defined.
